(** * voicebot2: the voice session orchestrator, its silence detector and
    its backend client, embedded from the TypeScript sources.

  Layout: Part I holds the embedding (one module per source file), Part II
  the lemmas and theorems.  Time is counted in milliseconds ([N]), audio
  levels are rationals ([Q]), JavaScript strings are lists of UTF-16 code
  units. *)

From Stdlib Require Import List Bool Arith NArith ZArith QArith Lia String Ascii.
Import ListNotations.
Close Scope Q_scope.

Set Implicit Arguments.

(* ===================================================================== *)
(** * Part I - the embedding                                              *)
(* ===================================================================== *)

(** ** JavaScript strings: [String.prototype.trim] and truthiness *)
Module JsStr.

(** A string value is its sequence of UTF-16 code units. *)
Definition jsstring := list N.

Definition js (s : string) : jsstring :=
  map N_of_ascii (list_ascii_of_string s).

(** ECMAScript WhiteSpace and LineTerminator code points, the ones
    [trim] strips. *)
Definition isWhiteSpace (c : N) : bool :=
  ((9 <=? c) && (c <=? 13) || (c =? 32) || (c =? 160) || (c =? 5760)
   || ((8192 <=? c) && (c <=? 8202)) || (c =? 8232) || (c =? 8233)
   || (c =? 8239) || (c =? 8287) || (c =? 12288) || (c =? 65279))%N.

Fixpoint trimStart (s : jsstring) : jsstring :=
  match s with
  | c :: s' => if isWhiteSpace c then trimStart s' else s
  | [] => []
  end.

Definition trim (s : jsstring) : jsstring :=
  rev (trimStart (rev (trimStart s))).

(** [!s]: the empty string is the only falsy string. *)
Definition isEmpty (s : jsstring) : bool :=
  match s with [] => true | _ => false end.

(** A string that is empty or consists only of whitespace. *)
Definition blank (s : jsstring) : bool := forallb isWhiteSpace s.

(** [a || b] on strings. *)
Definition orElse (a b : jsstring) : jsstring :=
  if isEmpty a then b else a.

Definition eqb (a b : jsstring) : bool :=
  if list_eq_dec N.eq_dec a b then true else false.

End JsStr.

(** ** The browser's timer table, as far as the detector uses it *)
Module EventLoop.
Section WithClosure.

(** What the callback handed to [setTimeout] captured. *)
Variable C : Type.

Record Timeout := { tid : nat; due : N; closure : C }.

Record t := { timeouts : list Timeout; nextTimerId : nat; now : N }.

(** Timer ids are positive, so a handle is always truthy. *)
Definition fresh : t := {| timeouts := []; nextTimerId := 1; now := 0 |}.

Definition setTimeout (c : C) (delay : N) (el : t) : nat * t :=
  (nextTimerId el,
   {| timeouts := timeouts el ++
                  [{| tid := nextTimerId el; due := (now el + delay)%N;
                      closure := c |}];
      nextTimerId := S (nextTimerId el);
      now := now el |}).

Definition clearTimeout (id : nat) (el : t) : t :=
  {| timeouts := filter (fun x => negb (Nat.eqb (tid x) id)) (timeouts el);
     nextTimerId := nextTimerId el;
     now := now el |}.

(** [setInterval] draws its handle from the same counter. *)
Definition setInterval (el : t) : nat * t :=
  (nextTimerId el,
   {| timeouts := timeouts el; nextTimerId := S (nextTimerId el);
      now := now el |}).

Definition find (id : nat) (el : t) : option Timeout :=
  List.find (fun x => Nat.eqb (tid x) id) (timeouts el).

Definition advance (dt : N) (el : t) : t :=
  {| timeouts := timeouts el; nextTimerId := nextTimerId el;
     now := (now el + dt)%N |}.

Definition setNow (n : N) (el : t) : t :=
  {| timeouts := timeouts el; nextTimerId := nextTimerId el; now := n |}.

End WithClosure.
End EventLoop.

(** ** Types shared by both silence detectors *)
Module DetectorTypes.

(** Listener invocations, in the order they happen. *)
Inductive Callback := OnSilenceDetected | OnSpeechDetected | OnError.

Definition Callback_eqb (a b : Callback) : bool :=
  match a, b with
  | OnSilenceDetected, OnSilenceDetected
  | OnSpeechDetected, OnSpeechDetected
  | OnError, OnError => true
  | _, _ => false
  end.

(** [mergedOptions = { ...defaultOptions, ...options }]. *)
Record SilenceDetectorOptions := {
  silenceThreshold : option Q;
  silenceDuration : option N;
  checkInterval : option N }.

Record MergedOptions := {
  m_silenceThreshold : Q;
  m_silenceDuration : N;
  m_checkInterval : N }.

Definition defaultOptions : MergedOptions :=
  {| m_silenceThreshold := (5 # 100)%Q;
     m_silenceDuration := 5000;
     m_checkInterval := 100 |}.

Definition orDefault {A} (o : option A) (d : A) : A :=
  match o with Some x => x | None => d end.

Definition mergeOptions (o : SilenceDetectorOptions) : MergedOptions :=
  {| m_silenceThreshold :=
       orDefault (silenceThreshold o) (m_silenceThreshold defaultOptions);
     m_silenceDuration :=
       orDefault (silenceDuration o) (m_silenceDuration defaultOptions);
     m_checkInterval :=
       orDefault (checkInterval o) (m_checkInterval defaultOptions) |}.

(** [isAudioSilent]: [audioLevel < threshold]. *)
Definition isAudioSilent (audioLevel threshold : Q) : bool :=
  negb (Qle_bool threshold audioLevel).

(** The audio graph a detector holds.  An [AudioContext] is either
    live or closed; the other three handles are present or null. *)
Inductive ContextState := CtxRunning | CtxClosed.

Record Resources := {
  audioContext : option ContextState;
  analyzer : bool;
  microphone : bool;
  stream : bool }.

Definition noResources : Resources :=
  {| audioContext := None; analyzer := false; microphone := false;
     stream := false |}.

Definition acquired : Resources :=
  {| audioContext := Some CtxRunning; analyzer := true;
     microphone := true; stream := true |}.

(** What the environment does to a detector.  [Start ok] is a call of
    [start()]; [ok] tells whether the microphone is granted should
    [initialize()] have to run.  [Tick level] is one run of the
    [setInterval] callback, [level] being what [getCurrentAudioLevel]
    returns.  [Fire id] is the event loop running timeout [id];
    it never does so before the timeout is due.  [Wait dt] lets
    time pass. *)
Inductive Event :=
| Start (ok : bool)
| Stop
| Cleanup
| Tick (level : Q)
| Fire (id : nat)
| Wait (dt : N).

Definition count (c : Callback) (l : list Callback) : nat :=
  List.length (filter (Callback_eqb c) l).

End DetectorTypes.

(** ** Device operations that can fail, and a small monad for them *)
Module Dom.

Inductive DomError :=
| InvalidStateError
| TypeError (msg : string)
| Error (msg : string).

(** A run of imperative code over a state [S]: it finishes, or an
    error escapes with the state as mutated so far. *)
Inductive Outcome (S : Type) :=
| Done (s : S)
| Raised (e : DomError) (s : S).

Arguments Done {S} s.
Arguments Raised {S} e s.

Definition andThen {S} (o : Outcome S) (f : S -> Outcome S) : Outcome S :=
  match o with
  | Done s => f s
  | Raised e s => Raised e s
  end.

Definition stateOf {S} (o : Outcome S) : S :=
  match o with Done s | Raised _ s => s end.

Definition raised {S} (o : Outcome S) : bool :=
  match o with Done _ => false | Raised _ _ => true end.

End Dom.

Notation "o >>= f" := (Dom.andThen o f) (at level 50, left associativity).

(** ** What the two silence detectors have in common

  [src/services/audio/silence-detector.service.ts] and the older
  detector of [src/unnamed/part_000] declare the same closure variables
  and have the same [initialize], [start] (up to the interval callback),
  [stop] and [cleanup].  These are embedded once, over the type [C] of
  what a timeout callback captured. *)
Module DetectorCommon.
Import DetectorTypes Dom.
Section WithClosure.

Variable C : Type.

(** The closure variables of [createSilenceDetector], with the timer
    table they act on. *)
Record Detector := {
  options : MergedOptions;
  res : Resources;
  checkIntervalTimer : option nat;
  silenceTimer : option nat;
  isSilent : bool;
  isInitialized : bool;
  isRunning : bool;
  silenceDetectedFlag : bool;
  loop : EventLoop.t C }.

Definition createSilenceDetector (o : SilenceDetectorOptions) : Detector :=
  {| options := mergeOptions o;
     res := noResources;
     checkIntervalTimer := None;
     silenceTimer := None;
     isSilent := false;
     isInitialized := false;
     isRunning := false;
     silenceDetectedFlag := false;
     loop := EventLoop.fresh C |}.

Definition withLoop (l : EventLoop.t C) (d : Detector) : Detector :=
  {| options := options d; res := res d;
     checkIntervalTimer := checkIntervalTimer d;
     silenceTimer := silenceTimer d; isSilent := isSilent d;
     isInitialized := isInitialized d; isRunning := isRunning d;
     silenceDetectedFlag := silenceDetectedFlag d; loop := l |}.

Definition withSilenceTimer (t : option nat) (d : Detector) : Detector :=
  {| options := options d; res := res d;
     checkIntervalTimer := checkIntervalTimer d;
     silenceTimer := t; isSilent := isSilent d;
     isInitialized := isInitialized d; isRunning := isRunning d;
     silenceDetectedFlag := silenceDetectedFlag d; loop := loop d |}.

Definition withIsSilent (b : bool) (d : Detector) : Detector :=
  {| options := options d; res := res d;
     checkIntervalTimer := checkIntervalTimer d;
     silenceTimer := silenceTimer d; isSilent := b;
     isInitialized := isInitialized d; isRunning := isRunning d;
     silenceDetectedFlag := silenceDetectedFlag d; loop := loop d |}.

Definition withFlag (b : bool) (d : Detector) : Detector :=
  {| options := options d; res := res d;
     checkIntervalTimer := checkIntervalTimer d;
     silenceTimer := silenceTimer d; isSilent := isSilent d;
     isInitialized := isInitialized d; isRunning := isRunning d;
     silenceDetectedFlag := b; loop := loop d |}.

Definition withRes (r : Resources) (d : Detector) : Detector :=
  {| options := options d; res := r;
     checkIntervalTimer := checkIntervalTimer d;
     silenceTimer := silenceTimer d; isSilent := isSilent d;
     isInitialized := isInitialized d; isRunning := isRunning d;
     silenceDetectedFlag := silenceDetectedFlag d; loop := loop d |}.

(** [clearTimeout(silenceTimer)] under [if (silenceTimer)]. *)
Definition clearSilenceTimer (d : Detector) : EventLoop.t C :=
  match silenceTimer d with
  | Some id => EventLoop.clearTimeout id (loop d)
  | None => loop d
  end.

(** [initialize()]; the boolean tells whether it threw.  [ok] is
    whether [getUserMedia] grants the microphone. *)
Definition initialize (ok : bool) (d : Detector)
    : Detector * list Callback * bool :=
  if isInitialized d then (d, [], false)
  else if ok then
    ({| options := options d; res := acquired;
        checkIntervalTimer := checkIntervalTimer d;
        silenceTimer := silenceTimer d; isSilent := isSilent d;
        isInitialized := true; isRunning := isRunning d;
        silenceDetectedFlag := false; loop := loop d |}, [], false)
  else (d, [OnError], true).

(** [start()], taken as one step: the [await] is over by the time
    anything else runs. *)
Definition start (ok : bool) (d : Detector) : Detector * list Callback :=
  let '(d, cbs, threw) :=
    if isInitialized d then (d, [], false) else initialize ok d in
  if threw then (d, cbs)
  else if isRunning d then (d, cbs)
  else
    let '(iv, l) := EventLoop.setInterval (clearSilenceTimer d) in
    ({| options := options d; res := res d;
        checkIntervalTimer := Some iv;
        silenceTimer := None; isSilent := false;
        isInitialized := isInitialized d; isRunning := true;
        silenceDetectedFlag := false; loop := l |}, cbs).

Definition stop (d : Detector) : Detector :=
  {| options := options d; res := res d;
     checkIntervalTimer := None;
     silenceTimer := None; isSilent := isSilent d;
     isInitialized := isInitialized d; isRunning := false;
     silenceDetectedFlag := silenceDetectedFlag d;
     loop := clearSilenceTimer d |}.

(** [AudioContext.close()] fails on a context that is closed already. *)
Definition AudioContext_close (c : ContextState) (d : Detector)
    : Outcome Detector :=
  match c with
  | CtxRunning => Done d
  | CtxClosed => Raised InvalidStateError d
  end.

Definition cleanup (d : Detector) : Outcome Detector :=
  Done (stop d)
  >>= (fun d => Done (withRes {| audioContext := audioContext (res d);
                                 analyzer := analyzer (res d);
                                 microphone := false;
                                 stream := stream (res d) |} d))
  >>= (fun d => Done (withRes {| audioContext := audioContext (res d);
                                 analyzer := false;
                                 microphone := microphone (res d);
                                 stream := stream (res d) |} d))
  >>= (fun d => match audioContext (res d) with
                | Some c =>
                  (match c with
                   | CtxClosed => Done d
                   | _ => AudioContext_close c d
                   end)
                  >>= (fun d => Done (withRes
                         {| audioContext := None;
                            analyzer := analyzer (res d);
                            microphone := microphone (res d);
                            stream := stream (res d) |} d))
                | None => Done d
                end)
  >>= (fun d => Done (withRes {| audioContext := audioContext (res d);
                                 analyzer := analyzer (res d);
                                 microphone := microphone (res d);
                                 stream := false |} d))
  >>= (fun d => Done
         {| options := options d; res := res d;
            checkIntervalTimer := checkIntervalTimer d;
            silenceTimer := silenceTimer d; isSilent := isSilent d;
            isInitialized := false; isRunning := isRunning d;
            silenceDetectedFlag := false; loop := loop d |}).

(** A detector as a machine: [tick] is the interval callback, [fire]
    the event loop running one timeout. *)
Variable tick : Q -> Detector -> Detector * list Callback.
Variable fire : nat -> Detector -> Detector * list Callback.

Definition step (d : Detector) (e : Event) : Detector * list Callback :=
  match e with
  | Start ok => start ok d
  | Stop => (stop d, [])
  | Cleanup => (stateOf (cleanup d), [])
  | Tick level => tick level d
  | Fire id => fire id d
  | Wait dt => (withLoop (EventLoop.advance dt (loop d)) d, [])
  end.

(** The listener calls of a sequence of events, each with the value
    [isRunning] had when its event began. *)
Fixpoint run (d : Detector) (es : list Event)
    : Detector * list (bool * Callback) :=
  match es with
  | [] => (d, [])
  | e :: es =>
    let '(d', cbs) := step d e in
    let '(d'', tr) := run d' es in
    (d'', map (fun c => (isRunning d, c)) cbs ++ tr)
  end.

(** *** An ideal schedule: every callback runs at the instant it is due *)

(** The timeouts due by [t] (strictly before it when [strict]), oldest
    first.  All timeouts of one detector have the same delay, so this
    is also the order in which they fall due. *)
Definition dueBy (strict : bool) (t : N) (l : EventLoop.t C)
    : list (nat * N) :=
  map (fun x => (EventLoop.tid x, EventLoop.due x))
      (filter (fun x => if strict then (EventLoop.due x <? t)%N
                        else (EventLoop.due x <=? t)%N)
              (EventLoop.timeouts l)).

Definition stamp (d : Detector) (cbs : list Callback)
    : list (N * Callback) :=
  map (fun c => (EventLoop.now (loop d), c)) cbs.

Definition fireAt (acc : Detector * list (N * Callback)) (x : nat * N)
    : Detector * list (N * Callback) :=
  let '(d, tr) := acc in
  let d := withLoop (EventLoop.setNow (N.max (EventLoop.now (loop d))
                                              (snd x)) (loop d)) d in
  let '(d', cbs) := fire (fst x) d in
  (d', tr ++ stamp d cbs).

Definition settle (strict : bool) (t : N) (d : Detector)
    : Detector * list (N * Callback) :=
  let '(d', tr) := fold_left fireAt (dueBy strict t (loop d)) (d, []) in
  (withLoop (EventLoop.setNow (N.max (EventLoop.now (loop d')) t)
                              (loop d')) d', tr).

(** The interval callback runs every [checkInterval] ms, reading one
    sample each time.  A timeout due at the very instant of a tick runs
    after the tick unless [timersFirst]. *)
Fixpoint sample (timersFirst : bool) (d : Detector) (levels : list Q)
    : Detector * list (N * Callback) :=
  match levels with
  | [] => (d, [])
  | level :: levels =>
    let t := (EventLoop.now (loop d) + m_checkInterval (options d))%N in
    let '(d1, tr1) := settle (negb timersFirst) t d in
    let '(d2, cbs) := tick level d1 in
    let '(d3, tr3) := sample timersFirst d2 levels in
    (d3, tr1 ++ stamp d1 cbs ++ tr3)
  end.

End WithClosure.
End DetectorCommon.

(** ** src/services/audio/silence-detector.service.ts *)
Module SilenceDetectorService.
Import DetectorTypes Dom DetectorCommon.

(** The object literal
    [{ isSilent, silenceTimer, silenceDetectedFlag, isRunning }] built at
    every tick: a copy of the four closure variables.  [handleSilence]
    writes to this copy, and the timeout callback it creates keeps a
    reference to it and to nothing else, so the copy travels with the
    timeout. *)
Record DetectionState := {
  st_isSilent : bool;
  st_silenceTimer : option nat;
  st_silenceDetectedFlag : bool;
  st_isRunning : bool }.

Abbreviation Loop := (EventLoop.t DetectionState).
Abbreviation Detector := (DetectorCommon.Detector DetectionState).

(** The body of the timeout callback, run on the copy it captured. *)
Definition timeoutCallback (state : DetectionState) : list Callback :=
  if st_isRunning state && negb (st_silenceDetectedFlag state)
  then [OnSilenceDetected] else [].

(** [handleSilence(state, options, listeners)]: the returned handle,
    the timer table, and the listeners called. *)
Definition handleSilence (state : DetectionState) (o : MergedOptions)
    (l : Loop) : option nat * Loop * list Callback :=
  if negb (st_isSilent state) then
    let state := {| st_isSilent := true;
                    st_silenceTimer := st_silenceTimer state;
                    st_silenceDetectedFlag := st_silenceDetectedFlag state;
                    st_isRunning := st_isRunning state |} in
    if (m_silenceDuration o =? 0)%N then
      (None, l,
       if st_isRunning state && negb (st_silenceDetectedFlag state)
       then [OnSilenceDetected] else [])
    else
      let delay := if (m_silenceDuration o =? 0)%N then 5000%N
                   else m_silenceDuration o in
      let '(id, l') := EventLoop.setTimeout state delay l in
      (Some id, l', [])
  else (st_silenceTimer state, l, []).

(** [handleSpeech(state, listeners)] on its own copy
    [{ isSilent, silenceTimer }]. *)
Definition handleSpeech (st_isSilent0 : bool) (st_silenceTimer0 : option nat)
    (l : Loop) : Loop * list Callback :=
  if st_isSilent0 then
    (match st_silenceTimer0 with
     | Some id => EventLoop.clearTimeout id l
     | None => l
     end, [OnSpeechDetected])
  else (l, []).

(** One run of the [setInterval] callback. *)
Definition tick (audioLevel : Q) (d : Detector) : Detector * list Callback :=
  match checkIntervalTimer d with
  | None => (d, [])
  | Some _ =>
    if negb (analyzer (res d)) || negb (isRunning d) then (d, [])
    else if isAudioSilent audioLevel (m_silenceThreshold (options d)) then
      let state := {| st_isSilent := isSilent d;
                      st_silenceTimer := silenceTimer d;
                      st_silenceDetectedFlag := silenceDetectedFlag d;
                      st_isRunning := isRunning d |} in
      let '(t, l, cbs) := handleSilence state (options d) (loop d) in
      (withSilenceTimer t (withLoop l d), cbs)
    else
      let '(l, cbs) := handleSpeech (isSilent d) (silenceTimer d) (loop d) in
      (withLoop l d, cbs)
  end.

(** The event loop runs timeout [id] once it is due, and forgets it. *)
Definition fire (id : nat) (d : Detector) : Detector * list Callback :=
  match EventLoop.find id (loop d) with
  | Some t =>
    if (EventLoop.due t <=? EventLoop.now (loop d))%N then
      (withLoop (EventLoop.clearTimeout id (loop d)) d,
       timeoutCallback (EventLoop.closure t))
    else (d, [])
  | None => (d, [])
  end.

Definition step := DetectorCommon.step tick fire.
Definition run := DetectorCommon.run tick fire.
Definition settle := DetectorCommon.settle fire.
Definition sample := DetectorCommon.sample tick fire.

End SilenceDetectorService.

(** ** The older detector, first file of src/unnamed/part_000 *)
Module LegacySilenceDetector.
Import DetectorTypes Dom DetectorCommon.

(** Its timeout callback reads the closure variables themselves and
    captures no copy. *)
Abbreviation Loop := (EventLoop.t unit).
Abbreviation Detector := (DetectorCommon.Detector unit).

(** One run of the [setInterval] callback. *)
Definition tick (normalizedVolume : Q) (d : Detector)
    : Detector * list Callback :=
  match checkIntervalTimer d with
  | None => (d, [])
  | Some _ =>
    if negb (analyzer (res d)) || negb (isRunning d) then (d, [])
    else if isAudioSilent normalizedVolume (m_silenceThreshold (options d))
    then
      if negb (isSilent d) then
        let d := withIsSilent true d in
        if (m_silenceDuration (options d) =? 0)%N then
          if isRunning d && negb (silenceDetectedFlag d)
          then (withFlag true d, [OnSilenceDetected])
          else (d, [])
        else
          let '(id, l) := EventLoop.setTimeout tt
                            (m_silenceDuration (options d)) (loop d) in
          (withSilenceTimer (Some id) (withLoop l d), [])
      else (d, [])
    else
      if isSilent d then
        let d := withIsSilent false d in
        let d := match silenceTimer d with
                 | Some id =>
                   withSilenceTimer None
                     (withLoop (EventLoop.clearTimeout id (loop d)) d)
                 | None => d
                 end in
        (d, [OnSpeechDetected])
      else (d, [])
  end.

(** The event loop runs timeout [id] once it is due, and forgets it. *)
Definition fire (id : nat) (d : Detector) : Detector * list Callback :=
  match EventLoop.find id (loop d) with
  | Some t =>
    if (EventLoop.due t <=? EventLoop.now (loop d))%N then
      let d := withLoop (EventLoop.clearTimeout id (loop d)) d in
      if isRunning d && negb (silenceDetectedFlag d)
      then (withFlag true d, [OnSilenceDetected])
      else (d, [])
    else (d, [])
  | None => (d, [])
  end.

Definition step := DetectorCommon.step tick fire.
Definition run := DetectorCommon.run tick fire.
Definition settle := DetectorCommon.settle fire.
Definition sample := DetectorCommon.sample tick fire.

End LegacySilenceDetector.

(** ** src/services/audio/recorder.service.ts *)
Module RecorderService.
Import Dom JsStr.

Record Blob := { blobType : jsstring; blobSize : N }.

Inductive RecordingState := Inactive | Recording | Paused.

(** Events a [MediaRecorder] has queued for its listeners. *)
Inductive RecorderEvent := EvStart | EvDataAvailable | EvStop.

(** The closure variables of [createAudioRecorder]; [mediaRecorder] is
    null or a recorder in some state, [stream] tells whether a live
    stream is held. *)
Record AudioRecorder := {
  mediaRecorder : option RecordingState;
  audioChunks : list Blob;
  stream : bool;
  queued : list RecorderEvent }.

Definition createAudioRecorder : AudioRecorder :=
  {| mediaRecorder := None; audioChunks := []; stream := false;
     queued := [] |}.

(** [MediaRecorder.stop()]: an error on an inactive recorder, otherwise
    the recorder becomes inactive and queues its last data and a stop
    event. *)
Definition MediaRecorder_stop (st : RecordingState) (r : AudioRecorder)
    : Outcome AudioRecorder :=
  match st with
  | Inactive => Raised InvalidStateError r
  | _ => Done {| mediaRecorder := Some Inactive;
                 audioChunks := audioChunks r;
                 stream := stream r;
                 queued := queued r ++ [EvDataAvailable; EvStop] |}
  end.

(** [MediaRecorder.start(timeslice)]: an error unless inactive. *)
Definition MediaRecorder_start (st : RecordingState) (r : AudioRecorder)
    : Outcome AudioRecorder :=
  match st with
  | Inactive => Done {| mediaRecorder := Some Recording;
                        audioChunks := audioChunks r;
                        stream := stream r;
                        queued := queued r ++ [EvStart] |}
  | _ => Raised InvalidStateError r
  end.

(** What [getUserMedia] answers: a stream, or an error whose message
    is [reason]. *)
Inductive Access := Granted | Refused (reason : string).

(** [initialize()]; the error of a refusal is the one
    [requestMicrophoneAccess] throws. *)
Definition initialize (access : Access) (r : AudioRecorder)
    : Outcome AudioRecorder :=
  match access with
  | Granted => Done {| mediaRecorder := Some Inactive;
                       audioChunks := audioChunks r;
                       stream := true;
                       queued := queued r |}
  | Refused reason =>
    Raised (Error ("Microphone access denied: " ++ reason)%string) r
  end.

Definition start (access : Access) (r : AudioRecorder)
    : Outcome AudioRecorder :=
  (match mediaRecorder r with
   | None => initialize access r
   | Some _ => Done r
   end)
  >>= (fun r => match mediaRecorder r with
                | Some Inactive => MediaRecorder_start Inactive r
                | _ => Done r
                end).

(** [if (mediaRecorder?.state !== "inactive") mediaRecorder?.stop()]:
    on a null recorder the test succeeds and the call does nothing. *)
Definition stopIfActive (r : AudioRecorder) : Outcome AudioRecorder :=
  match mediaRecorder r with
  | Some Inactive => Done r
  | Some st => MediaRecorder_stop st r
  | None => Done r
  end.

Definition stop (r : AudioRecorder) : Outcome AudioRecorder :=
  stopIfActive r.

Definition cleanup (r : AudioRecorder) : Outcome AudioRecorder :=
  stopIfActive r
  >>= (fun r => Done {| mediaRecorder := mediaRecorder r;
                        audioChunks := audioChunks r;
                        stream := false;
                        queued := queued r |})
  >>= (fun r => Done {| mediaRecorder := None;
                        audioChunks := [];
                        stream := stream r;
                        queued := queued r |}).

Definition getState (r : AudioRecorder) : option RecordingState :=
  mediaRecorder r.

End RecorderService.

(** ** The backend client: src/lib/openai.ts and the service of
     src/unnamed/part_006 (services/api/openai.service) *)
Module OpenAI.
Import JsStr.

Definition Blob := RecorderService.Blob.

Inductive Role := RoleUser | RoleAssistant | RoleSystem.
Inductive Sender := User | Ai.

(** The [audio] object of a message: [data] and [transcript] are
    absent ([None]) or strings. *)
Record AudioObject := {
  data : option jsstring;
  transcript : option jsstring }.

(** [content] is [None] when it is not a string (the backend sends
    null with audio replies). *)
Record ChatMessage := {
  role : Role;
  content : option jsstring;
  audio : option AudioObject }.

Record AudioOptions := { voice : option jsstring; format : option jsstring }.

Record ChatCompletionRequest := {
  model : jsstring;
  messages : list ChatMessage;
  temperature : Q;
  max_tokens : N;
  modalities : list jsstring;
  audio_voice : jsstring;
  audio_format : jsstring }.

Record ChatCompletionResponse := { choices : list ChatMessage }.

Record GPT4oResponse := { text : jsstring; audioData : option jsstring }.

Record GPT4oAudioResponse := {
  transcription : jsstring;
  textResponse : jsstring;
  r_audioData : option jsstring }.

Record SimpleMessage := { sm_content : jsstring; sm_sender : Sender }.

(** A promise settles: resolved with a value or rejected with an
    [Error] carrying a message. *)
Inductive Settled (A : Type) :=
| Resolved (a : A)
| Rejected (message : jsstring).
Arguments Resolved {A} a.
Arguments Rejected {A} message.

(** The body of an error reply after [JSON.parse]:
    [errorData.error?.message] and [errorData.message]. *)
Record ErrorData := {
  error_message : option jsstring;
  top_message : option jsstring }.

(** What [fetch] and the reads of the reply come to.  In [OkStatus] the
    body is parsed JSON, or [response.json()] rejects with a message. *)
Inductive Http (B : Type) :=
| NetworkError (message : jsstring)
| ErrorStatus (statusText errorText : jsstring) (errorData : option ErrorData)
| OkStatus (json : B + jsstring).
Arguments NetworkError {B} message.
Arguments ErrorStatus {B} statusText errorText errorData.
Arguments OkStatus {B} json.

(** The transcription reply's [text] field, absent or a string. *)
Record AudioTranscriptionResponse := { t_text : option jsstring }.

(** The backend, as the client sees it. *)
Record Backend := {
  transcriptions : Blob -> Http AudioTranscriptionResponse;
  completions : ChatCompletionRequest -> Http ChatCompletionResponse }.

Inductive Request :=
| TranscriptionRequest (file : Blob)
| ChatRequest (body : ChatCompletionRequest).

Definition API_CONFIG_audioModel := js "whisper-1".
Definition API_CONFIG_gptModel := js "gpt-4o-audio-preview".
Definition API_CONFIG_systemPrompt :=
  js "You are a helpful voice assistant. Provide concise and informative responses.".
Definition API_CONFIG_temperature : Q := (7 # 10)%Q.
Definition API_CONFIG_max_tokens : N := 150.

(** [validateApiKey]: the message it throws with, if it throws. *)
Definition validateApiKey (apiKey : jsstring) : option jsstring :=
  if isEmpty apiKey then Some (js "OpenAI API key is required") else None.

Definition optOrElse (a : option jsstring) (b : jsstring) : jsstring :=
  match a with Some x => orElse x b | None => b end.

(** The message of the [Error] thrown on a reply that is not ok. *)
Definition apiErrorMessage (statusText errorText : jsstring)
    (errorData : option ErrorData) : jsstring :=
  js "OpenAI API error: " ++
  match errorData with
  | Some e =>
    optOrElse (error_message e) (optOrElse (top_message e) statusText)
  | None => orElse errorText statusText
  end.

Definition prepareAudioForTranscription (audioBlob : Blob) : Blob :=
  if negb (JsStr.eqb (RecorderService.blobType audioBlob) (js "audio/mp3"))
     && negb (JsStr.eqb (RecorderService.blobType audioBlob) (js "audio/mpeg"))
  then {| RecorderService.blobType := js "audio/webm";
          RecorderService.blobSize := RecorderService.blobSize audioBlob |}
  else audioBlob.

Definition parseTranscriptionResponse (r : Http AudioTranscriptionResponse)
    : Settled jsstring :=
  match r with
  | NetworkError m => Rejected m
  | ErrorStatus st tx ed => Rejected (apiErrorMessage st tx ed)
  | OkStatus (inr m) => Rejected m
  | OkStatus (inl d) =>
    match t_text d with
    | Some t => Resolved (trim t)
    | None =>
      Rejected (js "Cannot read properties of undefined (reading 'trim')")
    end
  end.

(** [transcribeAudio]: the settled promise and the requests sent. *)
Definition transcribeAudio (b : Backend) (audioBlob : Blob)
    (apiKey : jsstring) : Settled jsstring * list Request :=
  match validateApiKey apiKey with
  | Some m => (Rejected m, [])
  | None =>
    let processedBlob := prepareAudioForTranscription audioBlob in
    (parseTranscriptionResponse (transcriptions b processedBlob),
     [TranscriptionRequest processedBlob])
  end.

Definition createChatCompletionRequest (message : jsstring)
    (history : list ChatMessage) (audioOptions : option AudioOptions)
    : ChatCompletionRequest :=
  {| model := API_CONFIG_gptModel;
     messages :=
       {| role := RoleSystem; content := Some API_CONFIG_systemPrompt;
          audio := None |}
       :: history ++
       [{| role := RoleUser; content := Some message; audio := None |}];
     temperature := API_CONFIG_temperature;
     max_tokens := API_CONFIG_max_tokens;
     modalities := [js "text"; js "audio"];
     audio_voice :=
       optOrElse (match audioOptions with Some o => voice o | None => None end)
                 (js "alloy");
     audio_format :=
       optOrElse (match audioOptions with Some o => format o | None => None end)
                 (js "wav") |}.

(** The lines both clients share: from [data.choices[0].message] to
    the returned [{ text, audioData }]. *)
Definition extractResponse (messageChoice : ChatMessage)
    : Settled GPT4oResponse :=
  let textResponse :=
    match audio messageChoice with
    | Some {| data := _; transcript := Some tr |} =>
      if negb (isEmpty (trim tr)) then trim tr
      else match content messageChoice with
           | Some c => if negb (isEmpty (trim c)) then trim c else []
           | None => []
           end
    | _ =>
      match content messageChoice with
      | Some c => if negb (isEmpty (trim c)) then trim c else []
      | None => []
      end
    end in
  let audioData :=
    match audio messageChoice with
    | Some a => match data a with
                | Some d => if isEmpty d then None else Some d
                | None => None
                end
    | None => None
    end in
  if isEmpty textResponse
     && match audioData with None => true | Some _ => false end
  then Rejected (js "No response received from API")
  else Resolved {| text := textResponse; audioData := audioData |}.

(** [parseChatCompletionResponse]; [jsonFailure] is what becomes of
    the message when [response.json()] rejects: the service passes it
    on, src/lib/openai.ts replaces it. *)
Definition parseChatCompletionResponse (jsonFailure : jsstring -> jsstring)
    (r : Http ChatCompletionResponse) : Settled GPT4oResponse :=
  match r with
  | NetworkError m => Rejected m
  | ErrorStatus st tx ed => Rejected (apiErrorMessage st tx ed)
  | OkStatus (inr m) => Rejected (jsonFailure m)
  | OkStatus (inl d) =>
    match choices d with
    | [] => Rejected (js "No response from OpenAI API")
    | messageChoice :: _ => extractResponse messageChoice
    end
  end.

Definition sendMessageToGPT4o_with (jsonFailure : jsstring -> jsstring)
    (b : Backend) (message : jsstring)
    (conversationHistory : list ChatMessage) (apiKey : jsstring)
    (audioOptions : option AudioOptions)
    : Settled GPT4oResponse * list Request :=
  match validateApiKey apiKey with
  | Some m => (Rejected m, [])
  | None =>
    let requestBody :=
      createChatCompletionRequest message conversationHistory audioOptions in
    (parseChatCompletionResponse jsonFailure (completions b requestBody),
     [ChatRequest requestBody])
  end.

(** services/api/openai.service *)
Definition sendMessageToGPT4o := sendMessageToGPT4o_with (fun m => m).

Definition sendAudioToGPT4o (b : Backend) (audioBlob : Blob)
    (conversationHistory : list ChatMessage) (apiKey : jsstring)
    (audioOptions : option AudioOptions)
    : Settled GPT4oAudioResponse * list Request :=
  match validateApiKey apiKey with
  | Some m => (Rejected m, [])
  | None =>
    match transcribeAudio b audioBlob apiKey with
    | (Rejected m, reqs) => (Rejected m, reqs)
    | (Resolved transcription, reqs) =>
      if isEmpty transcription || isEmpty (trim transcription) then
        (Rejected
           (js "Could not transcribe audio. Please try speaking more clearly."),
         reqs)
      else
        match sendMessageToGPT4o b transcription conversationHistory
                apiKey audioOptions with
        | (Rejected m, reqs') => (Rejected m, reqs ++ reqs')
        | (Resolved response, reqs') =>
          (Resolved {| transcription := transcription;
                       textResponse := text response;
                       r_audioData := audioData response |},
           reqs ++ reqs')
        end
    end
  end.

Definition formatConversationHistory (messages : list SimpleMessage)
    : list ChatMessage :=
  map (fun msg =>
         {| role := match sm_sender msg with
                    | User => RoleUser
                    | Ai => RoleAssistant
                    end;
            content := Some (sm_content msg);
            audio := None |})
      messages.

(** src/lib/openai.ts *)
Module Lib.
Definition sendMessageToGPT4o :=
  sendMessageToGPT4o_with (fun _ => js "Failed to parse API response").
End Lib.

End OpenAI.

(** ** src/components/VoiceChat/VoiceChatInterface.tsx *)
Module VoiceChatInterface.
Import JsStr OpenAI.

Inductive VoiceState := Idle | Recording | Processing | Speaking | Error.

(** ["sending" | "sent" | "error"]; the field is optional. *)
Inductive Status := Sending | Sent | Failed.

(** Message ids are strings compared with [===]; they are numbered
    here, [Date.now().toString()] being the number [Date.now()]. *)
Record Message := {
  id : N;
  content : jsstring;
  sender : Sender;
  timestamp : N;
  status : option Status;
  errorMessage : option jsstring }.

(** Callbacks the component hands to timers, promises and media
    elements, to be run later. *)
Inductive Deferred :=
| ResetToIdle          (* setVoiceState("idle"); setErrorMessage(null) *)
| StartNewRecorder     (* newRecorder.start(1000) and the ceiling timer *)
| CeilingStop          (* stop the recorder if it still records *)
| PlayAudio (text : jsstring)
                       (* audio.play().catch(() => fallback(text)) *)
| PlaybackEnded        (* audio.onended *)
| StartSpeech (text : jsstring)
                       (* speech.start(); speech.onEnd(...) *)
| SpeechEnded          (* setVoiceState("idle"); audioChunks = [] *)
| RecorderStarted.     (* the recorder's onStart listener *)

Inductive Trigger :=
| AfterMs (delay : N)
| AudioEndedEvent
| PromiseResolved
| SpeechEndEvent
| RecorderStartEvent.

Record Pending := { pid : nat; trigger : Trigger; callback : Deferred }.

Inductive Action :=
| SetVoiceState (v : VoiceState)
| Sends (r : Request)
| RecorderStart (timeslice : N)
| DetectorInitialize
| DetectorStart
| DetectorStop
| AudioPlay                       (* audio.play() *)
| SpeechStart (text : jsstring)   (* speechSynthesis.speak(utterance) *)
| Ran (cb : Deferred)
| UnhandledRejection
| OnSendMessage (text : jsstring).

(** React state, refs, the callbacks waiting to run, and a log of what
    the component did. *)
Record Session := {
  messages : list Message;
  voiceState : VoiceState;
  transcription : jsstring;
  recorder : option RecorderService.AudioRecorder;
  isRecording : bool;
  errorMsg : option jsstring;
  silenceDetected : bool;
  recordingTimeoutRef : option nat;
  audioChunksRef : list Blob;
  silenceDetectorRef : bool;
  audioPlaying : bool;
  pending : list Pending;
  nextId : nat;
  log : list Action }.

Definition initial (initialMessages : list Message) : Session :=
  {| messages := initialMessages; voiceState := Idle; transcription := [];
     recorder := None; isRecording := false; errorMsg := None;
     silenceDetected := false; recordingTimeoutRef := None;
     audioChunksRef := []; silenceDetectorRef := false;
     audioPlaying := false; pending := []; nextId := 1; log := [] |}.

Definition setMessages (f : list Message -> list Message) (s : Session) :=
  let '(Build_Session m v t r i e sd rt ac dr ap p n l) := s in
  Build_Session (f m) v t r i e sd rt ac dr ap p n l.
Definition tell (a : Action) (s : Session) :=
  let '(Build_Session m v t r i e sd rt ac dr ap p n l) := s in
  Build_Session m v t r i e sd rt ac dr ap p n (l ++ [a]).
Definition setVoiceState (x : VoiceState) (s : Session) :=
  let '(Build_Session m v t r i e sd rt ac dr ap p n l) := s in
  Build_Session m x t r i e sd rt ac dr ap p n (l ++ [SetVoiceState x]).
Definition setTranscription (x : jsstring) (s : Session) :=
  let '(Build_Session m v t r i e sd rt ac dr ap p n l) := s in
  Build_Session m v x r i e sd rt ac dr ap p n l.
Definition setRecorder (x : option RecorderService.AudioRecorder)
    (s : Session) :=
  let '(Build_Session m v t r i e sd rt ac dr ap p n l) := s in
  Build_Session m v t x i e sd rt ac dr ap p n l.
Definition setIsRecording (x : bool) (s : Session) :=
  let '(Build_Session m v t r i e sd rt ac dr ap p n l) := s in
  Build_Session m v t r x e sd rt ac dr ap p n l.
Definition setErrorMessage (x : option jsstring) (s : Session) :=
  let '(Build_Session m v t r i e sd rt ac dr ap p n l) := s in
  Build_Session m v t r i x sd rt ac dr ap p n l.
Definition setSilenceDetected (x : bool) (s : Session) :=
  let '(Build_Session m v t r i e sd rt ac dr ap p n l) := s in
  Build_Session m v t r i e x rt ac dr ap p n l.
Definition setRecordingTimeoutRef (x : option nat) (s : Session) :=
  let '(Build_Session m v t r i e sd rt ac dr ap p n l) := s in
  Build_Session m v t r i e sd x ac dr ap p n l.
Definition setAudioChunks (x : list Blob) (s : Session) :=
  let '(Build_Session m v t r i e sd rt ac dr ap p n l) := s in
  Build_Session m v t r i e sd rt x dr ap p n l.
Definition setSilenceDetectorRef (x : bool) (s : Session) :=
  let '(Build_Session m v t r i e sd rt ac dr ap p n l) := s in
  Build_Session m v t r i e sd rt ac x ap p n l.
Definition setAudioPlaying (x : bool) (s : Session) :=
  let '(Build_Session m v t r i e sd rt ac dr ap p n l) := s in
  Build_Session m v t r i e sd rt ac dr x p n l.
Definition setPending (x : list Pending) (s : Session) :=
  let '(Build_Session m v t r i e sd rt ac dr ap p n l) := s in
  Build_Session m v t r i e sd rt ac dr ap x n l.

(** Register a callback; the handle is returned as [setTimeout] does. *)
Definition defer (tr : Trigger) (cb : Deferred) (s : Session)
    : nat * Session :=
  let '(Build_Session m v t r i e sd rt ac dr ap p n l) := s in
  (n, Build_Session m v t r i e sd rt ac dr ap
        (p ++ [{| pid := n; trigger := tr; callback := cb |}]) (S n) l).

Definition defer_ (tr : Trigger) (cb : Deferred) (s : Session) : Session :=
  snd (defer tr cb s).

(** Which [speak] the component is linked with.  The one of
    services/audio/speech-synthesis.service returns its controller
    at once; the one of src/lib/textToSpeech.ts is [async] and returns a
    promise of it. *)
Inductive SpeakResult := Controller | PromiseOfController.

Definition SpeechSynthesisService_speak : SpeakResult := Controller.
Definition LibTextToSpeech_speak : SpeakResult := PromiseOfController.

(** What the browser and the props decide. *)
Record Env := {
  apiKey : jsstring;
  backend : OpenAI.Backend;
  (** [Date.now()] when the user entry is made, and when the reply is *)
  now1 : N;
  now2 : N;
  speechSynthesisSupported : bool;
  (** whether [atob] accepts the audio payload *)
  atobOk : jsstring -> bool;
  (** whether the promise of [audio.play()] resolves *)
  playResolves : bool;
  audioRecordingSupported : bool;
  detectorInitOk : bool;
  (** what [getUserMedia] answers the recorder *)
  microphone : RecorderService.Access;
  (** the [onSendMessage] prop: [Some m] when its promise rejects *)
  onSendMessage : jsstring -> option jsstring }.

Section Component.

Variable env : Env.

(** [import * as textToSpeech from ".../speech-synthesis.service"]
    in the source; kept as a variable so that both can be compared. *)
Variable textToSpeech_speak : SpeakResult.

Definition MAX_RECORDING_DURATION : N := 60000.

(** [fallbackToTextToSpeech(text)].  On a controller, [.then] is
    undefined and calling it throws before [speech.start()]. *)
Definition fallbackToTextToSpeech (text : jsstring) (s : Session)
    : Dom.Outcome Session :=
  if speechSynthesisSupported env then
    match textToSpeech_speak with
    | Controller =>
      Dom.Raised
        (Dom.TypeError "textToSpeech.speak(...).then is not a function") s
    | PromiseOfController =>
      Dom.Done (defer_ PromiseResolved (StartSpeech text) s)
    end
  else Dom.Done (defer_ (AfterMs 3000) SpeechEnded s).

Definition errorMessageOf (e : Dom.DomError) : jsstring :=
  match e with
  | Dom.InvalidStateError => js "InvalidStateError"
  | Dom.TypeError m => js m
  | Dom.Error m => js m
  end.

(** [handleApiError(error, messageId)]; an id is always truthy. *)
Definition handleApiError (errorMsg : jsstring) (messageId : option N)
    (s : Session) : Session :=
  let s := setErrorMessage (Some errorMsg) s in
  let s := setVoiceState Error s in
  let s :=
    match messageId with
    | Some mid =>
      setMessages
        (map (fun msg =>
                if (id msg =? mid)%N
                then {| id := id msg; content := content msg;
                        sender := sender msg; timestamp := timestamp msg;
                        status := Some Failed;
                        errorMessage := Some errorMsg |}
                else msg)) s
    | None => s
    end in
  defer_ (AfterMs 5000) ResetToIdle s.

(** The missing-key branch, and the outer [catch] blocks. *)
Definition failWith (m : jsstring) (s : Session) : Session :=
  let s := setErrorMessage (Some m) s in
  let s := setVoiceState Error s in
  defer_ (AfterMs 5000) ResetToIdle s.

(** The block both handlers end with: play the reply's audio, or fall
    back to speech output. *)
Definition playReply (audioData : option jsstring) (text : jsstring)
    (s : Session) : Dom.Outcome Session :=
  match audioData with
  | Some d =>
    if isEmpty d then fallbackToTextToSpeech text s
    else if atobOk env d then
      Dom.Done (defer_ AudioEndedEvent PlaybackEnded
                  (defer_ (AfterMs 100) (PlayAudio text) s))
    else fallbackToTextToSpeech text s
  | None => fallbackToTextToSpeech text s
  end.

Definition statusIs (st : Status) (m : Message) : bool :=
  match status m, st with
  | Some Sending, Sending | Some Sent, Sent | Some Failed, Failed => true
  | _, _ => false
  end.

Definition toSimple (msg : Message) : SimpleMessage :=
  {| sm_content := content msg; sm_sender := sender msg |}.

(** The history [processAudioAndGetResponse] sends along. *)
Definition audioHistory (messages : list Message) : list ChatMessage :=
  formatConversationHistory
    (map toSimple
       (filter (fun msg => negb (statusIs Sending msg)
                           && negb (statusIs Failed msg)) messages)).

(** The history [handleSendMessage] sends along. *)
Definition textHistory (messages : list Message) : list ChatMessage :=
  formatConversationHistory
    (map toSimple (filter (fun msg => negb (statusIs Failed msg)) messages)).

(** What follows a resolved request in both handlers: finalize the
    user entry, append the reply, speak, call the prop. *)
Definition deliverReply (userId : N) (finalize : Message -> Message)
    (replyText : jsstring) (audioData : option jsstring)
    (propArg : jsstring) (s : Session) : Session :=
  let s := setMessages
             (map (fun msg => if (id msg =? userId)%N then finalize msg
                              else msg)) s in
  let aiResponse := {| id := (now2 env + 1)%N; content := replyText;
                       sender := Ai; timestamp := now2 env;
                       status := Some Sent; errorMessage := None |} in
  let s := setMessages (fun prev => prev ++ [aiResponse]) s in
  let s := setVoiceState Speaking s in
  match playReply audioData (content aiResponse) s with
  | Dom.Raised e s => handleApiError (errorMessageOf e) (Some userId) s
  | Dom.Done s =>
    let s := tell (OnSendMessage propArg) s in
    match onSendMessage env propArg with
    | Some m => handleApiError m (Some userId) s
    | None => s
    end
  end.

Definition tellAll (reqs : list Request) (s : Session) : Session :=
  fold_left (fun s r => tell (Sends r) s) reqs s.

(** [processAudioAndGetResponse(audioBlob)].  The function is a closure
    of one render of the component, and [messages] is the history that
    render saw: the recorder keeps, in its [onStop] listener, the function
    of the render that created it, so from the second audio turn on
    [messages] is older than the history of the session.  Everything
    else goes through the setters and acts on the session as it is. *)
Definition processAudioAndGetResponse (messages : list Message)
    (audioBlob : Blob) (s : Session) : Session :=
  if isEmpty (apiKey env) then
    failWith (js "OpenAI API key is required. Please set it in your environment variables.") s
  else
    let prior := messages in
    let userMessage := {| id := now1 env;
                          content := js "Processing your audio...";
                          sender := User; timestamp := now1 env;
                          status := Some Sending; errorMessage := None |} in
    let s := setMessages (fun prev => prev ++ [userMessage]) s in
    let s := setVoiceState Processing s in
    let formattedHistory := audioHistory prior in
    match sendAudioToGPT4o (backend env) audioBlob formattedHistory
            (apiKey env) None with
    | (Rejected m, reqs) =>
      handleApiError m (Some (id userMessage)) (tellAll reqs s)
    | (Resolved result, reqs) =>
      let s := tellAll reqs s in
      let s := setTranscription (OpenAI.transcription result) s in
      deliverReply (id userMessage)
        (fun msg => {| id := id msg;
                       content := OpenAI.transcription result;
                       sender := sender msg; timestamp := timestamp msg;
                       status := Some Sent;
                       errorMessage := errorMessage msg |})
        (textResponse result) (r_audioData result)
        (OpenAI.transcription result) s
    end.

(** [handleSendMessage(message)] *)
Definition handleSendMessage (message : jsstring) (s : Session) : Session :=
  if isEmpty (trim message) then s
  else if isEmpty (apiKey env) then
    failWith (js "OpenAI API key is required. Please set it in your environment variables.") s
  else
    let prior := messages s in
    let userMessage := {| id := now1 env; content := message;
                          sender := User; timestamp := now1 env;
                          status := Some Sending; errorMessage := None |} in
    let s := setMessages (fun prev => prev ++ [userMessage]) s in
    let s := setVoiceState Processing s in
    let formattedHistory := textHistory prior in
    match sendMessageToGPT4o (backend env) message formattedHistory
            (apiKey env)
            (Some {| voice := Some (js "alloy");
                     format := Some (js "wav") |}) with
    | (Rejected m, reqs) =>
      handleApiError m (Some (id userMessage)) (tellAll reqs s)
    | (Resolved r, reqs) =>
      let s := tellAll reqs s in
      deliverReply (id userMessage)
        (fun msg => {| id := id msg; content := content msg;
                       sender := sender msg; timestamp := timestamp msg;
                       status := Some Sent;
                       errorMessage := errorMessage msg |})
        (text r) (audioData r) message s
    end.

(** The guard [handleStartRecording] opens with. *)
Definition startRejected (s : Session) : bool :=
  isRecording s
  || match voiceState s with
     | Processing | Speaking | Error => true
     | _ => false
     end.

(** The recorder's [onStart] and [onError] listeners. *)
Definition recorderOnStart (s : Session) : Session :=
  let s := setIsRecording true s in
  let s := setVoiceState Recording s in
  let s := setAudioChunks [] s in
  let s := setTranscription [] s in
  let s := setErrorMessage None s in
  let s := setSilenceDetected false s in
  if silenceDetectorRef s then tell DetectorStart s else s.

Definition recorderOnError (m : jsstring) (s : Session) : Session :=
  let s := setIsRecording false s in
  let s := setVoiceState Error s in
  let s := setErrorMessage (Some (js "Recording error: " ++ m)) s in
  let s := if silenceDetectorRef s then tell DetectorStop s else s in
  defer_ (AfterMs 5000) ResetToIdle s.

(** [recorder.start(1000)] on the recorder the session holds; a
    recorder that starts queues its start event for [onStart]. *)
Definition recorderStart (s : Session) : Session :=
  match recorder s with
  | None => s
  | Some r =>
    let s := tell (RecorderStart 1000) s in
    let o := RecorderService.start (microphone env) r in
    let s := setRecorder (Some (Dom.stateOf o)) s in
    match o, RecorderService.mediaRecorder r with
    | Dom.Done r', Some RecorderService.Inactive
    | Dom.Done r', None => defer_ RecorderStartEvent RecorderStarted s
    | Dom.Done _, _ => s
    | Dom.Raised e _, _ => recorderOnError (errorMessageOf e) s
    end
  end.

(** [initializeRecorder()]: the session and whether a recorder came
    out of it. *)
Definition initializeRecorder (s : Session) : Session * bool :=
  if negb (audioRecordingSupported env) then
    (failWith (js "Audio recording is not supported in your browser.") s,
     false)
  else
    let s := if silenceDetectorRef s then s
             else let s := tell DetectorInitialize s in
                  if detectorInitOk env then setSilenceDetectorRef true s
                  else s in
    match RecorderService.initialize (microphone env)
            RecorderService.createAudioRecorder with
    | Dom.Done r => (setRecorder (Some r) s, true)
    | Dom.Raised e _ =>
      let s := recorderOnError (errorMessageOf e) s in
      let s := setVoiceState Error s in
      let s := setErrorMessage
                 (Some (js "Could not access microphone: "
                        ++ errorMessageOf e)) s in
      (defer_ (AfterMs 5000) ResetToIdle s, false)
    end.

(** [handleStartRecording()] *)
Definition handleStartRecording (s : Session) : Session :=
  if startRejected s then s
  else
    let s := setAudioChunks [] s in
    match recorder s with
    | None =>
      let '(s, got) := initializeRecorder s in
      if got then defer_ (AfterMs 100) StartNewRecorder s else s
    | Some _ =>
      let s := recorderStart s in
      let s := if silenceDetectorRef s then tell DetectorStart s else s in
      let '(h, s) := defer (AfterMs MAX_RECORDING_DURATION) CeilingStop s in
      setRecordingTimeoutRef (Some h) s
    end.

(** Running one deferred callback. *)
Definition runDeferred (cb : Deferred) (s : Session) : Session :=
  let s := tell (Ran cb) s in
  match cb with
  | ResetToIdle => setErrorMessage None (setVoiceState Idle s)
  | StartNewRecorder =>
    let s := recorderStart s in
    let '(h, s) := defer (AfterMs MAX_RECORDING_DURATION) CeilingStop s in
    setRecordingTimeoutRef (Some h) s
  | CeilingStop =>
    match recorder s with
    | Some r =>
      match RecorderService.getState r with
      | Some RecorderService.Recording =>
        setRecorder (Some (Dom.stateOf (RecorderService.stop r))) s
      | _ => s
      end
    | None => s
    end
  | PlayAudio text =>
    let s := tell AudioPlay s in
    if playResolves env then setAudioPlaying true s
    else match fallbackToTextToSpeech text s with
         | Dom.Done s => s
         | Dom.Raised _ s => tell UnhandledRejection s
         end
  | PlaybackEnded =>
    setAudioChunks [] (setVoiceState Idle (setAudioPlaying false s))
  | StartSpeech text =>
    defer_ SpeechEndEvent SpeechEnded (tell (SpeechStart text) s)
  | SpeechEnded => setAudioChunks [] (setVoiceState Idle s)
  | RecorderStarted => recorderOnStart s
  end.

(** An ended event needs a playback that began; timers elapse,
    promises resolve, speech that started ends, a recorder that
    started says so. *)
Definition deliverable (s : Session) (p : Pending) : bool :=
  match trigger p with
  | AudioEndedEvent => audioPlaying s
  | _ => true
  end.

Fixpoint takeFirst (f : Pending -> bool) (l : list Pending)
    : option (Pending * list Pending) :=
  match l with
  | [] => None
  | p :: l' =>
    if f p then Some (p, l')
    else match takeFirst f l' with
         | Some (q, r) => Some (q, p :: r)
         | None => None
         end
  end.

(** Let the waiting callbacks run, oldest first, until none can. *)
Fixpoint settle (fuel : nat) (s : Session) : Session :=
  match fuel with
  | O => s
  | S fuel =>
    match takeFirst (deliverable s) (pending s) with
    | Some (p, rest) => settle fuel (runDeferred (callback p) (setPending rest s))
    | None => s
    end
  end.

(** The completion callbacks of the response player. *)
Definition isDone (a : Action) : bool :=
  match a with
  | Ran PlaybackEnded | Ran SpeechEnded => true
  | _ => false
  end.

Definition isSpeech (a : Action) : bool :=
  match a with SpeechStart _ => true | _ => false end.

End Component.
End VoiceChatInterface.

(** ** src/hooks/ui/use-voice-state.ts *)
Module UseVoiceState.
Import JsStr VoiceChatInterface.

Record VoiceUi := { state : VoiceState; error : option jsstring }.

Definition setState (newState : VoiceState) (u : VoiceUi) : VoiceUi :=
  {| state := newState;
     error := match newState with Error => error u | _ => None end |}.

Definition setError (message : jsstring) (u : VoiceUi) : VoiceUi :=
  {| state := Error; error := Some message |}.

Definition clearError (u : VoiceUi) : VoiceUi :=
  {| state := Idle; error := None |}.

Definition isActive (u : VoiceUi) : bool :=
  match state u with Idle | Error => false | _ => true end.

Definition canRecord (u : VoiceUi) : bool :=
  match state u with Idle | Error => true | _ => false end.

Definition isProcessing (u : VoiceUi) : bool :=
  match state u with Processing => true | _ => false end.

End UseVoiceState.

(** ** The hook-based component, VoiceChat.tsx (src/unnamed/part_004),
     over use-voice-state, use-chat-history, use-audio-recorder,
     use-silence-detector, use-openai and use-speech-synthesis *)
Module VoiceChat.
Import JsStr OpenAI VoiceChatInterface UseVoiceState.

Record Env := {
  apiKey : jsstring;
  backend : OpenAI.Backend;
  (** what [generateMessageId] returns for the user entry and the reply *)
  userId : N;
  replyId : N;
  clock : N;
  speechSupported : bool;
  atobOk : jsstring -> bool;
  (** whether playback runs to its [ended] event *)
  playbackEnds : bool }.

Record Session := {
  voice : VoiceUi;
  messages : list Message;
  (** [audioRecorder.isRecording] *)
  isRecording : bool;
  log : list Action }.

Definition onVoice (f : VoiceUi -> VoiceUi) (s : Session) : Session :=
  {| voice := f (voice s); messages := messages s;
     isRecording := isRecording s;
     log := log s ++ [SetVoiceState (state (f (voice s)))] |}.

Definition tell (a : Action) (s : Session) : Session :=
  {| voice := voice s; messages := messages s;
     isRecording := isRecording s; log := log s ++ [a] |}.

Definition setMessages (f : list Message -> list Message) (s : Session) :=
  {| voice := voice s; messages := f (messages s);
     isRecording := isRecording s; log := log s |}.

Section Component.

Variable env : Env.

(** [chatHistory.addMessage]; a missing status defaults to sent. *)
Definition addMessage (newId : N) (c : jsstring) (who : Sender)
    (st : option Status) (s : Session) : Session :=
  setMessages
    (fun prev => prev ++
       [{| id := newId; content := c; sender := who; timestamp := clock env;
           status := Some (match st with Some x => x | None => Sent end);
           errorMessage := None |}]) s.

(** [chatHistory.updateMessage(id, update)] *)
Definition updateMessage (mid : N) (newContent : option jsstring)
    (newStatus : option Status) (s : Session) : Session :=
  setMessages
    (map (fun msg =>
            if (id msg =? mid)%N
            then {| id := id msg;
                    content := match newContent with
                               | Some c => c | None => content msg end;
                    sender := sender msg; timestamp := timestamp msg;
                    status := match newStatus with
                              | Some x => Some x | None => status msg end;
                    errorMessage := errorMessage msg |}
            else msg)) s.

(** [handleStartRecording()] *)
Definition handleStartRecording (s : Session) : Session :=
  if negb (canRecord (voice s)) || isRecording s then s
  else
    let s := onVoice (setState Recording) s in
    let s := tell (RecorderStart 1000) s in
    let s := tell DetectorStop s in
    tell DetectorStart s.

(** [speechSynthesis.speak(text)] of the hook. *)
Definition speak (text : jsstring) (s : Session) : Session :=
  if speechSupported env then tell (SpeechStart text) s else s.

(** [playResponse(audioData, textResponse)]: the [finally] sets idle
    on every path. *)
Definition playResponse (audioData : option jsstring) (text : jsstring)
    (s : Session) : Session :=
  let s := onVoice (setState Speaking) s in
  let s :=
    match audioData with
    | Some d =>
      if isEmpty d then speak text s
      else if atobOk env d then
        let s := tell AudioPlay s in
        if playbackEnds env then s else speak text s
      else speak text s
    | None => speak text s
    end in
  onVoice (setState Idle) s.

Definition history (prior : list Message) : list SimpleMessage :=
  map toSimple
    (filter (fun msg => negb (statusIs Sending msg)
                        && negb (statusIs Failed msg)) prior).

Definition tellAll (reqs : list Request) (s : Session) : Session :=
  fold_left (fun s r => tell (Sends r) s) reqs s.

(** [handleSendMessage(message)] *)
Definition handleSendMessage (message : jsstring) (s : Session) : Session :=
  if isEmpty (trim message) then s
  else
    let prior := messages s in
    let s := onVoice (setState Processing) s in
    let s := addMessage (userId env) message User (Some Sending) s in
    let messageHistory := history prior in
    match sendMessageToGPT4o (backend env) message
            (formatConversationHistory messageHistory) (apiKey env) None with
    | (Rejected m, reqs) => onVoice (setError m) (tellAll reqs s)
    | (Resolved r, reqs) =>
      let s := tellAll reqs s in
      let s := updateMessage (userId env) None (Some Sent) s in
      let s := addMessage (replyId env) (text r) Ai (Some Sent) s in
      playResponse (audioData r) (text r) s
    end.

(** [processAudioInput(audioBlob)] *)
Definition processAudioInput (audioBlob : Blob) (s : Session) : Session :=
  let prior := messages s in
  let s := onVoice (setState Processing) s in
  let s := addMessage (userId env) (js "Processing your audio...") User
             (Some Sending) s in
  let messageHistory := history prior in
  match sendAudioToGPT4o (backend env) audioBlob
          (formatConversationHistory messageHistory) (apiKey env) None with
  | (Rejected m, reqs) => onVoice (setError m) (tellAll reqs s)
  | (Resolved r, reqs) =>
    let s := tellAll reqs s in
    let s := updateMessage (userId env) (Some (OpenAI.transcription r))
               (Some Sent) s in
    let s := addMessage (replyId env) (textResponse r) Ai (Some Sent) s in
    playResponse (r_audioData r) (textResponse r) s
  end.

End Component.
End VoiceChat.

(** ** The listeners of src/services/audio/recorder.service.ts *)
Module RecorderListeners.
Import JsStr RecorderService.

(** What a [MediaRecorder] reports to the handlers installed by
    [setupRecorderEventListeners]; [mimeType] is the recorder's attribute
    when it stops. *)
Inductive MediaEvent :=
| DataAvailable (data : Blob)
| Started
| Stopped (mimeType : jsstring)
| Errored (error : jsstring).

(** Calls of the listeners handed to [createAudioRecorder], each made
    when the listener is given. *)
Inductive ListenerCall :=
| OnDataAvailable (audioChunk : Blob)
| OnStart
| OnStop (audioBlob : Blob)
| OnError (message : jsstring).

Definition toAsciiLower (c : N) : N :=
  if ((65 <=? c) && (c <=? 90))%N then (c + 32)%N else c.

(** [new Blob(parts, { type })]: the parts are concatenated; a type with
    a character outside U+0020..U+007E becomes empty, any other is put in
    lower case. *)
Definition newBlob (parts : list Blob) (type : jsstring) : Blob :=
  {| blobType := if forallb (fun c => (32 <=? c) && (c <=? 126))%N type
                 then map toAsciiLower type else [];
     blobSize := fold_right N.add 0%N (map blobSize parts) |}.

Definition handleDataAvailable (data : Blob) (audioChunks : list Blob)
    : list Blob * list ListenerCall :=
  if (0 <? blobSize data)%N
  then (audioChunks ++ [data], [OnDataAvailable data])
  else (audioChunks, []).

Definition handleRecordingStart (audioChunks : list Blob)
    : list Blob * list ListenerCall :=
  ([], [OnStart]).

Definition handleRecordingStop (audioChunks : list Blob) (mimeType : jsstring)
    : list Blob * list ListenerCall :=
  (audioChunks,
   [OnStop (newBlob audioChunks (orElse mimeType (js "audio/webm")))]).

Definition handleRecordingError (error : jsstring) (audioChunks : list Blob)
    : list Blob * list ListenerCall :=
  (audioChunks, [OnError (js "MediaRecorder error: " ++ error)]).

(** The handler [setupRecorderEventListeners] installs for each event,
    acting on the array [audioChunks]. *)
Definition setupRecorderEventListeners (audioChunks : list Blob)
    (e : MediaEvent) : list Blob * list ListenerCall :=
  match e with
  | DataAvailable data => handleDataAvailable data audioChunks
  | Started => handleRecordingStart audioChunks
  | Stopped mimeType => handleRecordingStop audioChunks mimeType
  | Errored error => handleRecordingError error audioChunks
  end.

(** The listener calls of a sequence of events. *)
Fixpoint dispatch (audioChunks : list Blob) (es : list MediaEvent)
    : list Blob * list ListenerCall :=
  match es with
  | [] => (audioChunks, [])
  | e :: es =>
    let '(chunks, calls) := setupRecorderEventListeners audioChunks e in
    let '(chunks', calls') := dispatch chunks es in
    (chunks', calls ++ calls')
  end.

Definition totalSize (l : list Blob) : N :=
  fold_right N.add 0%N (map blobSize l).

Definition nonEmpty (b : Blob) : bool := (0 <? blobSize b)%N.

End RecorderListeners.

(** ** src/hooks/ui/use-chat-history.ts: the updates it hands to
       [setMessages] *)
Module UseChatHistory.
Import JsStr OpenAI VoiceChatInterface.

Record NewMessage := {
  n_content : jsstring;
  n_sender : Sender;
  n_status : option Status;
  n_errorMessage : option jsstring }.

(** A field of an update is absent, or present with a value; an
    optional field can be present and undefined. *)
Record MessageUpdate := {
  u_content : option jsstring;
  u_status : option (option Status);
  u_errorMessage : option (option jsstring) }.

(** [addMessage(message)]; [newId] is what [generateMessageId()]
    returns and [now] the date. *)
Definition addMessage (newId now : N) (message : NewMessage)
    (prev : list Message) : list Message :=
  prev ++
  [{| id := newId; content := n_content message; sender := n_sender message;
      timestamp := now;
      status := Some (match n_status message with
                      | Some st => st
                      | None => Sent
                      end);
      errorMessage := n_errorMessage message |}].

(** [{ ...msg, ...update }] *)
Definition spread (msg : Message) (update : MessageUpdate) : Message :=
  {| id := id msg;
     content := match u_content update with
                | Some c => c
                | None => content msg
                end;
     sender := sender msg;
     timestamp := timestamp msg;
     status := match u_status update with
               | Some st => st
               | None => status msg
               end;
     errorMessage := match u_errorMessage update with
                     | Some m => m
                     | None => errorMessage msg
                     end |}.

(** Whether the callback met an entry with the id, which is what
    [found] holds when the update has run. *)
Definition found (mid : N) (prev : list Message) : bool :=
  existsb (fun msg => (id msg =? mid)%N) prev.

(** [updateMessage(id, update)] *)
Definition updateMessage (mid : N) (update : MessageUpdate)
    (prev : list Message) : list Message :=
  let updated := map (fun msg => if (id msg =? mid)%N then spread msg update
                                 else msg) prev in
  if found mid prev then updated else prev.

(** [removeMessage(id)] *)
Definition removeMessage (mid : N) (prev : list Message) : list Message :=
  let filtered := filter (fun msg => negb (id msg =? mid)%N) prev in
  if found mid prev then filtered else prev.

Definition clearMessages (prev : list Message) : list Message := [].

End UseChatHistory.

(** ** src/services/audio/speech-synthesis.service.ts *)
Module SpeechSynthesisService.
Import JsStr.

(** A number: [NaN], an infinity, or a finite value. *)
Inductive JsNumber := NaN | NegInfinity | Finite (q : Q) | Infinity.

Definition Math_min (a b : JsNumber) : JsNumber :=
  match a, b with
  | NaN, _ | _, NaN => NaN
  | NegInfinity, _ | _, NegInfinity => NegInfinity
  | Infinity, x | x, Infinity => x
  | Finite p, Finite q => Finite (if Qle_bool p q then p else q)
  end.

Definition Math_max (a b : JsNumber) : JsNumber :=
  match a, b with
  | NaN, _ | _, NaN => NaN
  | Infinity, _ | _, Infinity => Infinity
  | NegInfinity, x | x, NegInfinity => x
  | Finite p, Finite q => Finite (if Qle_bool p q then q else p)
  end.

Record SpeechSynthesisVoice := {
  name : jsstring;
  lang : jsstring;
  localService : bool }.

Record SpeechOptions := {
  voice : option SpeechSynthesisVoice;
  rate : option JsNumber;
  pitch : option JsNumber;
  volume : option JsNumber }.

(** What has been assigned to an utterance. *)
Record SpeechSynthesisUtterance := {
  u_text : jsstring;
  u_voice : option SpeechSynthesisVoice;
  u_rate : JsNumber;
  u_pitch : JsNumber;
  u_volume : JsNumber }.

(** [new SpeechSynthesisUtterance(text)] *)
Definition newUtterance (text : jsstring) : SpeechSynthesisUtterance :=
  {| u_text := text; u_voice := None; u_rate := Finite 1;
     u_pitch := Finite 1; u_volume := Finite 1 |}.

Fixpoint startsWith (pat s : jsstring) : bool :=
  match pat, s with
  | [], _ => true
  | p :: pat', c :: s' => (p =? c)%N && startsWith pat' s'
  | _ :: _, [] => false
  end.

(** [s.includes(pat)] *)
Fixpoint includes (s pat : jsstring) : bool :=
  startsWith pat s
  || match s with
     | [] => false
     | _ :: s' => includes s' pat
     end.

(** [getAvailableVoices()]; [voices] is what the browser lists. *)
Definition getAvailableVoices (supported : bool)
    (voices : list SpeechSynthesisVoice) : list SpeechSynthesisVoice :=
  if negb supported then [] else voices.

Definition isLocalEnglish (v : SpeechSynthesisVoice) : bool :=
  includes (lang v) (js "en") && localService v.

(** [getDefaultVoice()] *)
Definition getDefaultVoice (supported : bool)
    (browserVoices : list SpeechSynthesisVoice)
    : option SpeechSynthesisVoice :=
  let voices := getAvailableVoices supported browserVoices in
  match voices with
  | [] => None
  | first :: _ =>
    match find isLocalEnglish voices with
    | Some englishVoice => Some englishVoice
    | None => Some first
    end
  end.

(** [configureSpeechUtterance(utterance, options)] *)
Definition configureSpeechUtterance (utterance : SpeechSynthesisUtterance)
    (options : SpeechOptions) : SpeechSynthesisUtterance :=
  {| u_text := u_text utterance;
     u_voice := match voice options with
                | Some v => Some v
                | None => u_voice utterance
                end;
     u_rate := match rate options with
               | Some x => Math_max (Finite (1 # 10)) (Math_min (Finite 10) x)
               | None => u_rate utterance
               end;
     u_pitch := match pitch options with
                | Some x => Math_max (Finite 0) (Math_min (Finite 2) x)
                | None => u_pitch utterance
                end;
     u_volume := match volume options with
                 | Some x => Math_max (Finite 0) (Math_min (Finite 1) x)
                 | None => u_volume utterance
                 end |}.

(** [createSpeechUtterance(text, options)], the handlers apart. *)
Definition createSpeechUtterance (supported : bool)
    (browserVoices : list SpeechSynthesisVoice) (text : jsstring)
    (options : SpeechOptions) : SpeechSynthesisUtterance :=
  let options :=
    match voice options with
    | Some _ => options
    | None => {| voice := getDefaultVoice supported browserVoices;
                 rate := rate options; pitch := pitch options;
                 volume := volume options |}
    end in
  configureSpeechUtterance (newUtterance text) options.

(** [lo <= x <= hi] on numbers; never so for [NaN]. *)
Definition within (lo hi : Q) (x : JsNumber) : bool :=
  match x with
  | Finite q => Qle_bool lo q && Qle_bool q hi
  | _ => false
  end.

(** The same number, whatever fraction stands for it. *)
Definition sameNumber (x y : JsNumber) : Prop :=
  match x, y with
  | NaN, NaN | NegInfinity, NegInfinity | Infinity, Infinity => True
  | Finite p, Finite q => Qeq p q
  | _, _ => False
  end.

(** [x < lo], and [hi < x], on numbers; never so for [NaN]. *)
Definition under (lo : Q) (x : JsNumber) : bool :=
  match x with
  | NegInfinity => true
  | Finite q => negb (Qle_bool lo q)
  | _ => false
  end.

Definition over (hi : Q) (x : JsNumber) : bool :=
  match x with
  | Infinity => true
  | Finite q => negb (Qle_bool q hi)
  | _ => false
  end.

(** [y] is [x] brought into [lo..hi]: [x] itself if it is in the range,
    the bound it is beyond if not; [NaN] stays [NaN]. *)
Definition clampedTo (lo hi : Q) (x y : JsNumber) : Prop :=
  match x with
  | NaN => y = NaN
  | _ => within lo hi y = true
         /\ (within lo hi x = true -> sameNumber y x)
         /\ (under lo x = true -> y = Finite lo)
         /\ (over hi x = true -> y = Finite hi)
  end.

(** What [configureSpeechUtterance] does to one setting. *)
Definition setting (lo hi : Q) (option : option JsNumber)
    (before after : JsNumber) : Prop :=
  match option with
  | Some x => clampedTo lo hi x after
  | None => after = before
  end.

End SpeechSynthesisService.

(** ** Vocabulary of the properties *)

(** Case analysis on every test in the goal. *)
Ltac split_ifs :=
  repeat match goal with
         | |- context [if ?b then _ else _] => destruct b eqn:?; simpl
         | |- context [match ?o with Some _ => _ | None => _ end] =>
           destruct o eqn:?; simpl
         end.


(** *** Runs of the older detector *)
Module LegacyRun.
Import DetectorTypes DetectorCommon LegacySilenceDetector.

(** How many speech-ended calls a detector still has in it, as long as
    it is not stopped. *)
Definition budget (d : Detector) : nat :=
  if isRunning d && silenceDetectedFlag d then 0 else 1.

Definition endsRun (e : Event) : bool :=
  match e with Stop | Cleanup => true | _ => false end.

(** Only an initialized detector runs: [start()] initializes first and
    [cleanup()] stops first. *)
Definition wf (d : Detector) : bool :=
  implb (isRunning d) (isInitialized d).

End LegacyRun.

(** *** The scenario: threshold 0.05, 5000 ms of silence, a sample every
        100 ms, on the detector of silence-detector.service.ts *)
Module Scenario.
Import DetectorTypes Dom DetectorCommon SilenceDetectorService.

Definition loud : Q := (1 # 2)%Q.
Definition quiet : Q := (1 # 100)%Q.

Definition scenarioOptions : SilenceDetectorOptions :=
  {| silenceThreshold := Some (5 # 100)%Q;
     silenceDuration := Some 5000%N;
     checkInterval := Some 100%N |}.

(** The detector right after [start()]. *)
Definition started : Detector :=
  fst (step (createSilenceDetector DetectionState scenarioOptions)
         (Start true)).

(** [n] loud samples, then fifty quiet ones. *)
Definition levels (n : nat) : list Q := repeat loud n ++ repeat quiet 50.

(** The listener calls while the samples are read, then those of the
    timeouts that fall due by [horizon]. *)
Definition edges (timersFirst : bool) (n : nat) (horizon : N)
    : list (N * Callback) :=
  let '(d, tr) := sample timersFirst started (levels n) in
  tr ++ snd (settle false horizon d).

(** A running detector of the scenario at time [t]. *)
Definition at_ (t : N) (st : option nat)
    (ts : list (EventLoop.Timeout DetectionState)) (next : nat) : Detector :=
  {| options := mergeOptions scenarioOptions; res := acquired;
     checkIntervalTimer := Some 1; silenceTimer := st; isSilent := false;
     isInitialized := true; isRunning := true; silenceDetectedFlag := false;
     loop := {| EventLoop.timeouts := ts; EventLoop.nextTimerId := next;
                EventLoop.now := t |} |}.

Definition notDueBefore (t : N) (x : EventLoop.Timeout DetectionState) : Prop :=
  (t <= EventLoop.due x)%N.

(** Quiet since [t1]: the timeout of the first quiet sample heads the
    table, is due 5000 ms after it and captured a running, untriggered
    copy; nothing else is due earlier. *)
Definition quietSince (t1 : N) (k : nat) (d : Detector) : Prop :=
  exists st first ts next,
    d = at_ (t1 + 100 * N.of_nat k) st (first :: ts) next
    /\ EventLoop.due first = (t1 + 5000)%N
    /\ timeoutCallback (EventLoop.closure first) = [OnSilenceDetected]
    /\ Forall (notDueBefore (t1 + 5000)) (first :: ts).

(** When the [k]-th sample is read. *)
Definition tickTime (k : nat) : N := (100 * N.of_nat k)%N.

(** The scenario as the specification words it: one speech-ended call in
    all, made at the fiftieth quiet sample. *)
Definition oneEdgeAtFiftieth (timersFirst : bool) (n : nat) : Prop :=
  forall horizon, (tickTime (n + 50) <= horizon)%N ->
    edges timersFirst n horizon = [(tickTime (n + 50), OnSilenceDetected)].

Definition immediateOptions : SilenceDetectorOptions :=
  {| silenceThreshold := None; silenceDuration := Some 0%N;
     checkInterval := None |}.

Definition noOptions : SilenceDetectorOptions :=
  {| silenceThreshold := None; silenceDuration := None;
     checkInterval := None |}.

End Scenario.

(** *** What the specification says, in its own words *)
Module Spec.
Import JsStr OpenAI VoiceChatInterface.

(** "The prior conversation entries whose status is neither sending
    nor error." *)
Definition contextOf (prior : list Message) : list Message :=
  filter (fun m => match status m with
                   | Some Sending | Some Failed => false
                   | _ => true
                   end) prior.

Definition historyOf (prior : list Message) : list ChatMessage :=
  formatConversationHistory (map toSimple (contextOf prior)).


(** "The trimmed content", a content that is no string counting as
    empty. *)
Definition contentText (m : ChatMessage) : jsstring :=
  match OpenAI.content m with Some c => trim c | None => [] end.

(** "The trimmed audio transcript whenever the audio object carries a
    non-blank transcript string, otherwise the trimmed content." *)
Definition expectedText (m : ChatMessage) : jsstring :=
  match audio m with
  | Some a =>
    match transcript a with
    | Some tr => if blank tr then contentText m else trim tr
    | None => contentText m
    end
  | None => contentText m
  end.

(** The audio data of a reply, when present. *)
Definition audioDataOf (m : ChatMessage) : option jsstring :=
  match audio m with
  | Some a => match data a with
              | Some [] | None => None
              | Some d => Some d
              end
  | None => None
  end.

Definition expectedReply (m : ChatMessage) : Settled GPT4oResponse :=
  match expectedText m, audioDataOf m with
  | [], None => Rejected (js "No response received from API")
  | t, a => Resolved {| text := t; audioData := a |}
  end.

(** The failure of a turn whose audio yields no text. *)
Definition EmptyTranscription : jsstring :=
  js "Could not transcribe audio. Please try speaking more clearly.".

(** An entry marked as failed, with the detail. *)
Definition failed (detail : jsstring) (m : Message) : Message :=
  {| id := id m; content := content m; sender := sender m;
     timestamp := timestamp m; status := Some Failed;
     errorMessage := Some detail |}.

Definition markFailed (mid : N) (detail : jsstring) (m : Message) : Message :=
  if (id m =? mid)%N then failed detail m else m.

(** The entry an audio turn opens with. *)
Definition pendingEntry (env : Env) : Message :=
  {| id := now1 env; content := js "Processing your audio...";
     sender := User; timestamp := now1 env; status := Some Sending;
     errorMessage := None |}.

(** The states a session was put in, in order. *)
Definition states (l : list Action) : list VoiceState :=
  flat_map (fun a => match a with SetVoiceState v => [v] | _ => [] end) l.

Definition requests (l : list Action) : list Request :=
  flat_map (fun a => match a with Sends r => [r] | _ => [] end) l.

(** Audio data that is present and decodes. *)
Definition usableAudio (env : Env) (audioData : option jsstring) : bool :=
  match audioData with
  | Some d => negb (isEmpty d) && atobOk env d
  | None => false
  end.

(** The response player on its own: the reply is played in a fresh
    session and every callback that can run is run. *)
Definition player (env : Env) (speak : SpeakResult)
    (audioData : option jsstring) (text : jsstring) : Session :=
  settle env speak 4
    (Dom.stateOf (playReply env speak audioData text (initial []))).




End Spec.

(** *** Concrete inputs *)
Module Examples.
Import JsStr OpenAI VoiceChatInterface.

Definition blob : Blob :=
  {| RecorderService.blobType := js "audio/webm";
     RecorderService.blobSize := 4096 |}.

(** A backend that hears [heard] and replies with [reply]. *)
Definition backendOf (heard : jsstring) (reply : ChatMessage)
    : OpenAI.Backend :=
  {| transcriptions := fun _ => OkStatus (inl {| t_text := Some heard |});
     completions := fun _ => OkStatus (inl {| choices := [reply] |}) |}.

Definition textReply : ChatMessage :=
  {| role := RoleAssistant; OpenAI.content := Some (js "Hi there.");
     audio := None |}.

Definition audioReply : ChatMessage :=
  {| role := RoleAssistant; OpenAI.content := Some (js "ignored");
     audio := Some {| data := Some (js "UklGRg==");
                      transcript := Some (js " Hello. ") |} |}.

Definition envOf (b : OpenAI.Backend) : Env :=
  {| apiKey := js "sk-test"; backend := b; now1 := 1000; now2 := 2000;
     speechSynthesisSupported := true; atobOk := fun _ => true;
     playResolves := true; audioRecordingSupported := true;
     detectorInitOk := true; microphone := RecorderService.Granted;
     onSendMessage := fun _ => None |}.

Definition chatEnvOf (b : OpenAI.Backend) : VoiceChat.Env :=
  {| VoiceChat.apiKey := js "sk-test"; VoiceChat.backend := b;
     VoiceChat.userId := 1000; VoiceChat.replyId := 2000;
     VoiceChat.clock := 1000; VoiceChat.speechSupported := true;
     VoiceChat.atobOk := fun _ => true; VoiceChat.playbackEnds := true |}.

(** The same, with the browser's answers chosen. *)
Definition envWith (b : OpenAI.Backend) (speech decodes plays : bool) : Env :=
  {| apiKey := js "sk-test"; backend := b; now1 := 1000; now2 := 2000;
     speechSynthesisSupported := speech; atobOk := fun _ => decodes;
     playResolves := plays; audioRecordingSupported := true;
     detectorInitOk := true; microphone := RecorderService.Granted;
     onSendMessage := fun _ => None |}.

(** A turn in which nothing but blanks is heard. *)
Definition blankTurn : Env := envOf (backendOf (js "  ") textReply).

(** A turn answered with text only, and one answered with audio. *)
Definition textTurn : Env := envOf (backendOf (js "hello") textReply).
Definition audioTurn (speech decodes plays : bool) : Env :=
  envWith (backendOf (js "hello") audioReply) speech decodes plays.

(** A whole audio turn, up to the point where nothing is left to run. *)
Definition audioTurnOf (env : Env) (speak : SpeakResult) : Session :=
  settle env speak 8
    (processAudioAndGetResponse env speak [] blob (initial [])).

(** An entry still being sent. *)
Definition sendingEntry : Message :=
  {| id := 1; content := js "hi"; sender := User; timestamp := 1;
     status := Some Sending; errorMessage := None |}.


Definition chatSession : VoiceChat.Session :=
  {| VoiceChat.voice := {| UseVoiceState.state := Idle;
                           UseVoiceState.error := None |};
     VoiceChat.messages := []; VoiceChat.isRecording := false;
     VoiceChat.log := [] |}.

End Examples.

Module Countdown.
Import DetectorTypes Dom DetectorCommon Scenario.

(** The listener calls of the detector of silence-detector.service.ts
    while [levels] are read, one every 100 ms, then those of the timeouts
    that fall due by [horizon]. *)
Definition edgesOf (timersFirst : bool) (levels : list Q) (horizon : N)
    : list (N * Callback) :=
  let '(d, tr) := SilenceDetectorService.sample timersFirst started levels in
  tr ++ snd (SilenceDetectorService.settle false horizon d).

(** The older detector with the same options, right after [start()]. *)
Definition legacyStarted : LegacySilenceDetector.Detector :=
  fst (LegacySilenceDetector.step (createSilenceDetector unit scenarioOptions)
         (Start true)).

Definition legacyEdges (timersFirst : bool) (levels : list Q) (horizon : N)
    : list (N * Callback) :=
  let '(d, tr) := LegacySilenceDetector.sample timersFirst legacyStarted
                    levels in
  tr ++ snd (LegacySilenceDetector.settle false horizon d).

(** A running older detector of the scenario at time [t]. *)
Definition legacyAt (t : N) (silent : bool) (st : option nat)
    (ts : list (EventLoop.Timeout unit)) (next : nat)
    : LegacySilenceDetector.Detector :=
  {| options := mergeOptions scenarioOptions; res := acquired;
     checkIntervalTimer := Some 1; silenceTimer := st; isSilent := silent;
     isInitialized := true; isRunning := true; silenceDetectedFlag := false;
     loop := {| EventLoop.timeouts := ts; EventLoop.nextTimerId := next;
                EventLoop.now := t |} |}.

(** The older detector holds at most one timeout, the one [silenceTimer]
    names, and only while it is running and quiet. *)
Definition oneCountdown (d : LegacySilenceDetector.Detector) : Prop :=
  EventLoop.timeouts (loop d) = []
  \/ exists t, EventLoop.timeouts (loop d) = [t]
               /\ silenceTimer d = Some (EventLoop.tid t)
               /\ isSilent d = true /\ isRunning d = true.

(** An event that is no sample below the threshold. *)
Definition atOrAbove (threshold : Q) (e : Event) : bool :=
  match e with
  | Tick level => negb (isAudioSilent level threshold)
  | _ => true
  end.

Definition neverBelow (threshold : Q) (es : list Event) : bool :=
  forallb (atOrAbove threshold) es.

(** Nothing is armed and the detector is not quiet. *)
Definition idle (C : Type) (o : SilenceDetectorOptions) (d : Detector C)
    : Prop :=
  isSilent d = false /\ EventLoop.timeouts (loop d) = []
  /\ options d = mergeOptions o.

End Countdown.

Module ClientVocabulary.
Import JsStr OpenAI.

Definition KeyRequired : jsstring := js "OpenAI API key is required".

Definition isSystem (m : ChatMessage) : bool :=
  match role m with RoleSystem => true | _ => false end.

Definition systemMessage : ChatMessage :=
  {| role := RoleSystem; content := Some API_CONFIG_systemPrompt;
     audio := None |}.

Definition userMessage (text : jsstring) : ChatMessage :=
  {| role := RoleUser; content := Some text; audio := None |}.

(** The types a file goes out with. *)
Definition acceptedType (t : jsstring) : bool :=
  JsStr.eqb t (js "audio/mp3") || JsStr.eqb t (js "audio/mpeg")
  || JsStr.eqb t (js "audio/webm").

End ClientVocabulary.

Module Turn.
Import JsStr OpenAI VoiceChatInterface.

Definition KeyMissing : jsstring :=
  js "OpenAI API key is required. Please set it in your environment variables.".

(** The timer every failure leaves behind. *)
Definition resetTimer (s : Session) : Pending :=
  {| pid := nextId s; trigger := AfterMs 5000; callback := ResetToIdle |}.

(** The entry a text turn opens with. *)
Definition textEntry (env : Env) (message : jsstring) : Message :=
  {| id := now1 env; content := message; sender := User;
     timestamp := now1 env; status := Some Sending; errorMessage := None |}.

(** An entry that went through. *)
Definition sent (c : jsstring) (m : Message) : Message :=
  {| id := id m; content := c; sender := sender m; timestamp := timestamp m;
     status := Some Sent; errorMessage := errorMessage m |}.

(** The reply as it is entered in the history. *)
Definition replyEntry (env : Env) (text : jsstring) : Message :=
  {| id := (now2 env + 1)%N; content := text; sender := Ai;
     timestamp := now2 env; status := Some Sent; errorMessage := None |}.

Definition hasId (i : N) (l : list Message) : bool :=
  existsb (fun msg => (id msg =? i)%N) l.

(** A turn is over: the reply is being spoken, or the session shows an
    error and the timer that clears it is the last thing left to run. *)
Definition ended (s : Session) : Prop :=
  match voiceState s with
  | Speaking => True
  | Error => last (map callback (pending s)) PlaybackEnded = ResetToIdle
  | _ => False
  end.

End Turn.

(** Sequences of calls on the voice state *)
Module VoiceUiRun.
Import JsStr VoiceChatInterface UseVoiceState.

Inductive VoiceOp :=
| SetState (newState : VoiceState)
| SetError (message : jsstring)
| ClearError.

Definition useVoiceState (initialState : VoiceState) : VoiceUi :=
  {| state := initialState; error := None |}.

Definition call (u : VoiceUi) (op : VoiceOp) : VoiceUi :=
  match op with
  | SetState newState => setState newState u
  | SetError message => setError message u
  | ClearError => clearError u
  end.

End VoiceUiRun.

(** *** More concrete inputs *)
Module Inputs.
Import JsStr OpenAI VoiceChatInterface.

(** A backend that cannot be reached. *)
Definition offlineBackend : OpenAI.Backend :=
  {| transcriptions := fun _ => NetworkError (js "Failed to fetch");
     completions := fun _ => NetworkError (js "Failed to fetch") |}.

Definition offline : Env := Examples.envOf offlineBackend.

(** Everything granted, but no key. *)
Definition noKey : Env :=
  {| apiKey := []; backend := Examples.backendOf (js "hello") Examples.textReply;
     now1 := 1000; now2 := 2000;
     speechSynthesisSupported := true; atobOk := fun _ => true;
     playResolves := true; audioRecordingSupported := true;
     detectorInitOk := true; microphone := RecorderService.Granted;
     onSendMessage := fun _ => None |}.

(** What the backend of [Examples.audioTurn] answers an audio turn
    with. *)
Definition audioAnswer : GPT4oAudioResponse :=
  {| OpenAI.transcription := js "hello"; textResponse := js "Hello.";
     r_audioData := Some (js "UklGRg==") |}.

Definition greeting : UseChatHistory.NewMessage :=
  {| UseChatHistory.n_content := js "hello";
     UseChatHistory.n_sender := User;
     UseChatHistory.n_status := Some Sending;
     UseChatHistory.n_errorMessage := None |}.

End Inputs.

(* ===================================================================== *)
(** * Part II - properties                                                *)
(* ===================================================================== *)

(** ** Strings *)
Module JsStrFacts.
Import JsStr.

Lemma trimStart_blank (s : jsstring) :
  blank s = true -> trimStart s = [].
Proof.
  induction s as [|c s IH]; simpl; [reflexivity|].
  intros H. apply andb_true_iff in H as [Hc Hs].
  rewrite Hc. apply IH, Hs.
Qed.

Lemma trimStart_nil_blank (s : jsstring) :
  trimStart s = [] -> blank s = true.
Proof.
  induction s as [|c s IH]; simpl; [reflexivity|].
  destruct (isWhiteSpace c); [simpl; exact IH | discriminate].
Qed.

(** What [trimStart] leaves is empty or begins with a character
    that is no whitespace. *)
Lemma trimStart_head (s : jsstring) :
  trimStart s = [] \/
  exists c r, trimStart s = c :: r /\ isWhiteSpace c = false.
Proof.
  induction s as [|c s IH]; simpl; [left; reflexivity|].
  destruct (isWhiteSpace c) eqn:E; [exact IH|].
  right. exists c, s. split; [reflexivity | exact E].
Qed.

Lemma blank_rev (s : jsstring) : blank (rev s) = blank s.
Proof.
  unfold blank. induction s as [|c s IH]; simpl; [reflexivity|].
  rewrite forallb_app, IH. simpl. rewrite andb_true_r, andb_comm.
  reflexivity.
Qed.

Lemma trim_blank (s : jsstring) : blank s = true -> trim s = [].
Proof.
  intros H. unfold trim. rewrite (trimStart_blank s H). reflexivity.
Qed.

Lemma trim_nil_blank (s : jsstring) : trim s = [] -> blank s = true.
Proof.
  unfold trim. intros H.
  assert (H1 : trimStart (rev (trimStart s)) = []).
  { destruct (trimStart (rev (trimStart s))) as [|x l]; [reflexivity|].
    simpl in H. destruct (rev l); discriminate. }
  apply trimStart_nil_blank in H1. rewrite blank_rev in H1.
  destruct (trimStart_head s) as [E | (c & r & E & Hc)].
  - apply trimStart_nil_blank, E.
  - rewrite E in H1. simpl in H1. rewrite Hc in H1. discriminate.
Qed.

Lemma isEmpty_trim (s : jsstring) : isEmpty (trim s) = blank s.
Proof.
  destruct (blank s) eqn:B.
  - rewrite (trim_blank s B). reflexivity.
  - destruct (trim s) eqn:T; [|reflexivity].
    apply trim_nil_blank in T. congruence.
Qed.

End JsStrFacts.

(** ** Both detectors: what [stop] and [cleanup] leave behind *)
Module DetectorFacts.
Import DetectorTypes Dom DetectorCommon.

Section WithClosure.
Variable C : Type.
Implicit Type d : Detector C.

Lemma cleanup_done d :
  cleanup d =
  Done {| options := options d; res := noResources;
          checkIntervalTimer := None; silenceTimer := None;
          isSilent := isSilent d; isInitialized := false;
          isRunning := false; silenceDetectedFlag := false;
          loop := clearSilenceTimer d |}.
Proof.
  unfold cleanup. simpl.
  destruct (audioContext (res d)) as [[|]|]; reflexivity.
Qed.

Lemma start_isSilent ok d :
  isSilent d = false -> isSilent (fst (start ok d)) = false.
Proof.
  intros H. unfold start, initialize.
  destruct (isInitialized d); simpl.
  - destruct (isRunning d); simpl; [exact H | reflexivity].
  - destruct ok; simpl; [|exact H].
    destruct (isRunning d); simpl; [exact H | reflexivity].
Qed.

Lemma start_callbacks ok d c :
  In c (snd (start ok d)) -> c = OnError.
Proof.
  unfold start, initialize.
  destruct (isInitialized d); simpl.
  - destruct (isRunning d); simpl; intros [].
  - destruct ok; simpl.
    + destruct (isRunning d); simpl; intros [].
    + intros [E|[]]. symmetry. exact E.
Qed.

End WithClosure.
End DetectorFacts.

(** ** The detector of silence-detector.service.ts *)
Module ServiceFacts.
Import DetectorTypes Dom DetectorCommon SilenceDetectorService.
Import DetectorFacts.

(** No step ever sets the closure variable [isSilent]: [handleSilence]
    writes to its copy. *)
Lemma step_isSilent (d : Detector) (e : Event) :
  isSilent d = false -> isSilent (fst (step d e)) = false.
Proof.
  intros H. destruct e as [ok| | |level|id|dt]; simpl.
  - apply start_isSilent, H.
  - exact H.
  - rewrite cleanup_done. simpl. exact H.
  - unfold tick. destruct (checkIntervalTimer d); [|exact H].
    destruct (negb (analyzer (res d)) || negb (isRunning d)); [exact H|].
    destruct (isAudioSilent level _).
    + destruct (handleSilence _ _ _) as [[t l] cbs]. simpl. exact H.
    + destruct (handleSpeech _ _ _) as [l cbs]. simpl. exact H.
  - unfold fire. destruct (EventLoop.find id (loop d)); [|exact H].
    destruct (_ <=? _)%N; simpl; exact H.
  - exact H.
Qed.

Lemma step_no_speech (d : Detector) (e : Event) :
  isSilent d = false -> ~ In OnSpeechDetected (snd (step d e)).
Proof.
  intros H. destruct e as [ok| | |level|id|dt]; simpl; try tauto.
  - intros Hin. apply start_callbacks in Hin. discriminate.
  - unfold tick. destruct (checkIntervalTimer d); [|simpl; tauto].
    destruct (negb (analyzer (res d)) || negb (isRunning d)); [simpl; tauto|].
    destruct (isAudioSilent level _).
    + unfold handleSilence. simpl. rewrite H. simpl.
      destruct (_ =? 0)%N; simpl.
      * destruct (isRunning d && negb (silenceDetectedFlag d)); simpl;
          intuition discriminate.
      * tauto.
    + unfold handleSpeech. rewrite H. simpl. tauto.
  - unfold fire. destruct (EventLoop.find id (loop d)); [|simpl; tauto].
    destruct (_ <=? _)%N; simpl; [|tauto].
    unfold timeoutCallback. destruct (_ && _); simpl; intuition discriminate.
Qed.

(** Nor does any step set [silenceDetectedFlag]: the latch is written
    on the copies only, and [hasSilenceBeenDetected()] never turns true. *)
Lemma step_flag (d : Detector) (e : Event) :
  silenceDetectedFlag d = false ->
  silenceDetectedFlag (fst (step d e)) = false.
Proof.
  intros H. destruct e as [ok| | |level|id|dt]; simpl.
  - unfold start, initialize.
    destruct (isInitialized d); simpl.
    + destruct (isRunning d); simpl; [exact H | reflexivity].
    + destruct ok; simpl; [|exact H].
      destruct (isRunning d); simpl; reflexivity.
  - exact H.
  - rewrite cleanup_done. reflexivity.
  - unfold tick. destruct (checkIntervalTimer d); [|exact H].
    destruct (negb (analyzer (res d)) || negb (isRunning d)); [exact H|].
    destruct (isAudioSilent level _).
    + destruct (handleSilence _ _ _) as [[t l] cbs]. simpl. exact H.
    + destruct (handleSpeech _ _ _) as [l cbs]. simpl. exact H.
  - unfold fire. destruct (EventLoop.find id (loop d)); [|exact H].
    destruct (_ <=? _)%N; simpl; exact H.
  - exact H.
Qed.

(** So a running detector in immediate mode answers every quiet sample
    with a call, and is no wiser afterwards. *)
Lemma immediate_tick_repeats (d : Detector) (level : Q) :
  checkIntervalTimer d <> None -> analyzer (res d) = true ->
  isRunning d = true -> isSilent d = false ->
  silenceDetectedFlag d = false ->
  m_silenceDuration (options d) = 0%N ->
  isAudioSilent level (m_silenceThreshold (options d)) = true ->
  snd (tick level d) = [OnSilenceDetected]
  /\ isSilent (fst (tick level d)) = false
  /\ silenceDetectedFlag (fst (tick level d)) = false
  /\ isRunning (fst (tick level d)) = true.
Proof.
  intros Hi Ha Hr Hs Hf Hd Hq. unfold tick, handleSilence.
  destruct (checkIntervalTimer d); [|congruence].
  rewrite Ha, Hr, Hq, Hs, Hf, Hd. simpl. repeat split; assumption.
Qed.

Lemma run_no_speech (es : list Event) (d : Detector) :
  isSilent d = false ->
  forall b, ~ In (b, OnSpeechDetected) (snd (run d es)).
Proof.
  revert d. induction es as [|e es IH]; intros d H b; simpl; [tauto|].
  pose proof (step_isSilent d e H) as H1.
  pose proof (step_no_speech d e H) as H2.
  unfold run, step in *. simpl.
  destruct (DetectorCommon.step tick fire d e) as [d' cbs] eqn:E.
  simpl in H1, H2.
  specialize (IH d' H1 b).
  destruct (DetectorCommon.run tick fire d' es) as [d'' tr] eqn:E'.
  simpl in *. rewrite in_app_iff. intros [Hin|Hin]; [|tauto].
  apply in_map_iff in Hin as (c & Hc & Hin). inversion Hc; subst. tauto.
Qed.

End ServiceFacts.

(** ** The older detector of part_000: the latch works there *)
Module LegacyFacts.
Import DetectorTypes Dom DetectorCommon LegacySilenceDetector LegacyRun.
Import DetectorFacts.

(** A detector that is not running calls neither edge listener. *)
Lemma step_needs_running (d : Detector) (e : Event) (c : Callback) :
  isRunning d = false -> In c (snd (step d e)) -> c = OnError.
Proof.
  intros H. destruct e as [ok| | |level|id|dt]; simpl; try tauto.
  - apply start_callbacks.
  - unfold tick. destruct (checkIntervalTimer d); [|simpl; tauto].
    rewrite H. rewrite orb_true_r. simpl. tauto.
  - unfold fire. destruct (EventLoop.find id (loop d)); [|simpl; tauto].
    destruct (_ <=? _)%N; simpl; [|tauto].
    rewrite H. simpl. tauto.
Qed.

Lemma run_needs_running (es : list Event) (d : Detector) (c : Callback) :
  In (false, c) (snd (run d es)) -> c = OnError.
Proof.
  revert d. induction es as [|e es IH]; intros d; simpl; [tauto|].
  unfold run in *. simpl.
  pose proof (step_needs_running d e c) as Hs. unfold step in Hs.
  destruct (DetectorCommon.step tick fire d e) as [d' cbs].
  specialize (IH d').
  destruct (DetectorCommon.run tick fire d' es) as [d'' tr].
  simpl in *. rewrite in_app_iff. intros [Hin|Hin]; [|auto].
  apply in_map_iff in Hin as (c' & Hc & Hin). inversion Hc; subst. auto.
Qed.

Lemma step_wf (d : Detector) (e : Event) :
  wf d = true -> wf (fst (step d e)) = true.
Proof.
  unfold wf. destruct d as [o r cit st isS isI isR flag l].
  destruct e as [ok| | |level|id|dt]; simpl; try reflexivity; try tauto.
  - unfold start, initialize; simpl.
    destruct isI, ok, isR; simpl; auto.
  - intros _. rewrite cleanup_done. reflexivity.
  - unfold tick; simpl. intros H.
    destruct cit, (analyzer r), isR, isS, isI, st;
      simpl in *; try discriminate; try reflexivity;
      destruct (isAudioSilent level _); simpl; try reflexivity;
      split_ifs; reflexivity.
  - unfold fire; simpl. intros H. destruct (EventLoop.find id l); [|exact H].
    destruct (_ <=? _)%N, isR, flag; simpl in *; auto.
Qed.

Lemma step_budget (d : Detector) (e : Event) :
  wf d = true -> endsRun e = false ->
  count OnSilenceDetected (snd (step d e)) + budget (fst (step d e))
  <= budget d.
Proof.
  intros Hw He. unfold budget, wf in *.
  destruct d as [o r cit st isS isI isR flag l].
  destruct e as [ok| | |level|id|dt]; simpl in *; try discriminate.
  - unfold start, initialize; simpl.
    destruct isI, ok, isR, flag; simpl in *; try discriminate; lia.
  - unfold tick; simpl. destruct cit; [|simpl; lia].
    destruct (analyzer r), isR, isS, flag, st; simpl; try lia;
      destruct (isAudioSilent level _); simpl; try lia;
      split_ifs; lia.
  - unfold fire; simpl. destruct (EventLoop.find id l); [|simpl; lia].
    destruct (_ <=? _)%N, isR, flag; simpl; lia.
  - lia.
Qed.

Lemma count_app (c : Callback) (l1 l2 : list Callback) :
  count c (l1 ++ l2) = count c l1 + count c l2.
Proof. unfold count. rewrite filter_app, length_app. reflexivity. Qed.

Lemma run_budget (es : list Event) (d : Detector) :
  wf d = true ->
  forallb (fun e => negb (endsRun e)) es = true ->
  count OnSilenceDetected (map snd (snd (run d es))) <= budget d.
Proof.
  revert d. induction es as [|e es IH]; intros d Hw H; simpl.
  - unfold budget, count. destruct (_ && _); simpl; lia.
  - simpl in H. apply andb_true_iff in H as [He Hes].
    apply negb_true_iff in He.
    pose proof (step_budget d e Hw He) as Hs.
    pose proof (step_wf d e Hw) as Hw'.
    unfold run, step in *. simpl.
    destruct (DetectorCommon.step tick fire d e) as [d' cbs].
    specialize (IH d' Hw' Hes).
    destruct (DetectorCommon.run tick fire d' es) as [d'' tr].
    simpl in *. rewrite map_app, count_app, map_map. simpl.
    rewrite map_id. lia.
Qed.

(** From a [start()] on, and until the next [stop()] or [cleanup()],
    the older detector calls [onSilenceDetected] at most once. *)
Theorem legacy_at_most_once (d : Detector) (ok : bool) (es : list Event) :
  wf d = true ->
  forallb (fun e => negb (endsRun e)) es = true ->
  count OnSilenceDetected (map snd (snd (run d (Start ok :: es)))) <= 1.
Proof.
  intros Hw H.
  assert (Hb : budget d <= 1) by (unfold budget; destruct (_ && _); lia).
  assert (Hall : forallb (fun e => negb (endsRun e)) (Start ok :: es) = true)
    by exact H.
  pose proof (run_budget (Start ok :: es) d Hw Hall) as Hr.
  exact (Nat.le_trans _ _ _ Hr Hb).
Qed.

(** Whatever the events, the older detector calls its edge listeners
    only while it is running; a timeout that outlives [stop()] stays
    silent. *)
Theorem legacy_only_while_running (d : Detector) (es : list Event)
    (b : bool) (c : Callback) :
  In (b, c) (snd (run d es)) -> c <> OnError -> b = true.
Proof.
  intros Hin Hc. destruct b; [reflexivity|].
  apply run_needs_running in Hin. contradiction.
Qed.

(** The older detector reports speech exactly on a sample at or above the
    threshold that finds it quiet, and is loud afterwards. *)
Theorem legacy_speech_edge (d : Detector) (level : Q) :
  checkIntervalTimer d <> None -> analyzer (res d) = true ->
  isRunning d = true ->
  snd (tick level d) =
    (if negb (isAudioSilent level (m_silenceThreshold (options d)))
        && isSilent d
     then [OnSpeechDetected]
     else if isAudioSilent level (m_silenceThreshold (options d))
             && negb (isSilent d)
             && (m_silenceDuration (options d) =? 0)%N
             && negb (silenceDetectedFlag d)
          then [OnSilenceDetected] else [])
  /\ isSilent (fst (tick level d))
     = isAudioSilent level (m_silenceThreshold (options d)).
Proof.
  intros Hi Ha Hr. unfold tick.
  destruct (checkIntervalTimer d); [|congruence].
  rewrite Ha, Hr. simpl.
  destruct (isAudioSilent level _); simpl.
  - destruct (isSilent d) eqn:S; simpl; [auto|].
    destruct (_ =? 0)%N; simpl.
    + rewrite Hr. simpl. destruct (silenceDetectedFlag d); simpl; auto.
    + auto.
  - destruct (isSilent d) eqn:S; simpl; [|auto].
    destruct (silenceTimer d); simpl; auto.
Qed.

End LegacyFacts.

(** ** The scenario: threshold 0.05, 5000 ms of silence, a sample every
       100 ms, on the detector of silence-detector.service.ts *)
Module ScenarioFacts.
Import DetectorTypes Dom DetectorCommon SilenceDetectorService Scenario.

Lemma started_at : started = at_ 0 None [] 2.
Proof. reflexivity. Qed.

Lemma dueBy_none (strict : bool) (t bound : N) (st : option nat)
    (ts : list (EventLoop.Timeout DetectionState)) (next : nat) (now : N) :
  Forall (notDueBefore bound) ts -> (t < bound)%N ->
  dueBy strict t (loop (at_ now st ts next)) = [].
Proof.
  intros H Ht. unfold dueBy. simpl.
  induction H as [|x ts Hx _ IH]; simpl; [reflexivity|].
  unfold notDueBefore in Hx.
  assert (E : (if strict then (EventLoop.due x <? t)%N
               else (EventLoop.due x <=? t)%N) = false).
  { destruct strict; [apply N.ltb_ge | apply N.leb_gt]; lia. }
  rewrite E. exact IH.
Qed.

(** Nothing is due: [settle] only moves the clock. *)
Lemma settle_idle (strict : bool) (t bound : N) (st : option nat)
    (ts : list (EventLoop.Timeout DetectionState)) (next : nat) (now : N) :
  Forall (notDueBefore bound) ts -> (t < bound)%N -> (now <= t)%N ->
  settle strict t (at_ now st ts next) = (at_ t st ts next, []).
Proof.
  intros H Ht Hn. unfold settle, DetectorCommon.settle.
  rewrite (dueBy_none strict st next now H Ht). simpl.
  unfold at_, withLoop, EventLoop.setNow. simpl.
  rewrite N.max_r by exact Hn. reflexivity.
Qed.

Lemma tick_loud (t : N) (st : option nat)
    (ts : list (EventLoop.Timeout DetectionState)) (next : nat) :
  tick loud (at_ t st ts next) = (at_ t st ts next, []).
Proof. reflexivity. Qed.

Lemma tick_quiet (t : N) (st : option nat)
    (ts : list (EventLoop.Timeout DetectionState)) (next : nat) :
  tick quiet (at_ t st ts next) =
  (at_ t (Some next)
     (ts ++ [{| EventLoop.tid := next; EventLoop.due := (t + 5000)%N;
                EventLoop.closure :=
                  {| st_isSilent := true; st_silenceTimer := st;
                     st_silenceDetectedFlag := false;
                     st_isRunning := true |} |}])
     (S next), []).
Proof. reflexivity. Qed.

Lemma sample_at (timersFirst : bool) (t : N) (st : option nat)
    (ts : list (EventLoop.Timeout DetectionState)) (next : nat)
    (level : Q) (rest : list Q) :
  sample timersFirst (at_ t st ts next) (level :: rest) =
  let '(d1, tr1) := settle (negb timersFirst) (t + 100) (at_ t st ts next) in
  let '(d2, cbs) := tick level d1 in
  let '(d3, tr3) := sample timersFirst d2 rest in
  (d3, tr1 ++ stamp d1 cbs ++ tr3).
Proof. reflexivity. Qed.

Lemma sample_loud (timersFirst : bool) (n : nat) (t : N) (rest : list Q) :
  sample timersFirst (at_ t None [] 2) (repeat loud n ++ rest) =
  sample timersFirst (at_ (t + 100 * N.of_nat n) None [] 2) rest.
Proof.
  revert t. induction n as [|n IH]; intros t.
  - simpl. rewrite N.add_0_r. reflexivity.
  - change (repeat loud (S n) ++ rest) with (loud :: (repeat loud n ++ rest)).
    rewrite sample_at.
    rewrite (@settle_idle (negb timersFirst) (t + 100) (t + 101) None [] 2 t);
      [|constructor|lia|lia].
    rewrite tick_loud. rewrite IH.
    replace (t + 100 + 100 * N.of_nat n)%N with (t + 100 * N.of_nat (S n))%N
      by lia.
    destruct (sample timersFirst _ rest). reflexivity.
Qed.

Lemma sample_quiet (timersFirst : bool) (t1 : N) (m k : nat) (d : Detector) :
  quietSince t1 k d -> k + m < 50 ->
  exists d', sample timersFirst d (repeat quiet m) = (d', [])
             /\ quietSince t1 (k + m) d'.
Proof.
  revert k d. induction m as [|m IH]; intros k d H Hk.
  - exists d. rewrite Nat.add_0_r. split; [reflexivity | exact H].
  - destruct H as (st & first & ts & next & -> & Hd & Hc & Hall).
    change (repeat quiet (S m)) with (quiet :: repeat quiet m).
    rewrite sample_at.
    rewrite (@settle_idle (negb timersFirst)
               (t1 + 100 * N.of_nat k + 100) (t1 + 5000) st (first :: ts)
               next (t1 + 100 * N.of_nat k)); [|exact Hall|lia|lia].
    rewrite tick_quiet.
    destruct (IH (S k)
                (at_ (t1 + 100 * N.of_nat k + 100) (Some next)
                   ((first :: ts) ++
                    [{| EventLoop.tid := next;
                        EventLoop.due := (t1 + 100 * N.of_nat k + 100 + 5000)%N;
                        EventLoop.closure :=
                          {| st_isSilent := true; st_silenceTimer := st;
                             st_silenceDetectedFlag := false;
                             st_isRunning := true |} |}])
                   (S next))) as (d' & Hs & Hq).
    + exists (Some next), first,
        (ts ++ [{| EventLoop.tid := next;
                   EventLoop.due := (t1 + 100 * N.of_nat k + 100 + 5000)%N;
                   EventLoop.closure :=
                     {| st_isSilent := true; st_silenceTimer := st;
                        st_silenceDetectedFlag := false;
                        st_isRunning := true |} |}]), (S next).
      repeat split; try assumption.
      * replace (t1 + 100 * N.of_nat (S k))%N
          with (t1 + 100 * N.of_nat k + 100)%N by lia.
        reflexivity.
      * change (first :: ts ++ ?l) with ((first :: ts) ++ l).
        apply Forall_app. split; [exact Hall|].
        constructor; [|constructor]. unfold notDueBefore. simpl. lia.
    + lia.
    + exists d'. rewrite Hs. split; [reflexivity|].
      replace (k + S m) with (S k + m) by lia. exact Hq.
Qed.

Lemma fireAt_prefix (x : nat * N) (d : Detector) (tr : list (N * Callback)) :
  exists tr', snd (fireAt fire (d, tr) x) = tr ++ tr'.
Proof.
  unfold fireAt. destruct (fire (fst x) _) as [d' cbs].
  eexists. reflexivity.
Qed.

Lemma fireAt_fold_prefix (l : list (nat * N)) (d : Detector)
    (tr : list (N * Callback)) :
  exists tr', snd (fold_left (fireAt fire) l (d, tr)) = tr ++ tr'.
Proof.
  revert d tr. induction l as [|x l IH]; intros d tr.
  - exists []. rewrite app_nil_r. reflexivity.
  - change (fold_left (fireAt fire) (x :: l) (d, tr))
      with (fold_left (fireAt fire) l (fireAt fire (d, tr) x)).
    destruct (fireAt_prefix x d tr) as (tr1 & E1).
    destruct (fireAt fire (d, tr) x) as [d1 tr1'] eqn:E.
    simpl in E1. subst tr1'.
    destruct (IH d1 (tr ++ tr1)) as (tr2 & E2).
    exists (tr1 ++ tr2).
    etransitivity; [exact E2 | symmetry; apply app_assoc].
Qed.

Lemma settle_first (t1 : N) (k : nat) (d : Detector) (horizon : N) :
  quietSince t1 k d -> k < 50 -> (t1 + 5000 <= horizon)%N ->
  hd_error (snd (settle false horizon d))
  = Some ((t1 + 5000)%N, OnSilenceDetected).
Proof.
  intros (st & first & ts & next & -> & Hd & Hc & Hall) Hk Hh.
  unfold settle, DetectorCommon.settle, dueBy.
  cbn [loop at_ EventLoop.timeouts filter].
  assert (E : (EventLoop.due first <=? horizon)%N = true)
    by (apply N.leb_le; lia).
  rewrite E. cbn [map].
  match goal with
  | |- context [fold_left ?f (?x :: ?l) ?a] =>
    change (fold_left f (x :: l) a) with (fold_left f l (f a x))
  end.
  assert (F : fireAt fire (at_ (t1 + 100 * N.of_nat k) st (first :: ts) next, [])
                (EventLoop.tid first, EventLoop.due first)
              = (at_ (t1 + 5000) st
                   (filter (fun x => negb (Nat.eqb (EventLoop.tid x)
                                                   (EventLoop.tid first)))
                      (first :: ts)) next,
                 [((t1 + 5000)%N, OnSilenceDetected)])).
  { unfold fireAt, fire. cbn [fst snd loop at_ withLoop EventLoop.setNow
      EventLoop.now EventLoop.timeouts EventLoop.nextTimerId EventLoop.find
      List.find options res checkIntervalTimer silenceTimer isSilent
      isInitialized isRunning silenceDetectedFlag].
    rewrite Nat.eqb_refl, Hd.
    rewrite N.max_r by lia.
    rewrite N.leb_refl, Hc.
    reflexivity. }
  rewrite F.
  destruct (fireAt_fold_prefix
              (map (fun x => (EventLoop.tid x, EventLoop.due x))
                   (filter (fun x => (EventLoop.due x <=? horizon)%N) ts))
              (at_ (t1 + 5000) st
                 (filter (fun x => negb (Nat.eqb (EventLoop.tid x)
                                                 (EventLoop.tid first)))
                    (first :: ts)) next)
              [((t1 + 5000)%N, OnSilenceDetected)]) as (tr' & E').
  destruct (fold_left _ _ _) as [d' tr]. simpl in E'. subst tr.
  reflexivity.
Qed.

End ScenarioFacts.

(** ** The claims about the silence detector *)
Section DetectorClaims.
Import DetectorTypes DetectorCommon Scenario.

Lemma count_none (c : Callback) (tr : list (bool * Callback)) :
  (forall b, ~ In (b, c) tr) -> count c (map snd tr) = 0.
Proof.
  unfold count. induction tr as [|[b c'] tr IH]; intros H; [reflexivity|].
  simpl. destruct (Callback_eqb c c') eqn:E.
  - exfalso. apply (H b). left.
    destruct c, c'; simpl in E; try discriminate; reflexivity.
  - apply IH. intros b' Hin. apply (H b'). right. exact Hin.
Qed.

(** C1 (defect of silence-detector.service.ts).  The claim: within one
    run [onSilenceDetected] is called at most once, and no edge listener
    is called while the detector is stopped.  The code: in immediate mode
    two quiet samples of one run give two calls; with the default 5000 ms
    two quiet samples arm two timeouts that both call the listener in the
    same run; and when [stop()] comes first, the timeout of the first
    sample still calls it, the detector being stopped. *)
Theorem C1_service_latch_fails :
  map snd (snd (SilenceDetectorService.run
                  (createSilenceDetector _ immediateOptions)
                  [Start true; Tick quiet; Tick quiet]))
  = [OnSilenceDetected; OnSilenceDetected]
  /\ snd (SilenceDetectorService.run
            (createSilenceDetector _ noOptions)
            [Start true; Tick quiet; Tick quiet; Wait 5000; Fire 2; Fire 3])
     = [(true, OnSilenceDetected); (true, OnSilenceDetected)]
  /\ snd (SilenceDetectorService.run
            (createSilenceDetector _ noOptions)
            [Start true; Tick quiet; Tick quiet; Stop; Wait 5000; Fire 2])
     = [(false, OnSilenceDetected)].
Proof. repeat split; vm_compute; reflexivity. Qed.

(** The older detector on the same three inputs: one call, one call,
    none. *)
Lemma legacy_latch_holds :
  map snd (snd (LegacySilenceDetector.run
                  (createSilenceDetector _ immediateOptions)
                  [Start true; Tick quiet; Tick quiet]))
  = [OnSilenceDetected]
  /\ snd (LegacySilenceDetector.run
            (createSilenceDetector _ noOptions)
            [Start true; Tick quiet; Tick quiet; Wait 5000; Fire 2; Fire 3])
     = [(true, OnSilenceDetected)]
  /\ snd (LegacySilenceDetector.run
            (createSilenceDetector _ noOptions)
            [Start true; Tick quiet; Tick quiet; Stop; Wait 5000; Fire 2])
     = [].
Proof. repeat split; vm_compute; reflexivity. Qed.

(** C2, as stated, fails on the scenario with three loud samples first:
    by the fiftieth quiet sample (5300 ms) no call has been made; the
    first comes at 5400 ms, and it is the first of fifty. *)
Lemma C2_counterexample :
  ~ oneEdgeAtFiftieth false 3
  /\ edges false 3 (tickTime (3 + 50)) = []
  /\ hd_error (edges false 3 20000) = Some (5400%N, OnSilenceDetected)
  /\ List.length (edges false 3 20000) = 50.
Proof.
  split; [|repeat split; vm_compute; reflexivity].
  intros H. specialize (H 5300%N).
  assert (Hle : (tickTime (3 + 50) <= 5300)%N) by (vm_compute; discriminate).
  specialize (H Hle). vm_compute in H. discriminate.
Qed.

(** C2 as amended.  With threshold 0.05, 5000 ms and a sample every
    100 ms, after any number of samples at level 0.5 the fifty samples at
    level 0.01 bring no [onSilenceDetected] call up to and including the
    fiftieth; the first call comes 5000 ms after the first quiet sample,
    one interval after the fiftieth.  This holds whichever of a tick and a
    timeout due at the same instant runs first. *)
Theorem C2_first_edge_after_5000ms (timersFirst : bool) (n : nat) (extra : N) :
  snd (SilenceDetectorService.sample timersFirst started (levels n)) = []
  /\ hd_error (edges timersFirst n (tickTime (S n) + 5000 + extra))
     = Some ((tickTime (S n) + 5000)%N, OnSilenceDetected).
Proof.
  unfold edges, levels. rewrite ScenarioFacts.started_at.
  rewrite ScenarioFacts.sample_loud.
  change (repeat quiet 50) with (quiet :: repeat quiet 49).
  rewrite ScenarioFacts.sample_at.
  rewrite (@ScenarioFacts.settle_idle (negb timersFirst)
             (0 + 100 * N.of_nat n + 100) (0 + 100 * N.of_nat n + 101)
             None [] 2 (0 + 100 * N.of_nat n)); [|constructor|lia|lia].
  rewrite ScenarioFacts.tick_quiet.
  assert (Hq : quietSince (tickTime (S n)) 0
                 (at_ (0 + 100 * N.of_nat n + 100)
                    (Some 2)
                    ([] ++ [{| EventLoop.tid := 2;
                               EventLoop.due :=
                                 (0 + 100 * N.of_nat n + 100 + 5000)%N;
                               EventLoop.closure :=
                                 {| SilenceDetectorService.st_isSilent := true;
                                    SilenceDetectorService.st_silenceTimer := None;
                                    SilenceDetectorService.st_silenceDetectedFlag := false;
                                    SilenceDetectorService.st_isRunning := true |} |}])
                    3)).
  { exists (Some 2), {| EventLoop.tid := 2;
                        EventLoop.due := (0 + 100 * N.of_nat n + 100 + 5000)%N;
                        EventLoop.closure :=
                          {| SilenceDetectorService.st_isSilent := true;
                             SilenceDetectorService.st_silenceTimer := None;
                             SilenceDetectorService.st_silenceDetectedFlag := false;
                             SilenceDetectorService.st_isRunning := true |} |},
      [], 3.
    split; [|split; [|split]].
    - replace (tickTime (S n) + 100 * N.of_nat 0)%N
        with (0 + 100 * N.of_nat n + 100)%N by (unfold tickTime; lia).
      reflexivity.
    - cbn [EventLoop.due]. unfold tickTime. lia.
    - reflexivity.
    - constructor; [|constructor]. unfold notDueBefore.
      cbn [EventLoop.due]. unfold tickTime. lia. }
  destruct (ScenarioFacts.sample_quiet timersFirst 49 Hq)
    as (d' & Hs & Hq'); [lia|].
  rewrite Hs. cbv beta iota. cbn [snd app]. split; [reflexivity|].
  apply ScenarioFacts.settle_first with (k := 0 + 49);
    [exact Hq' | lia | apply N.le_add_r].
Qed.

(** C3 (defect of silence-detector.service.ts).  The claim: each sample
    at or above the threshold that follows quiet calls [onSpeechDetected]
    once.  The code: whatever the options and the events, the detector
    never calls it, since the closure variable [isSilent] is never set; a
    quiet sample followed by a loud one gives no call, where the older
    detector gives one. *)
Theorem C3_service_never_reports_speech
    (o : SilenceDetectorOptions) (es : list Event) :
  count OnSpeechDetected
    (map snd (snd (SilenceDetectorService.run
                     (createSilenceDetector _ o) es))) = 0
  /\ snd (SilenceDetectorService.run (createSilenceDetector _ noOptions)
            [Start true; Tick quiet; Tick loud]) = []
  /\ snd (LegacySilenceDetector.run (createSilenceDetector _ noOptions)
            [Start true; Tick quiet; Tick loud]) = [(true, OnSpeechDetected)].
Proof.
  split; [|split; vm_compute; reflexivity].
  apply count_none. intros b.
  apply ServiceFacts.run_no_speech. reflexivity.
Qed.

End DetectorClaims.

(** ** Releasing the devices *)
Section CleanupClaims.
Import Dom.

Lemma recorder_cleanup_done (r : RecorderService.AudioRecorder) :
  exists q,
    RecorderService.cleanup r =
    Done {| RecorderService.mediaRecorder := None;
            RecorderService.audioChunks := [];
            RecorderService.stream := false;
            RecorderService.queued := q |}.
Proof.
  destruct r as [[[| |]|] chunks str q]; eexists; reflexivity.
Qed.

(** C9.  [cleanup()] never raises, whatever the state, and a second
    [cleanup()] finds nothing left to do: the recorder ends with no
    [MediaRecorder] ([getState()] is null) and no stream, the detector
    (the current one and the older one alike) ends uninitialized, not
    running and without audio graph, and both are left exactly as the
    first call left them. *)
Theorem C9_cleanup_idempotent :
  (forall r : RecorderService.AudioRecorder,
     exists r1,
       RecorderService.cleanup r = Done r1
       /\ RecorderService.cleanup r1 = Done r1
       /\ RecorderService.getState r1 = None
       /\ RecorderService.stream r1 = false)
  /\ (forall (C : Type) (d : DetectorCommon.Detector C),
        exists d1,
          DetectorCommon.cleanup d = Done d1
          /\ DetectorCommon.cleanup d1 = Done d1
          /\ DetectorCommon.isInitialized d1 = false
          /\ DetectorCommon.isRunning d1 = false
          /\ DetectorCommon.res d1 = DetectorTypes.noResources).
Proof.
  split.
  - intros r. destruct (recorder_cleanup_done r) as (q & E).
    eexists. split; [exact E|]. repeat split; reflexivity.
  - intros C d. rewrite DetectorFacts.cleanup_done.
    eexists. split; [reflexivity|]. rewrite DetectorFacts.cleanup_done.
    repeat split; reflexivity.
Qed.

End CleanupClaims.

(** ** The backend client *)
Section ClientClaims.
Import JsStr OpenAI Spec.

Lemma extractResponse_expected (m : ChatMessage) :
  extractResponse m = expectedReply m.
Proof.
  unfold extractResponse, expectedReply, expectedText, contentText,
    audioDataOf.
  destruct m as [r c a]. cbn [OpenAI.audio OpenAI.content].
  assert (Hc : forall c0 : jsstring,
             (if negb (isEmpty (trim c0)) then trim c0 else []) = trim c0).
  { intros c0. destruct (trim c0); reflexivity. }
  destruct a as [[d [tr|]]|]; cbn [data transcript].
  - rewrite JsStrFacts.isEmpty_trim.
    destruct (blank tr) eqn:B; cbn [negb].
    + destruct c as [c|]; [rewrite Hc|];
        destruct d as [[|x d]|]; cbn [isEmpty];
        try destruct (trim c); reflexivity.
    + destruct (trim tr) eqn:T.
      * apply JsStrFacts.trim_nil_blank in T. congruence.
      * destruct d as [[|x d]|]; reflexivity.
  - destruct c as [c|]; [rewrite Hc|];
      destruct d as [[|x d]|]; cbn [isEmpty];
      try destruct (trim c); reflexivity.
  - destruct c as [c|]; [rewrite Hc|]; try destruct (trim c); reflexivity.
Qed.

(** C10.  When the backend answers a chat completion with a first
    choice [m], [sendMessageToGPT4o] (of src/lib/openai.ts and of the
    service alike) returns the trimmed transcript of [m]'s audio object
    if that is a non-blank string, whatever the content, and the trimmed
    content otherwise, together with the audio data; and it throws "No
    response received from API" when that text is empty and there is no
    audio data. *)
Theorem C10_reply_text (b : Backend) (message : jsstring)
    (history : list ChatMessage) (key : jsstring)
    (opts : option AudioOptions) (m : ChatMessage) (rest : list ChatMessage) :
  isEmpty key = false ->
  completions b (createChatCompletionRequest message history opts)
  = OkStatus (inl {| choices := m :: rest |}) ->
  fst (Lib.sendMessageToGPT4o b message history key opts) = expectedReply m
  /\ fst (sendMessageToGPT4o b message history key opts) = expectedReply m.
Proof.
  intros Hk Hr.
  unfold Lib.sendMessageToGPT4o, sendMessageToGPT4o, sendMessageToGPT4o_with,
    validateApiKey.
  rewrite Hk. cbn [fst]. rewrite Hr. cbn [parseChatCompletionResponse choices].
  split; apply extractResponse_expected.
Qed.

(** The transcript wins over a content that is present. *)
Lemma C10_reply_text_witness :
  isEmpty (js "sk-test") = false
  /\ fst (Lib.sendMessageToGPT4o
            (Examples.backendOf [] Examples.audioReply) (js "hello") []
            (js "sk-test") None)
     = Resolved {| text := js "Hello."; audioData := Some (js "UklGRg==") |}.
Proof.
  split; [reflexivity|].
  refine (eq_trans
            (proj1 (@C10_reply_text
                      (Examples.backendOf [] Examples.audioReply)
                      (js "hello") [] (js "sk-test") None
                      Examples.audioReply [] _ _)) _);
    reflexivity.
Defined.

End ClientClaims.

(** ** The session *)
Section SessionClaims.
Import JsStr OpenAI VoiceChatInterface Spec.

(** C8.  A message that is empty or all whitespace is turned away at
    the first line of [handleSendMessage], in VoiceChatInterface and in
    VoiceChat alike: the session is left as it was, so no entry is
    created, no request is logged and the state does not change. *)
Theorem C8_blank_text_rejected (env : Env) (speak : SpeakResult)
    (chatEnv : VoiceChat.Env) (message : jsstring) (s : Session)
    (c : VoiceChat.Session) :
  blank message = true ->
  handleSendMessage env speak message s = s
  /\ VoiceChat.handleSendMessage chatEnv message c = c.
Proof.
  intros H. unfold handleSendMessage, VoiceChat.handleSendMessage.
  rewrite JsStrFacts.isEmpty_trim, H. split; reflexivity.
Qed.

Lemma C8_blank_text_rejected_witness :
  blank (js "   ") = true
  /\ handleSendMessage (Examples.envOf (Examples.backendOf [] Examples.textReply))
       SpeechSynthesisService_speak (js "   ") (initial []) = initial []
  /\ VoiceChat.handleSendMessage
       (Examples.chatEnvOf (Examples.backendOf [] Examples.textReply))
       (js "   ") Examples.chatSession = Examples.chatSession.
Proof.
  split; [reflexivity|].
  exact (@C8_blank_text_rejected
           (Examples.envOf (Examples.backendOf [] Examples.textReply))
           SpeechSynthesisService_speak
           (Examples.chatEnvOf (Examples.backendOf [] Examples.textReply))
           (js "   ") (initial []) Examples.chatSession eq_refl).
Defined.

(** C6.  When the key is set and the transcription request succeeds with
    a text that is empty or blank, [sendAudioToGPT4o] fails with the
    empty-transcription error, and the turn does this and no more: it
    enters Processing, sends the one transcription request (no
    completion request), enters Error with that message, marks the pending
    user entry as failed with it, appends no other entry, and leaves one
    timer behind to return to Idle.  Speaking is never entered.  This
    holds whatever history [seen] the handler's render had captured. *)
Theorem C6_empty_transcription (env : Env) (speak : SpeakResult)
    (seen : list Message) (audioBlob : Blob) (s : Session)
    (heard : jsstring) :
  isEmpty (apiKey env) = false ->
  transcriptions (backend env) (prepareAudioForTranscription audioBlob)
  = OkStatus (inl {| t_text := Some heard |}) ->
  blank heard = true ->
  let s' := processAudioAndGetResponse env speak seen audioBlob s in
  fst (sendAudioToGPT4o (backend env) audioBlob (audioHistory seen)
         (apiKey env) None) = Rejected EmptyTranscription
  /\ log s' = log s ++
               [SetVoiceState Processing;
                Sends (TranscriptionRequest
                         (prepareAudioForTranscription audioBlob));
                SetVoiceState Error]
  /\ voiceState s' = Error
  /\ errorMsg s' = Some EmptyTranscription
  /\ messages s' =
       map (markFailed (now1 env) EmptyTranscription) (messages s)
       ++ [failed EmptyTranscription (pendingEntry env)]
  /\ pending s' = pending s ++
                   [{| pid := nextId s; trigger := AfterMs 5000;
                       callback := ResetToIdle |}].
Proof.
  intros Hk Ht Hb s'.
  assert (Hs : sendAudioToGPT4o (backend env) audioBlob
                 (audioHistory seen) (apiKey env) None
               = (Rejected EmptyTranscription,
                  [TranscriptionRequest
                     (prepareAudioForTranscription audioBlob)])).
  { unfold sendAudioToGPT4o, transcribeAudio, validateApiKey.
    rewrite Hk, Ht. cbn [parseTranscriptionResponse t_text].
    rewrite (JsStrFacts.trim_blank heard Hb). reflexivity. }
  split; [rewrite Hs; reflexivity|].
  subst s'. unfold processAudioAndGetResponse. rewrite Hk, Hs.
  destruct s as [m v t r i e sd rt ac dr ap p n l].
  cbn -[EmptyTranscription prepareAudioForTranscription].
  rewrite <- !app_assoc. cbn [app].
  rewrite map_app. cbn [map].
  cbn [id]. rewrite N.eqb_refl.
  repeat split; reflexivity.
Qed.

Lemma C6_empty_transcription_witness :
  isEmpty (apiKey Examples.blankTurn) = false
  /\ blank (js "  ") = true
  /\ states (log (processAudioAndGetResponse Examples.blankTurn
                    SpeechSynthesisService_speak [] Examples.blob
                    (initial [])))
     = [Processing; Error]
  /\ requests (log (processAudioAndGetResponse Examples.blankTurn
                      SpeechSynthesisService_speak [] Examples.blob
                      (initial [])))
     = [TranscriptionRequest Examples.blob]
  /\ map status (messages (processAudioAndGetResponse Examples.blankTurn
                             SpeechSynthesisService_speak [] Examples.blob
                             (initial [])))
     = [Some Failed].
Proof.
  pose proof (@C6_empty_transcription Examples.blankTurn
                SpeechSynthesisService_speak []
                Examples.blob (initial []) (js "  ")
                eq_refl eq_refl eq_refl) as (_ & Hl & _ & _ & Hm & _).
  split; [reflexivity|]. split; [reflexivity|].
  rewrite Hl, Hm. repeat split; reflexivity.
Defined.

Lemma history_filters (prior : list Message) :
  audioHistory prior = historyOf prior
  /\ formatConversationHistory (VoiceChat.history prior) = historyOf prior.
Proof.
  unfold audioHistory, VoiceChat.history, historyOf, contextOf.
  assert (E : filter (fun msg => negb (statusIs Sending msg)
                                 && negb (statusIs Failed msg)) prior
              = filter (fun m => match status m with
                                 | Some Sending | Some Failed => false
                                 | _ => true
                                 end) prior).
  { apply filter_ext. intros m. unfold statusIs.
    destruct (status m) as [[| |]|]; reflexivity. }
  rewrite E. split; reflexivity.
Qed.

(** The text pipeline of VoiceChatInterface agrees with the others as
    long as no entry is being sent. *)
Lemma textHistory_without_sending (prior : list Message) :
  forallb (fun m => negb (statusIs Sending m)) prior = true ->
  textHistory prior = historyOf prior.
Proof.
  intros H. unfold textHistory, historyOf, contextOf. do 2 f_equal.
  induction prior as [|m prior IH]; [reflexivity|].
  simpl in H. apply andb_true_iff in H as [Hm Hp].
  simpl. rewrite (IH Hp). unfold statusIs in *.
  destruct (status m) as [[| |]|]; simpl in *; try reflexivity; discriminate.
Qed.

(** C5 (defect of VoiceChatInterface.handleSendMessage).  The claim:
    both pipelines leave out the entries that are being sent or have
    failed.  The audio pipeline does, and so do both pipelines of
    VoiceChat ([history_filters]); the text pipeline of
    VoiceChatInterface tests for failed entries only, so an entry still
    being sent goes out with the request. *)
Theorem C5_text_history_keeps_sending :
  historyOf [Examples.sendingEntry] = []
  /\ audioHistory [Examples.sendingEntry] = []
  /\ textHistory [Examples.sendingEntry]
     = [{| role := RoleUser; OpenAI.content := Some (js "hi");
           audio := None |}]
  /\ requests (log (handleSendMessage Examples.textTurn
                      SpeechSynthesisService_speak (js "hello")
                      (initial [Examples.sendingEntry])))
     = [ChatRequest
          (createChatCompletionRequest (js "hello")
             [{| role := RoleUser; OpenAI.content := Some (js "hi");
                 audio := None |}]
             (Some {| voice := Some (js "alloy");
                      format := Some (js "wav") |}))].
Proof. repeat split; vm_compute; reflexivity. Qed.

(** An accepted request, everything granted: the recorder starts after
    its 100 ms delay, its start event puts the session in Recording and
    starts the detector. *)
Lemma accepted_request_records :
  log (settle Examples.textTurn SpeechSynthesisService_speak 2
         (handleStartRecording Examples.textTurn (initial [])))
  = [DetectorInitialize; Ran StartNewRecorder; RecorderStart 1000;
     Ran RecorderStarted; SetVoiceState Recording; DetectorStart]
  /\ isRecording (settle Examples.textTurn SpeechSynthesisService_speak 2
                    (handleStartRecording Examples.textTurn (initial [])))
     = true.
Proof. split; vm_compute; reflexivity. Qed.



(** With the [speak] of services/audio/speech-synthesis.service, the
    one VoiceChatInterface imports, the fallback throws wherever speech
    output is supported. *)
Lemma service_fallback_throws (env : Env) (text : jsstring) (s : Session) :
  speechSynthesisSupported env = true ->
  fallbackToTextToSpeech env SpeechSynthesisService_speak text s
  = Dom.Raised
      (Dom.TypeError "textToSpeech.speak(...).then is not a function") s.
Proof.
  intros H. unfold fallbackToTextToSpeech. rewrite H. reflexivity.
Qed.

(** With the promise-returning [speak] of src/lib/textToSpeech.ts the
    player does what the claim says: one completion on every path, audio
    without speech when it decodes and plays, speech once otherwise where
    supported, a simulated wait where not. *)
Lemma lib_player_done_once (env : Env) (audioData : option jsstring)
    (text : jsstring) :
  filter isDone (log (player env LibTextToSpeech_speak audioData text))
  = [Ran (if usableAudio env audioData && playResolves env
          then PlaybackEnded else SpeechEnded)]
  /\ filter isSpeech (log (player env LibTextToSpeech_speak audioData text))
     = (if usableAudio env audioData && playResolves env then []
        else if speechSynthesisSupported env then [SpeechStart text] else [])
  /\ voiceState (player env LibTextToSpeech_speak audioData text) = Idle.
Proof.
  unfold player, usableAudio, playReply, fallbackToTextToSpeech.
  destruct env as [k b n1 n2 sp ato pl sup dok mok osm].
  cbn [speechSynthesisSupported atobOk playResolves].
  destruct audioData as [[|x d]|]; cbn [isEmpty negb andb].
  - destruct sp; repeat split; reflexivity.
  - destruct (ato (x :: d)) eqn:E, pl, sp; cbn [andb];
      repeat split; vm_compute; rewrite ?E; reflexivity.
  - destruct sp; repeat split; reflexivity.
Qed.

(** C7 (defect of VoiceChatInterface.fallbackToTextToSpeech).  The
    claim: speech output takes over when the reply has no audio or the
    audio fails, and every path ends with one completion.  The code calls
    [.then] on what [speak] returns, and the [speak] it imports returns a
    controller, not a promise.  So, speech output being supported: a
    text-only reply is never spoken, the turn ends in Error by way of
    [handleApiError] and the user entry is marked failed although the
    reply is in the history; audio that does not decode goes the same
    way; audio that will not play leaves the session in Speaking for
    good.  No completion is signalled in any of the three.  The [speak]
    of src/lib/textToSpeech.ts in its place gives speech once and one
    completion. *)
Theorem C7_fallback_never_speaks :
  (filter isSpeech
     (log (Examples.audioTurnOf Examples.textTurn
             SpeechSynthesisService_speak)) = []
   /\ filter isDone
        (log (Examples.audioTurnOf Examples.textTurn
                SpeechSynthesisService_speak)) = []
   /\ states (log (Examples.audioTurnOf Examples.textTurn
                     SpeechSynthesisService_speak))
      = [Processing; Speaking; Error; Idle]
   /\ map status (messages (Examples.audioTurnOf Examples.textTurn
                              SpeechSynthesisService_speak))
      = [Some Failed; Some Sent])
  /\ (filter isSpeech
        (log (Examples.audioTurnOf (Examples.audioTurn true false true)
                SpeechSynthesisService_speak)) = []
      /\ filter isDone
           (log (Examples.audioTurnOf (Examples.audioTurn true false true)
                   SpeechSynthesisService_speak)) = []
      /\ states (log (Examples.audioTurnOf (Examples.audioTurn true false true)
                        SpeechSynthesisService_speak))
         = [Processing; Speaking; Error; Idle])
  /\ (filter isSpeech
        (log (Examples.audioTurnOf (Examples.audioTurn true true false)
                SpeechSynthesisService_speak)) = []
      /\ filter isDone
           (log (Examples.audioTurnOf (Examples.audioTurn true true false)
                   SpeechSynthesisService_speak)) = []
      /\ voiceState (Examples.audioTurnOf (Examples.audioTurn true true false)
                       SpeechSynthesisService_speak) = Speaking)
  /\ (filter isSpeech
        (log (Examples.audioTurnOf Examples.textTurn LibTextToSpeech_speak))
      = [SpeechStart (js "Hi there.")]
      /\ filter isDone
           (log (Examples.audioTurnOf Examples.textTurn LibTextToSpeech_speak))
         = [Ran SpeechEnded]
      /\ states (log (Examples.audioTurnOf Examples.textTurn
                        LibTextToSpeech_speak))
         = [Processing; Speaking; Idle]).
Proof. repeat split; vm_compute; reflexivity. Qed.

End SessionClaims.

Module TrimFacts.
Import JsStr JsStrFacts.

Lemma trimStart_fixed (s : jsstring) :
  match s with [] => True | c :: _ => isWhiteSpace c = false end ->
  trimStart s = s.
Proof. destruct s as [|c s]; [reflexivity|]. simpl. intros ->. reflexivity. Qed.

Lemma trimStart_suffix (s : jsstring) : exists p, s = p ++ trimStart s.
Proof.
  induction s as [|c s (p & IH)]; [exists []; reflexivity|].
  simpl. destruct (isWhiteSpace c).
  - exists (c :: p). simpl. f_equal. exact IH.
  - exists []. reflexivity.
Qed.

(** What [trim] returns has whitespace at neither end: trimming it
    again changes nothing. *)
Lemma trim_trim (s : jsstring) : trim (trim s) = trim s.
Proof.
  unfold trim.
  set (u := trimStart s). set (v := trimStart (rev u)).
  assert (Hv : trimStart v = v).
  { subst v. destruct (trimStart_head (rev u)) as [E | (c & r & E & Hc)];
      rewrite E; [reflexivity|]. simpl. rewrite Hc. reflexivity. }
  assert (Hr : trimStart (rev v) = rev v).
  { destruct (trimStart_suffix (rev u)) as (p & Hp). fold v in Hp.
    assert (Hu : u = rev v ++ rev p).
    { rewrite <- (rev_involutive u), Hp, rev_app_distr. reflexivity. }
    apply trimStart_fixed.
    destruct (rev v) as [|c r] eqn:E; [exact I|].
    destruct (trimStart_head s) as [E' | (c' & r' & E' & Hc)]; fold u in E'.
    - rewrite E' in Hu. discriminate.
    - rewrite E' in Hu. simpl in Hu. inversion Hu; subst. exact Hc. }
  rewrite Hr, rev_involutive, Hv. reflexivity.
Qed.

End TrimFacts.

Module CountdownFacts.
Import DetectorTypes Dom DetectorCommon Scenario Countdown.

Section WithClosure.
Variable C : Type.
Variable tick : Q -> Detector C -> Detector C * list Callback.
Variable fire : nat -> Detector C -> Detector C * list Callback.

Lemma run_cons (d : Detector C) (e : Event) (es : list Event) :
  run tick fire d (e :: es) =
  (fst (run tick fire (fst (step tick fire d e)) es),
   map (fun c => (isRunning d, c)) (snd (step tick fire d e))
   ++ snd (run tick fire (fst (step tick fire d e)) es)).
Proof.
  simpl. destruct (step tick fire d e) as [d' cbs]. simpl.
  destruct (run tick fire d' es) as [d'' tr]. reflexivity.
Qed.

(** An invariant of the steps holds after every run. *)
Lemma run_invariant (P : Detector C -> Prop) :
  (forall d e, P d -> P (fst (step tick fire d e))) ->
  forall es d, P d -> P (fst (run tick fire d es)).
Proof.
  intros Hstep es. induction es as [|e es IH]; intros d H; [exact H|].
  rewrite run_cons. cbn [fst]. apply IH, Hstep, H.
Qed.

End WithClosure.

(** *** The older detector: one countdown at most *)
Lemma legacy_step_oneCountdown (d : LegacySilenceDetector.Detector)
    (e : Event) :
  oneCountdown d -> oneCountdown (fst (LegacySilenceDetector.step d e)).
Proof.
  unfold oneCountdown.
  destruct d as [o r cit st isS isI isR flag [ts next now]].
  cbn [loop silenceTimer isSilent isRunning EventLoop.timeouts].
  intros H.
  destruct e as [ok| | |level|id|dt].
  - (* start *)
    cbn [LegacySilenceDetector.step step]. unfold start, initialize.
    cbn [isInitialized isRunning].
    destruct H as [-> | (t & -> & -> & -> & ->)].
    + destruct isI, ok, isR, st; cbn; left; reflexivity.
    + destruct isI, ok; cbn; right; exists t; auto.
  - (* stop *)
    cbn. left. destruct H as [-> | (t & -> & -> & _)].
    + destruct st; reflexivity.
    + cbn. rewrite Nat.eqb_refl. reflexivity.
  - (* cleanup *)
    cbn [LegacySilenceDetector.step step].
    rewrite DetectorFacts.cleanup_done. cbn. left.
    destruct H as [-> | (t & -> & -> & _)].
    + destruct st; reflexivity.
    + cbn. rewrite Nat.eqb_refl. reflexivity.
  - (* tick *)
    cbn [LegacySilenceDetector.step step]. unfold LegacySilenceDetector.tick.
    cbn [checkIntervalTimer res isRunning].
    destruct cit; [|exact H].
    destruct (negb (analyzer r) || negb isR) eqn:G; [exact H|].
    apply orb_false_iff in G as [_ G]. apply negb_false_iff in G. subst isR.
    destruct (isAudioSilent level _).
    + cbn [isSilent]. destruct isS; cbn [negb]; [exact H|].
      destruct H as [-> | (t & _ & _ & Hs & _)]; [|discriminate].
      cbn. destruct (_ =? 0)%N; cbn.
      * destruct flag; cbn; left; reflexivity.
      * right. eexists. repeat split.
    + cbn [isSilent]. destruct isS; [|exact H]. left.
      destruct H as [-> | (t & -> & -> & _)].
      * destruct st; reflexivity.
      * cbn. rewrite Nat.eqb_refl. reflexivity.
  - (* fire *)
    cbn [LegacySilenceDetector.step step]. unfold LegacySilenceDetector.fire.
    unfold EventLoop.find. cbn [loop EventLoop.timeouts EventLoop.now].
    destruct H as [-> | (t & -> & -> & -> & ->)].
    + cbn. left. reflexivity.
    + cbn [List.find]. destruct (Nat.eqb (EventLoop.tid t) id) eqn:E.
      * destruct (_ <=? _)%N.
        -- left. destruct flag; cbn; rewrite E; reflexivity.
        -- right. exists t. auto.
      * right. exists t. auto.
  - (* wait *)
    cbn. exact H.
Qed.


(** *** No sample below the threshold: nothing is armed, nothing reported *)
Lemma start_idle (C : Type) (o : SilenceDetectorOptions) (ok : bool)
    (d : Detector C) :
  idle o d -> idle o (fst (start ok d)).
Proof.
  unfold idle. destruct d as [op r cit st isS isI isR flag [ts next now]].
  cbn. intros (-> & -> & ->). unfold start, initialize. cbn.
  destruct isI, ok, isR, st; cbn; auto.
Qed.

Lemma stop_idle (C : Type) (o : SilenceDetectorOptions) (d : Detector C) :
  idle o d -> idle o (stop d).
Proof.
  unfold idle. destruct d as [op r cit st isS isI isR flag [ts next now]].
  cbn. intros (-> & -> & ->). destruct st; cbn; auto.
Qed.

Lemma cleanup_idle (C : Type) (o : SilenceDetectorOptions) (d : Detector C) :
  idle o d -> idle o (stateOf (cleanup d)).
Proof.
  rewrite DetectorFacts.cleanup_done.
  unfold idle. destruct d as [op r cit st isS isI isR flag [ts next now]].
  cbn. intros (-> & -> & ->). destruct st; cbn; auto.
Qed.

Lemma service_step_idle (o : SilenceDetectorOptions)
    (d : SilenceDetectorService.Detector) (e : Event) :
  idle o d -> atOrAbove (m_silenceThreshold (mergeOptions o)) e = true ->
  idle o (fst (SilenceDetectorService.step d e))
  /\ forall c, In c (snd (SilenceDetectorService.step d e)) -> c = OnError.
Proof.
  intros H He. destruct e as [ok| | |level|id|dt];
    cbn [SilenceDetectorService.step step fst snd].
  - split; [apply start_idle, H | apply DetectorFacts.start_callbacks].
  - split; [apply stop_idle, H | intros c []].
  - split; [apply cleanup_idle, H | intros c []].
  - unfold atOrAbove in He. apply negb_true_iff in He.
    destruct H as (Hs & Ht & Ho).
    unfold SilenceDetectorService.tick.
    destruct (checkIntervalTimer d); [|split; [repeat split; assumption | intros c []]].
    destruct (negb (analyzer (res d)) || negb (isRunning d));
      [split; [repeat split; assumption | intros c []]|].
    rewrite Ho, He. unfold SilenceDetectorService.handleSpeech.
    rewrite Hs. cbn. split; [repeat split; assumption | intros c []].
  - destruct H as (Hs & Ht & Ho).
    unfold SilenceDetectorService.fire, EventLoop.find. rewrite Ht. cbn.
    split; [repeat split; assumption | intros c []].
  - destruct H as (Hs & Ht & Ho). cbn.
    split; [repeat split; assumption | intros c []].
Qed.

Lemma legacy_step_idle (o : SilenceDetectorOptions)
    (d : LegacySilenceDetector.Detector) (e : Event) :
  idle o d -> atOrAbove (m_silenceThreshold (mergeOptions o)) e = true ->
  idle o (fst (LegacySilenceDetector.step d e))
  /\ forall c, In c (snd (LegacySilenceDetector.step d e)) -> c = OnError.
Proof.
  intros H He. destruct e as [ok| | |level|id|dt];
    cbn [LegacySilenceDetector.step step fst snd].
  - split; [apply start_idle, H | apply DetectorFacts.start_callbacks].
  - split; [apply stop_idle, H | intros c []].
  - split; [apply cleanup_idle, H | intros c []].
  - unfold atOrAbove in He. apply negb_true_iff in He.
    destruct H as (Hs & Ht & Ho).
    unfold LegacySilenceDetector.tick.
    destruct (checkIntervalTimer d); [|split; [repeat split; assumption | intros c []]].
    destruct (negb (analyzer (res d)) || negb (isRunning d));
      [split; [repeat split; assumption | intros c []]|].
    rewrite Ho, He, Hs. cbn. split; [repeat split; assumption | intros c []].
  - destruct H as (Hs & Ht & Ho).
    unfold LegacySilenceDetector.fire, EventLoop.find. rewrite Ht. cbn.
    split; [repeat split; assumption | intros c []].
  - destruct H as (Hs & Ht & Ho). cbn.
    split; [repeat split; assumption | intros c []].
Qed.

Section WithMachine.
Variable C : Type.
Variable tick : Q -> Detector C -> Detector C * list Callback.
Variable fire : nat -> Detector C -> Detector C * list Callback.
Variable o : SilenceDetectorOptions.
Hypothesis step_idle : forall d e,
  idle o d -> atOrAbove (m_silenceThreshold (mergeOptions o)) e = true ->
  idle o (fst (step tick fire d e))
  /\ forall c, In c (snd (step tick fire d e)) -> c = OnError.

Lemma run_idle (es : list Event) (d : Detector C) (b : bool) (c : Callback) :
  idle o d -> neverBelow (m_silenceThreshold (mergeOptions o)) es = true ->
  In (b, c) (snd (run tick fire d es)) -> c = OnError.
Proof.
  revert d. induction es as [|e es IH]; intros d H Hes; [intros []|].
  unfold neverBelow in Hes. cbn [forallb] in Hes.
  apply andb_true_iff in Hes as [He Hes].
  destruct (step_idle e H He) as [H' Hc].
  rewrite run_cons. cbn [snd]. rewrite in_app_iff. intros [Hin|Hin].
  - apply in_map_iff in Hin as (c' & E & Hin). inversion E; subst.
    apply Hc, Hin.
  - exact (IH _ H' Hes Hin).
Qed.

End WithMachine.

Lemma created_idle (C : Type) (o : SilenceDetectorOptions) :
  idle o (createSilenceDetector C o).
Proof. repeat split. Qed.


(** *** The detector of silence-detector.service.ts on any samples *)
Lemma service_tick_at (level : Q) (t : N) (st : option nat)
    (ts : list (EventLoop.Timeout SilenceDetectorService.DetectionState))
    (next : nat) :
  SilenceDetectorService.tick level (at_ t st ts next) =
  if isAudioSilent level (5 # 100)%Q then
    (at_ t (Some next)
       (ts ++ [{| EventLoop.tid := next; EventLoop.due := (t + 5000)%N;
                  EventLoop.closure :=
                    {| SilenceDetectorService.st_isSilent := true;
                       SilenceDetectorService.st_silenceTimer := st;
                       SilenceDetectorService.st_silenceDetectedFlag := false;
                       SilenceDetectorService.st_isRunning := true |} |}])
       (S next), [])
  else (at_ t st ts next, []).
Proof.
  unfold SilenceDetectorService.tick.
  cbn [checkIntervalTimer at_ res analyzer acquired isRunning negb orb
       options mergeOptions scenarioOptions m_silenceThreshold
       silenceThreshold orDefault].
  destruct (isAudioSilent level (5 # 100)%Q); reflexivity.
Qed.

(** Once a quiet sample has armed its timeout, no later sample, quiet
    or not, calls a listener or disarms it before it is due. *)
Lemma service_sample_any (timersFirst : bool) (t1 : N) (ls : list Q) :
  forall (k : nat) (d : SilenceDetectorService.Detector),
    quietSince t1 k d -> k + List.length ls < 50 ->
    exists d', SilenceDetectorService.sample timersFirst d ls = (d', [])
               /\ quietSince t1 (k + List.length ls) d'.
Proof.
  induction ls as [|level ls IH]; intros k d H Hk.
  - exists d. cbn [List.length]. rewrite Nat.add_0_r.
    split; [reflexivity | exact H].
  - destruct H as (st & first & ts & next & -> & Hd & Hc & Hall).
    cbn [List.length] in Hk |- *.
    rewrite ScenarioFacts.sample_at.
    rewrite (@ScenarioFacts.settle_idle (negb timersFirst)
               (t1 + 100 * N.of_nat k + 100) (t1 + 5000) st (first :: ts)
               next (t1 + 100 * N.of_nat k)); [|exact Hall|lia|lia].
    rewrite service_tick_at.
    assert (Ht : (t1 + 100 * N.of_nat (S k))%N
                 = (t1 + 100 * N.of_nat k + 100)%N) by lia.
    destruct (isAudioSilent level (5 # 100)%Q).
    + destruct (IH (S k)
                  (at_ (t1 + 100 * N.of_nat k + 100) (Some next)
                     ((first :: ts) ++
                      [{| EventLoop.tid := next;
                          EventLoop.due :=
                            (t1 + 100 * N.of_nat k + 100 + 5000)%N;
                          EventLoop.closure :=
                            {| SilenceDetectorService.st_isSilent := true;
                               SilenceDetectorService.st_silenceTimer := st;
                               SilenceDetectorService.st_silenceDetectedFlag
                                 := false;
                               SilenceDetectorService.st_isRunning := true |}
                       |}])
                     (S next))) as (d' & Hs & Hq).
      * exists (Some next), first,
          (ts ++ [{| EventLoop.tid := next;
                     EventLoop.due := (t1 + 100 * N.of_nat k + 100 + 5000)%N;
                     EventLoop.closure :=
                       {| SilenceDetectorService.st_isSilent := true;
                          SilenceDetectorService.st_silenceTimer := st;
                          SilenceDetectorService.st_silenceDetectedFlag
                            := false;
                          SilenceDetectorService.st_isRunning := true |} |}]),
          (S next).
        repeat split; try assumption.
        -- rewrite Ht. reflexivity.
        -- change (first :: ts ++ ?l) with ((first :: ts) ++ l).
           apply Forall_app. split; [exact Hall|].
           constructor; [|constructor]. unfold notDueBefore. simpl. lia.
      * lia.
      * exists d'. rewrite Hs. split; [reflexivity|].
        replace (k + S (List.length ls)) with (S k + List.length ls) by lia.
        exact Hq.
    + destruct (IH (S k) (at_ (t1 + 100 * N.of_nat k + 100) st
                            (first :: ts) next)) as (d' & Hs & Hq).
      * exists st, first, ts, next.
        repeat split; try assumption. rewrite Ht. reflexivity.
      * lia.
      * exists d'. rewrite Hs. split; [reflexivity|].
        replace (k + S (List.length ls)) with (S k + List.length ls) by lia.
        exact Hq.
Qed.


(** *** The older detector on the scenario *)
Lemma legacyStarted_at : legacyStarted = legacyAt 0 false None [] 2.
Proof. reflexivity. Qed.

Lemma legacy_sample_at (timersFirst : bool) (t : N) (silent : bool)
    (st : option nat) (ts : list (EventLoop.Timeout unit)) (next : nat)
    (level : Q) (rest : list Q) :
  LegacySilenceDetector.sample timersFirst (legacyAt t silent st ts next)
    (level :: rest) =
  let '(d1, tr1) := LegacySilenceDetector.settle (negb timersFirst) (t + 100)
                      (legacyAt t silent st ts next) in
  let '(d2, cbs) := LegacySilenceDetector.tick level d1 in
  let '(d3, tr3) := LegacySilenceDetector.sample timersFirst d2 rest in
  (d3, tr1 ++ stamp d1 cbs ++ tr3).
Proof. reflexivity. Qed.

(** Nothing is due before [bound]: [settle] only moves the clock. *)
Lemma legacy_settle_idle (strict : bool) (t bound : N) (silent : bool)
    (st : option nat) (ts : list (EventLoop.Timeout unit)) (next : nat)
    (now : N) :
  Forall (fun x => (bound <= EventLoop.due x)%N) ts ->
  (t < bound)%N -> (now <= t)%N ->
  LegacySilenceDetector.settle strict t (legacyAt now silent st ts next)
  = (legacyAt t silent st ts next, []).
Proof.
  intros H Ht Hn. unfold LegacySilenceDetector.settle, settle, dueBy.
  cbn [loop legacyAt EventLoop.timeouts].
  assert (E : filter (fun x => if strict then (EventLoop.due x <? t)%N
                               else (EventLoop.due x <=? t)%N) ts = []).
  { induction H as [|x ts Hx _ IH]; [reflexivity|]. cbn [filter].
    assert (E : (if strict then (EventLoop.due x <? t)%N
                 else (EventLoop.due x <=? t)%N) = false).
    { destruct strict; [apply N.ltb_ge | apply N.leb_gt]; lia. }
    rewrite E. exact IH. }
  rewrite E. cbn [map fold_left].
  unfold legacyAt, withLoop, EventLoop.setNow. cbn.
  rewrite N.max_r by exact Hn. reflexivity.
Qed.

Lemma legacy_tick_loud (t : N) (next : nat) :
  LegacySilenceDetector.tick loud (legacyAt t false None [] next)
  = (legacyAt t false None [] next, []).
Proof. reflexivity. Qed.

Lemma legacy_tick_first_quiet (t : N) (next : nat) :
  LegacySilenceDetector.tick quiet (legacyAt t false None [] next)
  = (legacyAt t true (Some next)
       [{| EventLoop.tid := next; EventLoop.due := (t + 5000)%N;
           EventLoop.closure := tt |}] (S next), []).
Proof. reflexivity. Qed.

(** A quiet sample that finds the detector quiet changes nothing. *)
Lemma legacy_tick_still_quiet (t : N) (st : option nat)
    (ts : list (EventLoop.Timeout unit)) (next : nat) :
  LegacySilenceDetector.tick quiet (legacyAt t true st ts next)
  = (legacyAt t true st ts next, []).
Proof. reflexivity. Qed.

Lemma legacy_sample_loud (timersFirst : bool) (n : nat) (t : N)
    (rest : list Q) :
  LegacySilenceDetector.sample timersFirst (legacyAt t false None [] 2)
    (repeat loud n ++ rest) =
  LegacySilenceDetector.sample timersFirst
    (legacyAt (t + 100 * N.of_nat n) false None [] 2) rest.
Proof.
  revert t. induction n as [|n IH]; intros t.
  - simpl. rewrite N.add_0_r. reflexivity.
  - change (repeat loud (S n) ++ rest) with (loud :: (repeat loud n ++ rest)).
    rewrite legacy_sample_at.
    rewrite (@legacy_settle_idle (negb timersFirst) (t + 100) (t + 101)
               false None [] 2 t); [|constructor|lia|lia].
    rewrite legacy_tick_loud. rewrite IH.
    replace (t + 100 + 100 * N.of_nat n)%N with (t + 100 * N.of_nat (S n))%N
      by lia.
    destruct (LegacySilenceDetector.sample timersFirst _ rest). reflexivity.
Qed.

Lemma legacy_sample_quiet (timersFirst : bool) (t1 : N) (next : nat)
    (m k : nat) :
  k + m < 50 ->
  LegacySilenceDetector.sample timersFirst
    (legacyAt (t1 + 100 * N.of_nat k) true (Some next)
       [{| EventLoop.tid := next; EventLoop.due := (t1 + 5000)%N;
           EventLoop.closure := tt |}] (S next))
    (repeat quiet m)
  = (legacyAt (t1 + 100 * N.of_nat (k + m)) true (Some next)
       [{| EventLoop.tid := next; EventLoop.due := (t1 + 5000)%N;
           EventLoop.closure := tt |}] (S next), []).
Proof.
  revert k. induction m as [|m IH]; intros k Hk.
  - rewrite Nat.add_0_r. reflexivity.
  - change (repeat quiet (S m)) with (quiet :: repeat quiet m).
    rewrite legacy_sample_at.
    rewrite (@legacy_settle_idle (negb timersFirst)
               (t1 + 100 * N.of_nat k + 100) (t1 + 5000) true (Some next)
               _ (S next) (t1 + 100 * N.of_nat k));
      [|constructor; [cbn; lia | constructor]|lia|lia].
    rewrite legacy_tick_still_quiet.
    replace (t1 + 100 * N.of_nat k + 100)%N
      with (t1 + 100 * N.of_nat (S k))%N by lia.
    rewrite (IH (S k)) by lia.
    replace (S k + m) with (k + S m) by lia. reflexivity.
Qed.

(** The one timeout runs when it is due, and calls the listener. *)
Lemma legacy_settle_due (t1 now horizon : N) (next : nat) :
  (now <= t1 + 5000)%N -> (t1 + 5000 <= horizon)%N ->
  snd (LegacySilenceDetector.settle false horizon
         (legacyAt now true (Some next)
            [{| EventLoop.tid := next; EventLoop.due := (t1 + 5000)%N;
                EventLoop.closure := tt |}] (S next)))
  = [((t1 + 5000)%N, OnSilenceDetected)].
Proof.
  intros Hn Hh. unfold LegacySilenceDetector.settle, settle, dueBy.
  cbn [loop legacyAt EventLoop.timeouts filter EventLoop.due].
  assert (E : (t1 + 5000 <=? horizon)%N = true) by (apply N.leb_le; exact Hh).
  rewrite E. cbn [map fold_left EventLoop.tid EventLoop.due].
  unfold fireAt, LegacySilenceDetector.fire, EventLoop.find.
  cbn [fst snd loop withLoop EventLoop.setNow EventLoop.now legacyAt
       EventLoop.timeouts EventLoop.nextTimerId List.find EventLoop.tid
       EventLoop.due options res checkIntervalTimer silenceTimer isSilent
       isInitialized isRunning silenceDetectedFlag].
  rewrite Nat.eqb_refl. rewrite N.max_r by exact Hn.
  rewrite N.leb_refl. reflexivity.
Qed.

End CountdownFacts.

(** ** Further properties of the two silence detectors *)
Section DetectorRuns.
Import DetectorTypes Dom DetectorCommon Scenario Countdown.

(** X1 (older detector, src/unnamed/part_000).  Whatever happened
    before, from a [start()] on and until the next [stop()] or
    [cleanup()] the listener [onSilenceDetected] is called at most once:
    [silenceDetectedFlag] latches. *)
Theorem legacy_once_per_run (o : SilenceDetectorOptions)
    (before : list Event) (ok : bool) (es : list Event) :
  forallb (fun e => negb (LegacyRun.endsRun e)) es = true ->
  count OnSilenceDetected
    (map snd (snd (LegacySilenceDetector.run
                     (fst (LegacySilenceDetector.run
                             (createSilenceDetector unit o) before))
                     (Start ok :: es)))) <= 1.
Proof.
  intros H.
  set (d := fst (LegacySilenceDetector.run (createSilenceDetector unit o)
                   before)).
  assert (Hw : LegacyRun.wf d = true).
  { apply (CountdownFacts.run_invariant
             LegacySilenceDetector.tick LegacySilenceDetector.fire
             (fun d => LegacyRun.wf d = true) LegacyFacts.step_wf).
    reflexivity. }
  assert (Hb : LegacyRun.budget d <= 1).
  { unfold LegacyRun.budget. destruct (_ && _); lia. }
  assert (Hall : forallb (fun e => negb (LegacyRun.endsRun e))
                   (Start ok :: es) = true) by exact H.
  exact (Nat.le_trans _ _ _ (LegacyFacts.run_budget _ d Hw Hall) Hb).
Qed.

(** Two silences in a second run, in immediate mode: one call. *)
Lemma legacy_once_per_run_witness :
  count OnSilenceDetected
    (map snd (snd (LegacySilenceDetector.run
                     (fst (LegacySilenceDetector.run
                             (createSilenceDetector unit immediateOptions)
                             [Start true; Tick quiet; Stop]))
                     [Start true; Tick quiet; Tick loud; Tick quiet]))) <= 1.
Proof.
  exact (@legacy_once_per_run immediateOptions [Start true; Tick quiet; Stop]
           true [Tick quiet; Tick loud; Tick quiet] eq_refl).
Defined.

(** X2 (older detector).  Every call of [onSilenceDetected] or
    [onSpeechDetected] is made while the detector is running, whatever
    the state it is in and whatever the events: a timeout that outlives
    [stop()] stays silent.  Only [onError] is called on a stopped
    detector. *)
Theorem legacy_silent_while_stopped (d : LegacySilenceDetector.Detector)
    (es : list Event) :
  forallb (fun x => fst x || Callback_eqb OnError (snd x))
          (snd (LegacySilenceDetector.run d es)) = true.
Proof.
  apply forallb_forall. intros [b c] Hin. cbn [fst snd].
  destruct b; [reflexivity|].
  rewrite (@LegacyFacts.run_needs_running es d c Hin). reflexivity.
Qed.

(** X3 (older detector).  However it is driven after its creation,
    the detector has at most one timeout pending, and none unless it is
    running and the last sample was below the threshold: [stop()],
    [cleanup()] and a sample at or above the threshold cancel it. *)
Theorem legacy_single_countdown (o : SilenceDetectorOptions)
    (es : list Event) :
  let d := fst (LegacySilenceDetector.run (createSilenceDetector unit o) es) in
  List.length (EventLoop.timeouts (loop d))
  <= (if isRunning d && isSilent d then 1 else 0).
Proof.
  intros d.
  assert (H : oneCountdown d).
  { apply (CountdownFacts.run_invariant
             LegacySilenceDetector.tick LegacySilenceDetector.fire
             oneCountdown CountdownFacts.legacy_step_oneCountdown).
    left. reflexivity. }
  destruct H as [E | (t & E & _ & Hs & Hr)]; rewrite E.
  - apply Nat.le_0_l.
  - rewrite Hs, Hr. apply le_n.
Qed.

(** X4 (older detector).  On the scenario (threshold 0.05, 5000 ms,
    a sample every 100 ms): after any number of samples at 0.5, up to
    fifty samples at 0.01 bring exactly one [onSilenceDetected] call,
    5000 ms after the first of them, whichever of a tick and a timeout
    due at the same instant runs first. *)
Theorem legacy_one_edge_after_duration (timersFirst : bool) (n m : nat)
    (extra : N) :
  m < 50 ->
  legacyEdges timersFirst (repeat loud n ++ repeat quiet (S m))
    (tickTime (S n) + 5000 + extra)
  = [((tickTime (S n) + 5000)%N, OnSilenceDetected)].
Proof.
  intros Hm. unfold legacyEdges. rewrite CountdownFacts.legacyStarted_at.
  rewrite CountdownFacts.legacy_sample_loud.
  change (repeat quiet (S m)) with (quiet :: repeat quiet m).
  rewrite CountdownFacts.legacy_sample_at.
  rewrite (@CountdownFacts.legacy_settle_idle (negb timersFirst)
             (0 + 100 * N.of_nat n + 100) (0 + 100 * N.of_nat n + 101)
             false None [] 2 (0 + 100 * N.of_nat n)); [|constructor|lia|lia].
  rewrite CountdownFacts.legacy_tick_first_quiet.
  assert (E0 : (0 + 100 * N.of_nat n + 100)%N = tickTime (S n))
    by (unfold tickTime; lia).
  rewrite E0.
  assert (Hs := @CountdownFacts.legacy_sample_quiet timersFirst
                  (tickTime (S n)) 2 m 0 Hm).
  cbn [N.of_nat] in Hs. rewrite N.mul_0_r, N.add_0_r in Hs. rewrite Hs.
  cbv beta iota. cbn [app stamp map].
  apply CountdownFacts.legacy_settle_due; unfold tickTime; lia.
Qed.

Lemma legacy_one_edge_after_duration_witness :
  legacyEdges false (repeat loud 3 ++ repeat quiet 50) 5400
  = [(5400%N, OnSilenceDetected)].
Proof.
  exact (@legacy_one_edge_after_duration false 3 49 0 (le_n 50)).
Defined.

(** X5 (silence-detector.service.ts).  On the same scenario, once a
    sample below the threshold has been read, nothing that follows within
    the 5000 ms changes the outcome: whatever the next samples are, at
    0.5 as well as at 0.01, no listener is called while they are read and
    [onSilenceDetected] is called 5000 ms after that first quiet sample.
    Speech that resumes does not cancel the countdown. *)
Theorem service_countdown_ignores_speech (timersFirst : bool) (n : nat)
    (ls : list Q) (extra : N) :
  List.length ls < 50 ->
  snd (SilenceDetectorService.sample timersFirst started
         (repeat loud n ++ quiet :: ls)) = []
  /\ hd_error (edgesOf timersFirst (repeat loud n ++ quiet :: ls)
                 (tickTime (S n) + 5000 + extra))
     = Some ((tickTime (S n) + 5000)%N, OnSilenceDetected).
Proof.
  intros Hls. unfold edgesOf. rewrite ScenarioFacts.started_at.
  rewrite ScenarioFacts.sample_loud.
  rewrite ScenarioFacts.sample_at.
  rewrite (@ScenarioFacts.settle_idle (negb timersFirst)
             (0 + 100 * N.of_nat n + 100) (0 + 100 * N.of_nat n + 101)
             None [] 2 (0 + 100 * N.of_nat n)); [|constructor|lia|lia].
  rewrite ScenarioFacts.tick_quiet.
  assert (Hq : quietSince (tickTime (S n)) 0
                 (at_ (0 + 100 * N.of_nat n + 100)
                    (Some 2)
                    ([] ++ [{| EventLoop.tid := 2;
                               EventLoop.due :=
                                 (0 + 100 * N.of_nat n + 100 + 5000)%N;
                               EventLoop.closure :=
                                 {| SilenceDetectorService.st_isSilent := true;
                                    SilenceDetectorService.st_silenceTimer := None;
                                    SilenceDetectorService.st_silenceDetectedFlag := false;
                                    SilenceDetectorService.st_isRunning := true |} |}])
                    3)).
  { exists (Some 2), {| EventLoop.tid := 2;
                        EventLoop.due := (0 + 100 * N.of_nat n + 100 + 5000)%N;
                        EventLoop.closure :=
                          {| SilenceDetectorService.st_isSilent := true;
                             SilenceDetectorService.st_silenceTimer := None;
                             SilenceDetectorService.st_silenceDetectedFlag := false;
                             SilenceDetectorService.st_isRunning := true |} |},
      [], 3.
    split; [|split; [|split]].
    - replace (tickTime (S n) + 100 * N.of_nat 0)%N
        with (0 + 100 * N.of_nat n + 100)%N by (unfold tickTime; lia).
      reflexivity.
    - cbn [EventLoop.due]. unfold tickTime. lia.
    - reflexivity.
    - constructor; [|constructor]. unfold notDueBefore.
      cbn [EventLoop.due]. unfold tickTime. lia. }
  destruct (CountdownFacts.service_sample_any timersFirst ls Hq)
    as (d' & Hs & Hq'); [lia|].
  rewrite Hs. cbv beta iota. cbn [snd app]. split; [reflexivity|].
  apply ScenarioFacts.settle_first with (k := 0 + List.length ls);
    [exact Hq' | lia | apply N.le_add_r].
Qed.

(** One quiet sample, then 49 samples of speech. *)
Lemma service_countdown_ignores_speech_witness :
  hd_error (edgesOf false (quiet :: repeat loud 49) 5100)
  = Some (5100%N, OnSilenceDetected).
Proof.
  exact (proj2 (@service_countdown_ignores_speech false 0 (repeat loud 49) 0
                  (le_n 50))).
Defined.

(** X6 (silence-detector.service.ts).  The accessors [isSilent()]
    and [hasSilenceBeenDetected()] answer false at all times, whatever
    the options and the events since the detector was created. *)
Theorem service_accessors_stay_false (o : SilenceDetectorOptions)
    (es : list Event) :
  let d := fst (SilenceDetectorService.run
                  (createSilenceDetector _ o) es) in
  isSilent d = false /\ silenceDetectedFlag d = false.
Proof.
  intros d. subst d. split.
  - apply (CountdownFacts.run_invariant
             SilenceDetectorService.tick SilenceDetectorService.fire
             (fun d => isSilent d = false) ServiceFacts.step_isSilent).
    reflexivity.
  - apply (CountdownFacts.run_invariant
             SilenceDetectorService.tick SilenceDetectorService.fire
             (fun d => silenceDetectedFlag d = false) ServiceFacts.step_flag).
    reflexivity.
Qed.

(** X7 (both detectors).  As long as no sample is below the
    threshold (a sample equal to it is not), neither detector ever calls
    [onSilenceDetected] or [onSpeechDetected], whatever else happens:
    starts, stops, cleanups, time passing, timers run. *)
Theorem no_silence_without_quiet_sample (o : SilenceDetectorOptions)
    (es : list Event) :
  neverBelow (m_silenceThreshold (mergeOptions o)) es = true ->
  let service := map snd (snd (SilenceDetectorService.run
                                 (createSilenceDetector _ o) es)) in
  let legacy := map snd (snd (LegacySilenceDetector.run
                                (createSilenceDetector _ o) es)) in
  count OnSilenceDetected service = 0 /\ count OnSpeechDetected service = 0
  /\ count OnSilenceDetected legacy = 0 /\ count OnSpeechDetected legacy = 0.
Proof.
  intros H service legacy. subst service legacy.
  assert (Hs : forall b c,
            In (b, c) (snd (SilenceDetectorService.run
                              (createSilenceDetector _ o) es)) ->
            c = OnError).
  { intros b c.
    apply (@CountdownFacts.run_idle _ SilenceDetectorService.tick
             SilenceDetectorService.fire o
             (@CountdownFacts.service_step_idle o) es _ b c
             (CountdownFacts.created_idle _ o) H). }
  assert (Hl : forall b c,
            In (b, c) (snd (LegacySilenceDetector.run
                              (createSilenceDetector _ o) es)) ->
            c = OnError).
  { intros b c.
    apply (@CountdownFacts.run_idle _ LegacySilenceDetector.tick
             LegacySilenceDetector.fire o
             (@CountdownFacts.legacy_step_idle o) es _ b c
             (CountdownFacts.created_idle _ o) H). }
  repeat split; apply count_none; intros b Hin;
    (apply Hs in Hin || apply Hl in Hin); discriminate.
Qed.

(** Speech, a sample exactly at the threshold, a stale timer. *)
Lemma no_silence_without_quiet_sample_witness :
  count OnSilenceDetected
    (map snd (snd (SilenceDetectorService.run
                     (createSilenceDetector _ noOptions)
                     [Start true; Tick loud; Tick (5 # 100)%Q; Wait 6000;
                      Fire 2]))) = 0
  /\ count OnSilenceDetected
       (map snd (snd (LegacySilenceDetector.run
                        (createSilenceDetector _ noOptions)
                        [Start true; Tick loud; Tick (5 # 100)%Q; Wait 6000;
                         Fire 2]))) = 0.
Proof.
  destruct (@no_silence_without_quiet_sample noOptions
              [Start true; Tick loud; Tick (5 # 100)%Q; Wait 6000; Fire 2]
              eq_refl) as (H1 & _ & H2 & _).
  split; [exact H1 | exact H2].
Defined.

(** X8 (both detectors).  [cleanup()] is not final: a [start()]
    after it acquires the audio graph again and runs, with the quiet
    state and the latch reset, calling no listener; and when the
    microphone is refused, that [start()] calls [onError] once and leaves
    the detector as [cleanup()] left it. *)
Theorem restart_after_cleanup (C : Type) (d : Detector C) :
  let d0 := stateOf (cleanup d) in
  snd (start true d0) = []
  /\ isRunning (fst (start true d0)) = true
  /\ isInitialized (fst (start true d0)) = true
  /\ res (fst (start true d0)) = acquired
  /\ isSilent (fst (start true d0)) = false
  /\ silenceDetectedFlag (fst (start true d0)) = false
  /\ start false d0 = (d0, [OnError]).
Proof.
  cbn zeta. rewrite DetectorFacts.cleanup_done. repeat split.
Qed.

End DetectorRuns.

Module RecorderFacts.
Import JsStr RecorderService RecorderListeners.

Lemma dispatch_app (es1 es2 : list MediaEvent) (chunks : list Blob) :
  dispatch chunks (es1 ++ es2) =
  (fst (dispatch (fst (dispatch chunks es1)) es2),
   snd (dispatch chunks es1) ++ snd (dispatch (fst (dispatch chunks es1)) es2)).
Proof.
  revert chunks. induction es1 as [|e es1 IH]; intros chunks.
  - cbn. destruct (dispatch chunks es2). reflexivity.
  - cbn [app dispatch].
    destruct (setupRecorderEventListeners chunks e) as [c1 k1].
    rewrite IH. destruct (dispatch c1 es1) as [c2 k2]. cbn [fst snd].
    rewrite app_assoc. reflexivity.
Qed.

Lemma dispatch_data (datas : list Blob) (chunks : list Blob) :
  dispatch chunks (map DataAvailable datas) =
  (chunks ++ filter nonEmpty datas, map OnDataAvailable (filter nonEmpty datas)).
Proof.
  revert chunks. induction datas as [|d datas IH]; intros chunks.
  - cbn. rewrite app_nil_r. reflexivity.
  - cbn [map dispatch setupRecorderEventListeners filter].
    unfold handleDataAvailable.
    change (0 <? blobSize d)%N with (nonEmpty d).
    destruct (nonEmpty d); rewrite IH.
    + rewrite <- app_assoc. reflexivity.
    + reflexivity.
Qed.

Lemma totalSize_nonEmpty (datas : list Blob) :
  totalSize (filter nonEmpty datas) = totalSize datas.
Proof.
  unfold totalSize. induction datas as [|d datas IH]; [reflexivity|].
  cbn [filter]. destruct (nonEmpty d) eqn:E.
  - cbn [map fold_right]. rewrite IH. reflexivity.
  - cbn [map fold_right]. rewrite IH. unfold nonEmpty in E.
    apply N.ltb_ge in E. lia.
Qed.

End RecorderFacts.

(** ** Further properties of the recorder *)
Section RecorderRuns.
Import JsStr Dom RecorderService RecorderListeners.

(** X9 (recorder.service.ts).  [stop()] never raises, although
    [MediaRecorder.stop()] does on an inactive recorder: it leaves the
    recorder inactive, or absent if there was none, stops an active one
    once (its last data and its stop event are queued), touches neither
    the chunks nor the stream, and a second [stop()] changes nothing. *)
Theorem recorder_stop_safe (r : AudioRecorder) :
  exists r1,
    stop r = Done r1
    /\ stop r1 = Done r1
    /\ (getState r1 = None \/ getState r1 = Some Inactive)
    /\ (getState r1 = None <-> getState r = None)
    /\ audioChunks r1 = audioChunks r
    /\ stream r1 = stream r
    /\ queued r1 = queued r ++
                   match getState r with
                   | Some Recording | Some Paused => [EvDataAvailable; EvStop]
                   | _ => []
                   end.
Proof.
  destruct r as [[[| |]|] chunks str q]; eexists; cbn;
    rewrite ?app_nil_r; repeat split; auto; discriminate.
Qed.

(** X10 (recorder.service.ts).  [start()] raises in one case only:
    no recorder exists yet and the microphone is refused; the error is
    the one of [requestMicrophoneAccess], carrying the browser's reason,
    and nothing has changed.  Otherwise the recorder ends up recording,
    or paused if it was paused; a recorder that was active is not started
    a second time, and any further [start()] is a no-op, whatever the
    microphone says by then. *)
Theorem recorder_start_guard (access : Access) (r : AudioRecorder) :
  match start access r with
  | Raised e r' =>
    getState r = None
    /\ (exists reason,
          access = Refused reason
          /\ e = Error ("Microphone access denied: " ++ reason)%string)
    /\ r' = r
  | Done r1 =>
    getState r1 = match getState r with
                  | Some Paused => Some Paused
                  | _ => Some Recording
                  end
    /\ (forall access', start access' r1 = Done r1)
    /\ queued r1 = queued r ++
                   match getState r with
                   | Some Recording | Some Paused => []
                   | _ => [EvStart]
                   end
  end.
Proof.
  destruct r as [[[| |]|] chunks str q], access as [|reason]; cbn;
    rewrite ?app_nil_r; repeat split; eauto.
Qed.

(** X11 (recorder.service.ts, the listeners).  Whatever a recorder
    reported before, when it starts, delivers chunks and stops, [onStop]
    is the last listener called and receives one blob made of the chunks
    delivered since that start, the empty ones left out: its size is the
    total size of what was delivered since the start, and nothing of an
    earlier recording is in it. *)
Theorem stop_blob_is_last_recording (chunks0 : list Blob)
    (earlier : list MediaEvent) (datas : list Blob) (mimeType : jsstring) :
  let events := earlier ++ Started :: map DataAvailable datas
                ++ [Stopped mimeType] in
  let audioBlob := newBlob (filter nonEmpty datas)
                     (orElse mimeType (js "audio/webm")) in
  last (snd (dispatch chunks0 events)) OnStart = OnStop audioBlob
  /\ blobSize audioBlob = totalSize datas
  /\ fst (dispatch chunks0 events) = filter nonEmpty datas.
Proof.
  intros events audioBlob. subst events audioBlob.
  rewrite RecorderFacts.dispatch_app. cbn [fst snd].
  change (Started :: ?l) with ([Started] ++ l).
  rewrite RecorderFacts.dispatch_app. cbn [fst snd].
  change (dispatch ?c [Started]) with (@nil Blob, [OnStart]). cbn [fst snd].
  rewrite RecorderFacts.dispatch_app, RecorderFacts.dispatch_data.
  cbn [fst snd app dispatch setupRecorderEventListeners handleRecordingStop].
  repeat split.
  - change (OnStart :: ?l ++ ?y) with ((OnStart :: l) ++ y).
    rewrite app_assoc. apply last_last.
  - apply RecorderFacts.totalSize_nonEmpty.
Qed.

End RecorderRuns.

Module ClientFacts.
Import JsStr OpenAI ClientVocabulary.

(** What [extractResponse] resolves with. *)
Lemma extractResponse_resolved (m : ChatMessage) (r : GPT4oResponse) :
  extractResponse m = Resolved r ->
  (isEmpty (text r) = false \/ audioData r <> None)
  /\ trim (text r) = text r
  /\ audioData r <> Some [].
Proof.
  unfold extractResponse.
  set (t := match audio m with
            | Some {| data := _; transcript := Some tr |} => _
            | _ => _
            end).
  set (a := match audio m with Some a0 => _ | None => None end).
  assert (Ht : trim t = t).
  { subst t. destruct (audio m) as [[d [tr|]]|];
      repeat match goal with
             | |- context [if ?b then _ else _] => destruct b
             | |- context [match content m with _ => _ end] =>
               destruct (content m)
             end; try apply TrimFacts.trim_trim; reflexivity. }
  assert (Ha : a <> Some []).
  { subst a. destruct (audio m) as [[[[|x d]|] tr]|]; simpl; congruence. }
  destruct (isEmpty t && _) eqn:E; [discriminate|].
  intros H. inversion H; subst r. cbn [text audioData].
  repeat split; try assumption.
  apply andb_false_iff in E as [E|E]; [left; exact E|].
  right. destruct a; [discriminate | discriminate].
Qed.

End ClientFacts.

Module TranscriptionFacts.
Import JsStr OpenAI ClientVocabulary.

Lemma prepare_type (audioBlob : Blob) :
  acceptedType (RecorderService.blobType (prepareAudioForTranscription audioBlob))
  = true
  /\ RecorderService.blobSize (prepareAudioForTranscription audioBlob)
     = RecorderService.blobSize audioBlob.
Proof.
  unfold prepareAudioForTranscription, acceptedType.
  destruct (JsStr.eqb (RecorderService.blobType audioBlob) (js "audio/mp3"))
    eqn:E1; cbn [negb andb]; [rewrite E1; split; reflexivity|].
  destruct (JsStr.eqb (RecorderService.blobType audioBlob) (js "audio/mpeg"))
    eqn:E2; cbn [negb andb]; [rewrite E1, E2; split; reflexivity|].
  split; reflexivity.
Qed.

Lemma transcribe_resolved (b : Backend) (audioBlob : Blob) (key t : jsstring) :
  fst (transcribeAudio b audioBlob key) = Resolved t -> trim t = t.
Proof.
  unfold transcribeAudio. destruct (validateApiKey key); [discriminate|].
  cbn [fst]. unfold parseTranscriptionResponse.
  destruct (transcriptions b _) as [m|st tx ed|[d|m]]; try discriminate.
  destruct (t_text d); [|discriminate].
  intros H. inversion H. apply TrimFacts.trim_trim.
Qed.

End TranscriptionFacts.

(** ** Further properties of the backend client *)
Section ClientRuns.
Import JsStr OpenAI ClientVocabulary.

(** X12 (services/api/openai.service and src/lib/openai.ts).  A
    call sends its request exactly when it is given a key: without one,
    [transcribeAudio], [sendMessageToGPT4o] (of both files) and
    [sendAudioToGPT4o] fail with "OpenAI API key is required" before
    anything is sent; with one, the first two send their one request, the
    file prepared from the recording or the completion request built from
    the message and the history, and [sendAudioToGPT4o] begins with the
    transcription request. *)
Theorem requests_need_key (b : Backend) (audioBlob : Blob)
    (message : jsstring) (history : list ChatMessage) (key : jsstring)
    (opts : option AudioOptions) :
  if isEmpty key then
    transcribeAudio b audioBlob key = (Rejected KeyRequired, [])
    /\ sendMessageToGPT4o b message history key opts
       = (Rejected KeyRequired, [])
    /\ Lib.sendMessageToGPT4o b message history key opts
       = (Rejected KeyRequired, [])
    /\ sendAudioToGPT4o b audioBlob history key opts
       = (Rejected KeyRequired, [])
  else
    snd (transcribeAudio b audioBlob key)
    = [TranscriptionRequest (prepareAudioForTranscription audioBlob)]
    /\ snd (sendMessageToGPT4o b message history key opts)
       = [ChatRequest (createChatCompletionRequest message history opts)]
    /\ snd (Lib.sendMessageToGPT4o b message history key opts)
       = [ChatRequest (createChatCompletionRequest message history opts)]
    /\ hd_error (snd (sendAudioToGPT4o b audioBlob history key opts))
       = Some (TranscriptionRequest (prepareAudioForTranscription audioBlob)).
Proof.
  destruct key as [|k key]; cbn [isEmpty]; [repeat split|].
  repeat split.
  unfold sendAudioToGPT4o, transcribeAudio, sendMessageToGPT4o,
    sendMessageToGPT4o_with, validateApiKey. cbn [isEmpty].
  destruct (parseTranscriptionResponse _) as [heard|m]; [|reflexivity].
  destruct (isEmpty heard || isEmpty (trim heard)); [reflexivity|].
  destruct (parseChatCompletionResponse _ _); reflexivity.
Qed.

(** X13 (sendAudioToGPT4o).  An audio turn sends nothing, one
    request or two, never more: nothing only without a key; otherwise
    first the recording, as a file of type audio/mp3, audio/mpeg or
    audio/webm; and the completion request only when the transcription
    succeeded with a text that is not blank, that text being the user
    message of the request and the history going along unchanged.  When
    only the file went out, the turn has failed. *)
Theorem audio_turn_requests (b : Backend) (audioBlob : Blob)
    (history : list ChatMessage) (key : jsstring)
    (opts : option AudioOptions) :
  match snd (sendAudioToGPT4o b audioBlob history key opts) with
  | [] => key = []
  | [TranscriptionRequest file] =>
    file = prepareAudioForTranscription audioBlob
    /\ acceptedType (RecorderService.blobType file) = true
    /\ exists m, fst (sendAudioToGPT4o b audioBlob history key opts)
                 = Rejected m
  | [TranscriptionRequest file; ChatRequest body] =>
    file = prepareAudioForTranscription audioBlob
    /\ acceptedType (RecorderService.blobType file) = true
    /\ exists heard,
         fst (transcribeAudio b audioBlob key) = Resolved heard
         /\ blank heard = false
         /\ body = createChatCompletionRequest heard history opts
  | _ => False
  end.
Proof.
  unfold sendAudioToGPT4o, transcribeAudio, sendMessageToGPT4o,
    sendMessageToGPT4o_with, validateApiKey.
  destruct key as [|k key]; [reflexivity|]. cbn [isEmpty fst snd].
  destruct (parseTranscriptionResponse _) as [heard|m] eqn:E.
  - destruct (isEmpty heard || isEmpty (trim heard)) eqn:B.
    + cbn [snd fst]. repeat split; [apply TranscriptionFacts.prepare_type|].
      eexists. reflexivity.
    + destruct (parseChatCompletionResponse _ _); cbn [snd app];
        (repeat split; [apply TranscriptionFacts.prepare_type|]);
        exists heard; repeat split;
        apply orb_false_iff in B as [_ B];
        rewrite JsStrFacts.isEmpty_trim in B; exact B.
  - cbn [snd fst]. repeat split; [apply TranscriptionFacts.prepare_type|].
    eexists. reflexivity.
Qed.

(** X14 (sendAudioToGPT4o).  An audio turn that succeeds returns a
    transcription that is neither blank nor padded with whitespace, and a
    reply that is not empty: a text without surrounding whitespace, or
    audio data, or both; audio data that is present is never the empty
    string. *)
Theorem audio_turn_resolved (b : Backend) (audioBlob : Blob)
    (history : list ChatMessage) (key : jsstring)
    (opts : option AudioOptions) (r : GPT4oAudioResponse) :
  fst (sendAudioToGPT4o b audioBlob history key opts) = Resolved r ->
  blank (transcription r) = false
  /\ trim (transcription r) = transcription r
  /\ (isEmpty (textResponse r) = false \/ r_audioData r <> None)
  /\ trim (textResponse r) = textResponse r
  /\ r_audioData r <> Some [].
Proof.
  unfold sendAudioToGPT4o.
  destruct (validateApiKey key) eqn:K; [discriminate|].
  destruct (transcribeAudio b audioBlob key) as [[heard|m] reqs] eqn:T;
    [|discriminate].
  assert (Hh : trim heard = heard).
  { apply (@TranscriptionFacts.transcribe_resolved b audioBlob key).
    rewrite T. reflexivity. }
  destruct (isEmpty heard || isEmpty (trim heard)) eqn:B; [discriminate|].
  unfold sendMessageToGPT4o, sendMessageToGPT4o_with. rewrite K.
  destruct (parseChatCompletionResponse _ _) as [resp|m] eqn:P;
    [|discriminate].
  cbn [fst]. intros H. inversion H; subst r.
  cbn [transcription textResponse r_audioData].
  apply orb_false_iff in B as [_ B]. rewrite JsStrFacts.isEmpty_trim in B.
  split; [exact B|]. split; [exact Hh|].
  unfold parseChatCompletionResponse in P.
  destruct (completions b _) as [m|st tx ed|[d|m]]; try discriminate.
  destruct (choices d) as [|choice rest]; [discriminate|].
  apply ClientFacts.extractResponse_resolved in P. exact P.
Qed.

(** The backend hears " hello " and answers with audio and a padded
    transcript. *)
Lemma audio_turn_resolved_witness :
  blank (js "hello") = false
  /\ trim (js "hello") = js "hello"
  /\ (isEmpty (js "Hello.") = false \/ Some (js "UklGRg==") <> None)
  /\ trim (js "Hello.") = js "Hello."
  /\ Some (js "UklGRg==") <> Some [].
Proof.
  exact (@audio_turn_resolved
           (Examples.backendOf (js " hello ") Examples.audioReply)
           Examples.blob [] (js "sk-test") None Inputs.audioAnswer eq_refl).
Defined.

(** X15 (createChatCompletionRequest with
    formatConversationHistory).  Whatever the history, the request opens
    with the system prompt, which is its only system message, closes with
    the user's message, and holds one message per history entry in
    between. *)
Theorem request_has_one_system_message (message : jsstring)
    (history : list SimpleMessage) (opts : option AudioOptions) :
  let msgs := messages (createChatCompletionRequest message
                          (formatConversationHistory history) opts) in
  filter isSystem msgs = [systemMessage]
  /\ hd_error msgs = Some systemMessage
  /\ last msgs systemMessage = userMessage message
  /\ List.length msgs = List.length history + 2.
Proof.
  cbn [messages createChatCompletionRequest]. repeat split.
  - cbn [filter isSystem role]. f_equal. rewrite filter_app. cbn.
    rewrite app_nil_r. induction history as [|h history IH]; [reflexivity|].
    cbn. destruct (sm_sender h); exact IH.
  - change (?x :: ?l ++ ?y) with ((x :: l) ++ y). apply last_last.
  - cbn [List.length]. rewrite length_app. unfold formatConversationHistory.
    rewrite length_map. cbn. lia.
Qed.

End ClientRuns.

Module SessionFacts.
Import JsStr OpenAI VoiceChatInterface Spec Turn.

Section Component.
Variable env : Env.
Variable speak : SpeakResult.

Lemma tellAll_log (reqs : list Request) (s : Session) :
  tellAll reqs s =
  Build_Session (messages s) (voiceState s) (transcription s) (recorder s)
    (isRecording s) (errorMsg s) (silenceDetected s) (recordingTimeoutRef s)
    (audioChunksRef s) (silenceDetectorRef s) (audioPlaying s) (pending s)
    (nextId s) (log s ++ map Sends reqs).
Proof.
  unfold tellAll. revert s. induction reqs as [|r reqs IH]; intros s.
  - destruct s. cbn. rewrite app_nil_r. reflexivity.
  - cbn [fold_left]. rewrite IH. destruct s. cbn.
    rewrite <- app_assoc. reflexivity.
Qed.

(** [handleApiError] on a session, field by field. *)
Lemma handleApiError_fields (m : jsstring) (mid : N) (s : Session) :
  handleApiError m (Some mid) s =
  Build_Session (map (markFailed mid m) (messages s)) Error (transcription s)
    (recorder s) (isRecording s) (Some m) (silenceDetected s)
    (recordingTimeoutRef s) (audioChunksRef s) (silenceDetectorRef s)
    (audioPlaying s) (pending s ++ [resetTimer s]) (S (nextId s))
    (log s ++ [SetVoiceState Error]).
Proof. destruct s. reflexivity. Qed.


Lemma states_sends (reqs : list Request) : states (map Sends reqs) = [].
Proof. induction reqs as [|q reqs IH]; [reflexivity | exact IH]. Qed.

Lemma filter_sends (f : Action -> bool) (reqs : list Request) :
  (forall q, f (Sends q) = false) -> filter f (map Sends reqs) = [].
Proof.
  intros Hf. induction reqs as [|q reqs IH]; [reflexivity|].
  cbn [map filter]. rewrite Hf. exact IH.
Qed.

Lemma map_id_same (f : Message -> Message) (l : list Message) :
  (forall x, id (f x) = id x) -> map id (map f l) = map id l.
Proof.
  intros H. rewrite map_map. apply map_ext. exact H.
Qed.

Lemma markFailed_id (mid : N) (m : jsstring) (x : Message) :
  id (markFailed mid m x) = id x.
Proof. unfold markFailed. destruct (_ =? _)%N; reflexivity. Qed.

(** The response player leaves the history alone. *)
Lemma playReply_messages (audioData : option jsstring) (text : jsstring)
    (s : Session) :
  messages (Dom.stateOf (playReply env speak audioData text s)) = messages s
  /\ nextId s <= nextId (Dom.stateOf (playReply env speak audioData text s)).
Proof.
  unfold playReply, fallbackToTextToSpeech. destruct s.
  destruct audioData as [[|x d]|]; cbn [isEmpty];
    try destruct (atobOk env _);
    destruct (speechSynthesisSupported env), speak; cbn; auto.
Qed.

Lemma deliverReply_ids (userId : N) (finalize : Message -> Message)
    (replyText : jsstring) (audioData : option jsstring)
    (propArg : jsstring) (s : Session) :
  (forall x, id (finalize x) = id x) ->
  map id (messages (deliverReply env speak userId finalize replyText
                      audioData propArg s))
  = map id (messages s) ++ [(now2 env + 1)%N].
Proof.
  intros Hf. unfold deliverReply.
  set (s1 := setVoiceState Speaking _).
  assert (H1 : map id (messages s1) = map id (messages s) ++ [(now2 env + 1)%N]).
  { subst s1. destruct s. cbn. rewrite map_app. cbn.
    rewrite map_id_same; [reflexivity|].
    intros x. destruct (_ =? _)%N; [apply Hf | reflexivity]. }
  destruct (playReply_messages audioData replyText s1) as [Hm _].
  cbn [content].
  destruct (playReply env speak audioData replyText s1) as [s2|e s2];
    cbn [Dom.stateOf] in Hm.
  - destruct (onSendMessage env propArg).
    + rewrite handleApiError_fields. cbn [messages].
      rewrite map_id_same by apply markFailed_id.
      destruct s2. cbn in *. rewrite Hm. exact H1.
    + destruct s2. cbn in *. rewrite Hm. exact H1.
  - rewrite handleApiError_fields. cbn [messages].
    rewrite map_id_same by apply markFailed_id. rewrite Hm. exact H1.
Qed.

End Component.
End SessionFacts.

(** ** Further properties of the session (VoiceChatInterface) *)
Section TurnRuns.
Import JsStr OpenAI VoiceChatInterface Spec Turn.

(** X16 (processAudioAndGetResponse with handleApiError).  [seen] is
    the history of the render whose [processAudioAndGetResponse] runs:
    the one that created the recorder, so any earlier state of the
    history, and not in general [messages s].  Whatever makes an audio
    turn fail once the key is there (the network, an error reply, a reply
    that cannot be read, a blank transcription, an empty answer), the
    session does the same: it enters Processing, sends what
    [sendAudioToGPT4o] sends for the history [seen], enters Error with
    the message of the failure, marks the entry it had opened, in the
    history as it is now, as failed with that message, adds no reply,
    keeps the transcription it showed, and leaves one timer of 5000 ms
    behind.  Speaking is never entered. *)
Theorem audio_turn_failure (env : Env) (speak : SpeakResult)
    (seen : list Message) (audioBlob : Blob) (s : Session) (m : jsstring) :
  isEmpty (apiKey env) = false ->
  fst (sendAudioToGPT4o (backend env) audioBlob (audioHistory seen)
         (apiKey env) None) = Rejected m ->
  let s' := processAudioAndGetResponse env speak seen audioBlob s in
  log s' = log s ++ [SetVoiceState Processing]
           ++ map Sends (snd (sendAudioToGPT4o (backend env) audioBlob
                                (audioHistory seen) (apiKey env) None))
           ++ [SetVoiceState Error]
  /\ voiceState s' = Error
  /\ errorMsg s' = Some m
  /\ messages s' = map (markFailed (now1 env) m) (messages s)
                   ++ [failed m (pendingEntry env)]
  /\ pending s' = pending s ++ [resetTimer s]
  /\ transcription s' = transcription s.
Proof.
  intros Hk Hr s'. subst s'. unfold processAudioAndGetResponse.
  rewrite Hk.
  destruct (sendAudioToGPT4o _ _ _ _ _) as [[r|m'] reqs]; [discriminate|].
  cbn [fst snd] in *. inversion Hr; subst m'.
  rewrite SessionFacts.handleApiError_fields, SessionFacts.tellAll_log.
  destruct s as [ms v t r i e sd rt ac dr ap p n l].
  cbn [log voiceState errorMsg messages pending transcription nextId
       setMessages setVoiceState id].
  rewrite map_app. cbn [map]. unfold markFailed at 2, pendingEntry.
  cbn [id]. rewrite N.eqb_refl. rewrite <- !app_assoc.
  repeat split.
Qed.

(** The backend cannot be reached, in a turn whose handler saw the
    history empty while the session already holds an entry. *)
Lemma audio_turn_failure_witness :
  states (log (processAudioAndGetResponse Inputs.offline
                 SpeechSynthesisService_speak [] Examples.blob
                 (initial [Examples.sendingEntry])))
  = [Processing; Error]
  /\ map status (messages (processAudioAndGetResponse Inputs.offline
                             SpeechSynthesisService_speak [] Examples.blob
                             (initial [Examples.sendingEntry])))
     = [Some Sending; Some Failed]
  /\ errorMsg (processAudioAndGetResponse Inputs.offline
                 SpeechSynthesisService_speak [] Examples.blob
                 (initial [Examples.sendingEntry]))
     = Some (js "Failed to fetch").
Proof.
  destruct (@audio_turn_failure Inputs.offline SpeechSynthesisService_speak
              [] Examples.blob (initial [Examples.sendingEntry])
              (js "Failed to fetch")
              eq_refl eq_refl) as (Hl & _ & He & Hm & _).
  rewrite Hl, Hm, He. repeat split.
Defined.


(** X17 (handleSendMessage with handleApiError).  The same for a text
    turn: a message that is not blank, a key, and a request that fails
    give Processing, the one completion request, Error with the message
    of the failure, the user's entry kept with its text and marked as
    failed, no reply, and one timer of 5000 ms. *)
Theorem text_turn_failure (env : Env) (speak : SpeakResult)
    (message : jsstring) (s : Session) (m : jsstring) :
  blank message = false ->
  isEmpty (apiKey env) = false ->
  fst (sendMessageToGPT4o (backend env) message (textHistory (messages s))
         (apiKey env)
         (Some {| voice := Some (js "alloy"); format := Some (js "wav") |}))
  = Rejected m ->
  let s' := handleSendMessage env speak message s in
  log s' = log s ++
           [SetVoiceState Processing;
            Sends (ChatRequest
                     (createChatCompletionRequest message
                        (textHistory (messages s))
                        (Some {| voice := Some (js "alloy");
                                 format := Some (js "wav") |})));
            SetVoiceState Error]
  /\ voiceState s' = Error
  /\ errorMsg s' = Some m
  /\ messages s' = map (markFailed (now1 env) m) (messages s)
                   ++ [failed m (textEntry env message)]
  /\ pending s' = pending s ++ [resetTimer s].
Proof.
  intros Hb Hk Hr s'. subst s'. unfold handleSendMessage.
  rewrite JsStrFacts.isEmpty_trim, Hb, Hk.
  unfold sendMessageToGPT4o, sendMessageToGPT4o_with, validateApiKey in *.
  rewrite Hk in *. cbn [fst] in Hr. rewrite Hr.
  rewrite SessionFacts.handleApiError_fields, SessionFacts.tellAll_log.
  destruct s as [ms v t r i e sd rt ac dr ap p n l].
  cbn [log voiceState errorMsg messages pending transcription nextId
       setMessages setVoiceState id map].
  rewrite map_app. cbn [map]. unfold markFailed at 2, textEntry.
  cbn [id]. rewrite N.eqb_refl. rewrite <- !app_assoc.
  repeat split.
Qed.

Lemma text_turn_failure_witness :
  states (log (handleSendMessage Inputs.offline SpeechSynthesisService_speak
                 (js "hello") (initial [])))
  = [Processing; Error]
  /\ map status (messages (handleSendMessage Inputs.offline
                             SpeechSynthesisService_speak (js "hello")
                             (initial [])))
     = [Some Failed]
  /\ map content (messages (handleSendMessage Inputs.offline
                              SpeechSynthesisService_speak (js "hello")
                              (initial [])))
     = [js "hello"].
Proof.
  destruct (@text_turn_failure Inputs.offline SpeechSynthesisService_speak
              (js "hello") (initial []) (js "Failed to fetch")
              eq_refl eq_refl eq_refl) as (Hl & _ & _ & Hm & _).
  rewrite Hl, Hm. repeat split.
Defined.

(** X18 (both handlers).  Without a key a turn, of audio or of a text
    that is not blank, touches neither the history nor the backend: both
    handlers do the same, enter Error with the message about the missing
    key and leave one timer of 5000 ms, which when it runs returns the
    session to Idle and clears the message. *)
Theorem turn_without_key (env : Env) (speak : SpeakResult)
    (seen : list Message) (audioBlob : Blob) (message : jsstring)
    (s : Session) :
  isEmpty (apiKey env) = true ->
  blank message = false ->
  let s' := processAudioAndGetResponse env speak seen audioBlob s in
  handleSendMessage env speak message s = s'
  /\ messages s' = messages s
  /\ log s' = log s ++ [SetVoiceState Error]
  /\ voiceState s' = Error
  /\ errorMsg s' = Some KeyMissing
  /\ pending s' = pending s ++ [resetTimer s]
  /\ voiceState (runDeferred env speak ResetToIdle s') = Idle
  /\ errorMsg (runDeferred env speak ResetToIdle s') = None.
Proof.
  intros Hk Hb s'. subst s'.
  unfold handleSendMessage, processAudioAndGetResponse.
  rewrite JsStrFacts.isEmpty_trim, Hb, Hk.
  destruct s as [ms v t r i e sd rt ac dr ap p n l].
  repeat split.
Qed.

(** A text turn without a key. *)
Lemma turn_without_key_witness :
  messages (handleSendMessage Inputs.noKey SpeechSynthesisService_speak
              (js "hello") (initial [])) = []
  /\ log (handleSendMessage Inputs.noKey SpeechSynthesisService_speak
            (js "hello") (initial [])) = [SetVoiceState Error].
Proof.
  destruct (@turn_without_key Inputs.noKey SpeechSynthesisService_speak
              [] Examples.blob (js "hello") (initial []) eq_refl eq_refl)
    as (E & Hm & Hl & _).
  rewrite E. split; [exact Hm | exact Hl].
Defined.


(** X19 (both handlers).  A turn never drops, reorders or renumbers
    an entry of the history: whatever the outcome, the entries that were
    there keep their places, and nothing, the user's entry, or the user's
    entry and the reply are appended. *)
Theorem turns_only_append (env : Env) (speak : SpeakResult)
    (seen : list Message) (audioBlob : Blob) (message : jsstring)
    (s : Session) :
  let ids := map id (messages s) in
  let grown := [ids; ids ++ [now1 env];
                ids ++ [now1 env; (now2 env + 1)%N]] in
  In (map id (messages (handleSendMessage env speak message s))) grown
  /\ In (map id (messages (processAudioAndGetResponse env speak seen
                              audioBlob s)))
        grown.
Proof.
  intros ids grown. subst grown. split.
  - unfold handleSendMessage.
    destruct (isEmpty (trim message)); [left; reflexivity|].
    destruct (isEmpty (apiKey env)).
    { left. destruct s. reflexivity. }
    destruct (sendMessageToGPT4o _ _ _ _ _) as [[r|m] reqs].
    + right. right. left. rewrite SessionFacts.deliverReply_ids by reflexivity.
      rewrite SessionFacts.tellAll_log. destruct s. cbn. subst ids. cbn.
      rewrite map_app, <- app_assoc. reflexivity.
    + right. left. rewrite SessionFacts.handleApiError_fields.
      rewrite SessionFacts.tellAll_log. cbn [messages].
      rewrite SessionFacts.map_id_same by apply SessionFacts.markFailed_id.
      destruct s. cbn. subst ids. cbn. rewrite map_app. reflexivity.
  - unfold processAudioAndGetResponse.
    destruct (isEmpty (apiKey env)).
    { left. destruct s. reflexivity. }
    destruct (sendAudioToGPT4o _ _ _ _ _) as [[r|m] reqs].
    + right. right. left. rewrite SessionFacts.deliverReply_ids by reflexivity.
      rewrite SessionFacts.tellAll_log. destruct s. cbn. subst ids. cbn.
      rewrite map_app, <- app_assoc. reflexivity.
    + right. left. rewrite SessionFacts.handleApiError_fields.
      rewrite SessionFacts.tellAll_log. cbn [messages].
      rewrite SessionFacts.map_id_same by apply SessionFacts.markFailed_id.
      destruct s. cbn. subst ids. cbn. rewrite map_app. reflexivity.
Qed.


(** X20 (processAudioAndGetResponse, the audio reply).  When the
    answer carries audio that decodes and plays, and nothing else is
    waiting to run, an audio turn goes Processing, Speaking, Idle; the
    history gains the user's entry with the transcription and the reply,
    both sent; playback ends once and speech synthesis is not invoked.
    This holds with either [speak]: the fallback is not reached. *)
Theorem audio_reply_plays (env : Env) (speak : SpeakResult)
    (seen : list Message) (audioBlob : Blob) (s : Session)
    (r : GPT4oAudioResponse) :
  isEmpty (apiKey env) = false ->
  fst (sendAudioToGPT4o (backend env) audioBlob (audioHistory seen)
         (apiKey env) None) = Resolved r ->
  usableAudio env (r_audioData r) = true ->
  playResolves env = true ->
  onSendMessage env (OpenAI.transcription r) = None ->
  hasId (now1 env) (messages s) = false ->
  pending s = [] ->
  let s' := settle env speak 2
              (processAudioAndGetResponse env speak seen audioBlob s) in
  states (log s') = states (log s) ++ [Processing; Speaking; Idle]
  /\ filter isSpeech (log s') = filter isSpeech (log s)
  /\ filter isDone (log s') = filter isDone (log s) ++ [Ran PlaybackEnded]
  /\ messages s' = messages s
                   ++ [sent (OpenAI.transcription r) (pendingEntry env);
                       replyEntry env (textResponse r)]
  /\ voiceState s' = Idle
  /\ pending s' = []
  /\ transcription s' = OpenAI.transcription r.
Proof.
  intros Hk Hr Hu Hp Hn Hid Hpend s'. subst s'.
  unfold processAudioAndGetResponse. rewrite Hk.
  destruct (sendAudioToGPT4o _ _ _ _ _) as [[r'|m] reqs]; [|discriminate].
  cbn [fst] in Hr. inversion Hr; subst r'. clear Hr.
  rewrite SessionFacts.tellAll_log.
  unfold usableAudio in Hu.
  destruct (r_audioData r) as [d|] eqn:Ha; [|discriminate].
  apply andb_true_iff in Hu as [Hd Hu]. apply negb_true_iff in Hd.
  destruct s as [ms v t rc i e sd rt ac dr ap p n l].
  cbn [pending messages] in Hpend, Hid. subst p.
  unfold deliverReply, playReply.
  cbn -[js N.add N.eqb settle].
  rewrite Hd, Hu. cbn -[js N.add N.eqb settle]. rewrite Hn.
  cbn -[js N.add N.eqb]. rewrite Hp. cbn -[js N.add N.eqb].
  assert (Hmap : forall f : Message -> Message,
            map (fun msg => if (id msg =? now1 env)%N then f msg else msg) ms
            = ms).
  { intros f. unfold hasId in Hid. induction ms as [|x ms IH]; [reflexivity|].
    cbn in Hid. apply orb_false_iff in Hid as [Hx Hid].
    cbn [map]. rewrite Hx, (IH Hid). reflexivity. }
  pose proof (SessionFacts.states_sends reqs) as Hs1. unfold states in Hs1.
  rewrite !flat_map_app, !filter_app, Hs1,
    !SessionFacts.filter_sends by reflexivity.
  rewrite map_app, Hmap. cbn [map id]. rewrite N.eqb_refl.
  cbn -[js N.add]. rewrite !app_nil_r, <- !app_assoc.
  repeat split.
Qed.

(** An answer with audio, with the [speak] the component imports. *)
Lemma audio_reply_plays_witness :
  states (log (settle (Examples.audioTurn true true true)
                 SpeechSynthesisService_speak 2
                 (processAudioAndGetResponse (Examples.audioTurn true true true)
                    SpeechSynthesisService_speak [] Examples.blob
                    (initial []))))
  = [Processing; Speaking; Idle]
  /\ map status
       (messages (settle (Examples.audioTurn true true true)
                    SpeechSynthesisService_speak 2
                    (processAudioAndGetResponse
                       (Examples.audioTurn true true true)
                       SpeechSynthesisService_speak [] Examples.blob
                       (initial []))))
     = [Some Sent; Some Sent].
Proof.
  destruct (@audio_reply_plays (Examples.audioTurn true true true)
              SpeechSynthesisService_speak [] Examples.blob (initial [])
              Inputs.audioAnswer eq_refl eq_refl eq_refl eq_refl eq_refl
              eq_refl eq_refl) as (Hl & _ & _ & Hm & _).
  rewrite Hl, Hm. repeat split.
Defined.


(** X21 (both handlers).  No turn leaves the session in Processing:
    when a handler returns, the session is in Speaking, or it is in Error
    and the timer that returns it to Idle is the last thing left to run.
    (A text that is blank is not a turn: nothing changes.) *)
Theorem turn_leaves_processing (env : Env) (speak : SpeakResult)
    (seen : list Message) (audioBlob : Blob) (message : jsstring)
    (s : Session) :
  ended (processAudioAndGetResponse env speak seen audioBlob s)
  /\ (if blank message then handleSendMessage env speak message s = s
      else ended (handleSendMessage env speak message s)).
Proof.
  assert (Hfail : forall m mid s0, ended (handleApiError m (Some mid) s0)).
  { intros m mid s0. rewrite SessionFacts.handleApiError_fields.
    unfold ended. cbn [voiceState pending]. rewrite map_app. apply last_last. }
  assert (Hkey : forall m s0, ended (failWith m s0)).
  { intros m s0. destruct s0. unfold ended. cbn. rewrite map_app.
    apply last_last. }
  assert (Hreply : forall uid fin text audioData arg s0,
            ended (deliverReply env speak uid fin text audioData arg s0)).
  { intros uid fin text audioData arg s0. unfold deliverReply.
    set (s1 := setVoiceState Speaking _).
    assert (H1 : voiceState s1 = Speaking) by (subst s1; destruct s0; reflexivity).
    assert (H2 : forall a t, voiceState (Dom.stateOf (playReply env speak a t s1))
                             = Speaking).
    { intros a t. unfold playReply, fallbackToTextToSpeech.
      destruct s1. cbn in H1. subst.
      destruct a as [[|x d]|]; cbn [isEmpty];
        try destruct (atobOk env _);
        destruct (speechSynthesisSupported env), speak; reflexivity. }
    specialize (H2 audioData (content {| id := (now2 env + 1)%N;
                                          content := text; sender := Ai;
                                          timestamp := now2 env;
                                          status := Some Sent;
                                          errorMessage := None |})).
    destruct (playReply env speak audioData _ s1) as [s2|e s2];
      cbn [Dom.stateOf] in H2; [|apply Hfail].
    destruct (onSendMessage env arg); [apply Hfail|].
    unfold ended. destruct s2. cbn in *. rewrite H2. exact I. }
  split.
  - unfold processAudioAndGetResponse.
    destruct (isEmpty (apiKey env)); [apply Hkey|].
    destruct (sendAudioToGPT4o _ _ _ _ _) as [[r|m] reqs];
      [apply Hreply | apply Hfail].
  - unfold handleSendMessage. rewrite JsStrFacts.isEmpty_trim.
    destruct (blank message); [reflexivity|].
    destruct (isEmpty (apiKey env)); [apply Hkey|].
    destruct (sendMessageToGPT4o _ _ _ _ _) as [[r|m] reqs];
      [apply Hreply | apply Hfail].
Qed.

End TurnRuns.

(** ** Further properties of the hook-based component (VoiceChat.tsx) *)
Module ChatFacts.
Import JsStr OpenAI VoiceChatInterface UseVoiceState.

Lemma tellAll_keeps (reqs : list Request) (c : VoiceChat.Session) :
  VoiceChat.messages (VoiceChat.tellAll reqs c) = VoiceChat.messages c
  /\ VoiceChat.voice (VoiceChat.tellAll reqs c) = VoiceChat.voice c.
Proof.
  unfold VoiceChat.tellAll. revert c.
  induction reqs as [|q reqs IH]; intros c; [split; reflexivity|].
  cbn [fold_left]. destruct (IH (VoiceChat.tell (Sends q) c)) as [A B].
  rewrite A, B. split; reflexivity.
Qed.

End ChatFacts.

Section ChatRuns.
Import JsStr OpenAI VoiceChatInterface UseVoiceState.

(** X22 (VoiceChat.tsx, handleSendMessage).  When the request of a
    text turn fails, the component enters Error with the message of the
    failure and does nothing about the entry it had opened: the entry
    stays in the history with status sending, where VoiceChatInterface
    marks it as failed. *)
Theorem chat_text_failure_leaves_entry_sending (env : VoiceChat.Env)
    (message : jsstring) (s : VoiceChat.Session) (m : jsstring) :
  blank message = false ->
  fst (sendMessageToGPT4o (VoiceChat.backend env) message
         (formatConversationHistory (VoiceChat.history (VoiceChat.messages s)))
         (VoiceChat.apiKey env) None) = Rejected m ->
  VoiceChat.messages (VoiceChat.handleSendMessage env message s)
  = VoiceChat.messages s ++
    [{| id := VoiceChat.userId env; content := message; sender := User;
        timestamp := VoiceChat.clock env; status := Some Sending;
        errorMessage := None |}]
  /\ VoiceChat.voice (VoiceChat.handleSendMessage env message s)
     = {| state := Error; error := Some m |}.
Proof.
  intros Hb H1. unfold VoiceChat.handleSendMessage.
  rewrite JsStrFacts.isEmpty_trim, Hb.
  destruct (sendMessageToGPT4o _ _ _ _ _) as [[r|x] reqs]; [discriminate|].
  cbn [fst] in H1. inversion H1; subst.
  split; cbn;
    [rewrite (proj1 (ChatFacts.tellAll_keeps _ _)) | ]; reflexivity.
Qed.

Lemma chat_text_failure_leaves_entry_sending_witness :
  map status
    (VoiceChat.messages
       (VoiceChat.handleSendMessage (Examples.chatEnvOf Inputs.offlineBackend)
          (js "hello") Examples.chatSession))
  = [Some Sending]
  /\ state (VoiceChat.voice
              (VoiceChat.handleSendMessage
                 (Examples.chatEnvOf Inputs.offlineBackend)
                 (js "hello") Examples.chatSession))
     = Error.
Proof.
  destruct (@chat_text_failure_leaves_entry_sending
              (Examples.chatEnvOf Inputs.offlineBackend) (js "hello")
              Examples.chatSession (js "Failed to fetch") eq_refl eq_refl)
    as (Hm & Hv).
  rewrite Hm, Hv. split; reflexivity.
Defined.

(** X23 (VoiceChat.tsx, processAudioInput).  The same for an audio
    turn: on any failure of [sendAudioToGPT4o], a missing key included,
    the placeholder entry stays in the history with status sending and
    the component is in Error with the message of the failure. *)
Theorem chat_audio_failure_leaves_entry_sending (env : VoiceChat.Env)
    (audioBlob : Blob) (s : VoiceChat.Session) (m : jsstring) :
  fst (sendAudioToGPT4o (VoiceChat.backend env) audioBlob
         (formatConversationHistory (VoiceChat.history (VoiceChat.messages s)))
         (VoiceChat.apiKey env) None) = Rejected m ->
  VoiceChat.messages (VoiceChat.processAudioInput env audioBlob s)
  = VoiceChat.messages s ++
    [{| id := VoiceChat.userId env; content := js "Processing your audio...";
        sender := User; timestamp := VoiceChat.clock env;
        status := Some Sending; errorMessage := None |}]
  /\ VoiceChat.voice (VoiceChat.processAudioInput env audioBlob s)
     = {| state := Error; error := Some m |}.
Proof.
  intros H1. unfold VoiceChat.processAudioInput.
  destruct (sendAudioToGPT4o _ _ _ _ _) as [[r|x] reqs]; [discriminate|].
  cbn [fst] in H1. inversion H1; subst.
  split; cbn;
    [rewrite (proj1 (ChatFacts.tellAll_keeps _ _)) | ]; reflexivity.
Qed.

Lemma chat_audio_failure_leaves_entry_sending_witness :
  map status
    (VoiceChat.messages
       (VoiceChat.processAudioInput (Examples.chatEnvOf Inputs.offlineBackend)
          Examples.blob Examples.chatSession))
  = [Some Sending]
  /\ error (VoiceChat.voice
              (VoiceChat.processAudioInput
                 (Examples.chatEnvOf Inputs.offlineBackend)
                 Examples.blob Examples.chatSession))
     = Some (js "Failed to fetch").
Proof.
  destruct (@chat_audio_failure_leaves_entry_sending
              (Examples.chatEnvOf Inputs.offlineBackend) Examples.blob
              Examples.chatSession (js "Failed to fetch") eq_refl)
    as (Hm & Hv).
  rewrite Hm, Hv. split; reflexivity.
Defined.

End ChatRuns.

(** ** Further properties of the hooks *)
Section VoiceStateRuns.
Import JsStr VoiceChatInterface UseVoiceState VoiceUiRun.

(** X24 (use-voice-state.ts).  Whatever [setState], [setError] and
    [clearError] calls are made, in whatever order and from whatever
    initial state, an error message is held only while the state is
    Error.  (The converse does not hold: [setState("error")] enters Error
    without a message.) *)
Theorem error_shown_only_in_error_state (initialState : VoiceState)
    (ops : list VoiceOp) :
  let u := fold_left call ops (useVoiceState initialState) in
  match error u with
  | Some _ => state u = Error
  | None => True
  end.
Proof.
  cbn zeta.
  assert (H : forall u, match error u with
                        | Some _ => state u = Error
                        | None => True
                        end ->
              match error (fold_left call ops u) with
              | Some _ => state (fold_left call ops u) = Error
              | None => True
              end).
  { induction ops as [|op ops IH]; intros u Hu; [exact Hu|].
    cbn [fold_left]. apply IH.
    destruct op as [[| | | |]| |]; cbn; auto; destruct (error u); auto. }
  apply H. exact I.
Qed.

End VoiceStateRuns.

Module HistoryFacts.
Import JsStr OpenAI VoiceChatInterface UseChatHistory.

Lemma filter_absent (mid : N) (prev : list Message) :
  found mid prev = false ->
  filter (fun msg => negb (id msg =? mid)%N) prev = prev.
Proof.
  unfold found. induction prev as [|x prev IH]; [reflexivity|].
  cbn. intros H. apply orb_false_iff in H as [Hx H].
  rewrite Hx. cbn. rewrite (IH H). reflexivity.
Qed.

Lemma removeMessage_filter (mid : N) (prev : list Message) :
  removeMessage mid prev = filter (fun msg => negb (id msg =? mid)%N) prev.
Proof.
  unfold removeMessage. destruct (found mid prev) eqn:E; [reflexivity|].
  symmetry. apply filter_absent, E.
Qed.

Lemma updateMessage_map (mid : N) (update : MessageUpdate)
    (prev : list Message) :
  updateMessage mid update prev =
  map (fun msg => if (id msg =? mid)%N then spread msg update else msg) prev.
Proof.
  unfold updateMessage. destruct (found mid prev) eqn:E; [reflexivity|].
  unfold found in E. induction prev as [|x prev IH]; [reflexivity|].
  cbn in E. apply orb_false_iff in E as [Hx E].
  cbn. rewrite Hx, <- (IH E). reflexivity.
Qed.

End HistoryFacts.

Section HistoryRuns.
Import JsStr OpenAI VoiceChatInterface UseChatHistory.

(** X25 (use-chat-history.ts).  Adding a message under an id that
    is not in the history and removing that id again gives the history
    back as it was; in between the id is found. *)
Theorem add_then_remove (newId now : N) (message : NewMessage)
    (prev : list Message) :
  found newId prev = false ->
  removeMessage newId (addMessage newId now message prev) = prev
  /\ found newId (addMessage newId now message prev) = true.
Proof.
  intros H. rewrite HistoryFacts.removeMessage_filter. unfold addMessage.
  rewrite filter_app. cbn. rewrite N.eqb_refl. cbn.
  rewrite app_nil_r, (HistoryFacts.filter_absent _ _ H).
  split; [reflexivity|]. unfold found. rewrite existsb_app. cbn.
  rewrite N.eqb_refl. apply orb_true_r.
Qed.

Lemma add_then_remove_witness :
  removeMessage 2 (addMessage 2 1000 Inputs.greeting [Examples.sendingEntry])
  = [Examples.sendingEntry].
Proof.
  exact (proj1 (@add_then_remove 2 1000 Inputs.greeting
                  [Examples.sendingEntry] eq_refl)).
Defined.

(** X26 (use-chat-history.ts).  [updateMessage] changes neither
    the ids, nor the senders, nor the order or number of the entries; the
    entries with another id are left as they are, and every entry with
    the id, not only the first, takes the fields the update gives. *)
Theorem update_touches_only_its_entries (mid : N) (update : MessageUpdate)
    (prev : list Message) :
  map id (updateMessage mid update prev) = map id prev
  /\ map sender (updateMessage mid update prev) = map sender prev
  /\ filter (fun msg => negb (id msg =? mid)%N) (updateMessage mid update prev)
     = filter (fun msg => negb (id msg =? mid)%N) prev
  /\ filter (fun msg => (id msg =? mid)%N) (updateMessage mid update prev)
     = map (fun msg => spread msg update)
           (filter (fun msg => (id msg =? mid)%N) prev).
Proof.
  rewrite HistoryFacts.updateMessage_map.
  repeat split; induction prev as [|x prev IH]; try reflexivity; cbn;
    destruct (id x =? mid)%N eqn:E; cbn; rewrite ?E; cbn; rewrite IH;
    reflexivity.
Qed.

(** X27 (use-chat-history.ts).  [removeMessage] removes every
    entry with the id, not only the first, keeps all the others in their
    order, and has nothing left to do when called again. *)
Theorem remove_drops_every_entry_with_the_id (mid : N)
    (prev : list Message) :
  found mid (removeMessage mid prev) = false
  /\ filter (fun msg => negb (id msg =? mid)%N) (removeMessage mid prev)
     = filter (fun msg => negb (id msg =? mid)%N) prev
  /\ removeMessage mid (removeMessage mid prev) = removeMessage mid prev
  /\ List.length (removeMessage mid prev) <= List.length prev.
Proof.
  rewrite !HistoryFacts.removeMessage_filter.
  assert (H : found mid (filter (fun msg => negb (id msg =? mid)%N) prev)
              = false).
  { unfold found. induction prev as [|x prev IH]; [reflexivity|].
    cbn. destruct (id x =? mid)%N eqn:E; cbn; [exact IH|].
    rewrite E. exact IH. }
  split; [exact H|].
  rewrite (HistoryFacts.filter_absent _ _ H).
  repeat split. apply filter_length_le.
Qed.

End HistoryRuns.

Module SpeechFacts.
Import JsStr SpeechSynthesisService.

Lemma Qle_bool_refl (q : Q) : Qle_bool q q = true.
Proof. apply Qle_bool_iff, Qle_refl. Qed.

Lemma Qle_bool_false (p q : Q) : Qle_bool p q = false -> Qle_bool q p = true.
Proof.
  intros H. apply Qle_bool_iff, Qlt_le_weak, Qnot_le_lt. intros H1.
  apply Qle_bool_iff in H1. congruence.
Qed.

Lemma Qle_bool_trans (p q r : Q) :
  Qle_bool p q = true -> Qle_bool q r = true -> Qle_bool p r = true.
Proof.
  intros H1 H2. apply Qle_bool_iff in H1, H2. apply Qle_bool_iff.
  eapply Qle_trans; eassumption.
Qed.

Lemma clamp_spec (lo hi : Q) (x : JsNumber) :
  Qle_bool lo hi = true ->
  clampedTo lo hi x (Math_max (Finite lo) (Math_min (Finite hi) x)).
Proof.
  intros Hlh. destruct x as [| |q|]; cbn.
  - reflexivity.
  - rewrite Qle_bool_refl, Hlh. repeat split; discriminate.
  - destruct (Qle_bool hi q) eqn:E1.
    + rewrite Hlh. cbn. rewrite Hlh, Qle_bool_refl.
      rewrite (Qle_bool_trans _ _ _ Hlh E1). cbn.
      split; [reflexivity|]. split; [|split; [discriminate | reflexivity]].
      intros H. apply Qle_bool_iff in H. apply Qle_bool_iff in E1.
      apply Qle_antisym; assumption.
    + rewrite (Qle_bool_false _ _ E1). cbn.
      destruct (Qle_bool lo q) eqn:E2; cbn.
      * rewrite E2, (Qle_bool_false _ _ E1). cbn.
        repeat split; discriminate.
      * rewrite Qle_bool_refl, Hlh. repeat split; discriminate.
  - rewrite Hlh. cbn. rewrite Hlh, Qle_bool_refl.
    repeat split; discriminate.
Qed.

(** Outside of [NaN], a number is in the range, under it or over it. *)
Lemma range_cases (lo hi : Q) (x : JsNumber) :
  x <> NaN -> within lo hi x || under lo x || over hi x = true.
Proof.
  destruct x as [| |q|]; cbn; try reflexivity; [congruence|].
  intros _. destruct (Qle_bool lo q), (Qle_bool q hi); reflexivity.
Qed.

End SpeechFacts.

(** ** Further properties of speech synthesis *)
Section SpeechRuns.
Import JsStr SpeechSynthesisService.

(** X28 (speech-synthesis.service.ts, configureSpeechUtterance).  A
    rate, pitch or volume that is given reaches the utterance within its
    range (0.1 to 10, 0 to 2, 0 to 1): a value in the range as it is, a
    value under the range, minus infinity included, as the lower bound,
    and a value over it, infinity included, as the upper bound.  The
    exception is [NaN], which is passed on.  A setting that is not given
    is left alone, and so is the text. *)
Theorem utterance_settings_are_clamped
    (utterance : SpeechSynthesisUtterance) (options : SpeechOptions) :
  let configured := configureSpeechUtterance utterance options in
  setting (1 # 10) 10 (rate options) (u_rate utterance) (u_rate configured)
  /\ setting 0 2 (pitch options) (u_pitch utterance) (u_pitch configured)
  /\ setting 0 1 (volume options) (u_volume utterance) (u_volume configured)
  /\ u_text configured = u_text utterance.
Proof.
  cbn zeta. unfold configureSpeechUtterance, setting.
  cbn [u_rate u_pitch u_volume u_text].
  destruct (rate options), (pitch options), (volume options);
    repeat split; apply SpeechFacts.clamp_spec; reflexivity.
Qed.

(** X29 (speech-synthesis.service.ts, getDefaultVoice).  There is
    no default voice exactly when speech synthesis is not supported or
    the browser lists no voice.  Otherwise it is one of the listed
    voices: a local voice whose language tag contains "en" if there is
    one, and the first voice of the list if there is none. *)
Theorem default_voice_choice (supported : bool)
    (voices : list SpeechSynthesisVoice) :
  match getDefaultVoice supported voices with
  | None => supported = false \/ voices = []
  | Some v =>
    supported = true /\ In v voices
    /\ (isLocalEnglish v = true
        \/ (forallb (fun x => negb (isLocalEnglish x)) voices = true
            /\ hd_error voices = Some v))
  end.
Proof.
  unfold getDefaultVoice, getAvailableVoices.
  destruct supported; cbn [negb]; [|left; reflexivity].
  destruct voices as [|first rest]; [right; reflexivity|].
  destruct (find isLocalEnglish (first :: rest)) as [v|] eqn:E.
  - apply find_some in E as [Hin Hv]. auto.
  - split; [reflexivity|]. split; [left; reflexivity|]. right.
    split; [|reflexivity]. apply forallb_forall. intros x Hx.
    apply negb_true_iff. exact (find_none _ _ E x Hx).
Qed.

End SpeechRuns.
